(** * Zonage_PNA: the dataset loader and the zone matcher

    A shallow embedding of [src/Zonage_PNA.py]: the module-level loop that
    loads and classifies the uploaded GeoJSON files (lines 161-240) and the
    function [is_in_pna] (lines 84-128) that tests a point against every
    feature of every loaded file.

    The program is dynamically typed and works on whatever [json.load]
    returns, so the embedding keeps Python's values, Python's exceptions and
    the exact places where the source catches them. *)

From stdpp Require Import base list strings sorting.
From Stdlib Require Import ZArith Ascii DecimalString.

Open Scope string_scope.
Open Scope list_scope.

(** ** Python values and exceptions *)

(** The values [json.load] builds. A float is held by the text Python's
    [str] prints for it; strings are UTF-8 byte strings. Dicts keep insertion
    order, so they are association lists read at the first occurrence of a
    key. *)
Unset Elimination Schemes.
Inductive pyval : Type :=
| PyNone
| PyBool (b : bool)
| PyInt (n : Z)
| PyFloat (text : string)
| PyStr (s : string)
| PyList (items : list pyval)
| PyDict (entries : list (string * pyval)).
Set Elimination Schemes.

Inductive exn : Type :=
| KeyError
| TypeError
| AttributeError
| JSONDecodeError
| GeometryError.

Inductive result (A : Type) : Type :=
| Ok (a : A)
| Raise (e : exn).
Arguments Ok {A} a.
Arguments Raise {A} e.

#[global] Instance result_ret : MRet result := fun A a => Ok a.
#[global] Instance result_bind : MBind result := fun A B f m =>
  match m with
  | Ok a => f a
  | Raise e => Raise e
  end.
#[global] Instance result_fmap : FMap result := fun A B f m =>
  match m with
  | Ok a => Ok (f a)
  | Raise e => Raise e
  end.

Definition is_Ok {A} (m : result A) : Prop := exists a, m = Ok a.

(** ** Strings *)

(** [needle in hay] on two [str]. *)
Fixpoint is_substring (needle hay : string) : bool :=
  String.prefix needle hay ||
  match hay with
  | "" => false
  | String _ rest => is_substring needle rest
  end.

(** [s.split('.')]: never empty, the pieces between the dots. *)
Fixpoint split_dot (s : string) : list string :=
  match s with
  | "" => [""]
  | String c rest =>
      if Ascii.eqb c "."%char then "" :: split_dot rest
      else match split_dot rest with
           | piece :: pieces => String c piece :: pieces
           | [] => [String c ""]
           end
  end.

(** A byte 10xxxxxx continues the UTF-8 encoding of a code point. *)
Definition is_continuation (c : Ascii.ascii) : bool :=
  let n := Ascii.nat_of_ascii c in (128 <=? n)%nat && (n <? 192)%nat.

(** The characters (code points) of a [str], each as a one-character
    string: what iterating over a [str] yields. *)
Fixpoint chars (s : string) : list string :=
  match s with
  | "" => []
  | String c rest =>
      let starts_inside :=
        match rest with
        | String c' _ => is_continuation c'
        | "" => false
        end in
      match chars rest with
      | h :: t => if starts_inside then String c h :: t else String c "" :: h :: t
      | [] => [String c ""]
      end
  end.

(** [str.lower] on ASCII text. Python lowers every cased code point; the
    loader below takes [str.lower] as a parameter, and this instance is what
    it is in the examples, whose file names are ASCII. *)
Definition ascii_lower_char (c : Ascii.ascii) : Ascii.ascii :=
  let n := Ascii.nat_of_ascii c in
  if (65 <=? n)%nat && (n <=? 90)%nat then Ascii.ascii_of_nat (n + 32) else c.

Fixpoint ascii_lower (s : string) : string :=
  match s with
  | "" => ""
  | String c rest => String (ascii_lower_char c) (ascii_lower rest)
  end.

(** ** Dicts *)

Definition dict : Type := list (string * pyval).

Fixpoint dict_get (k : string) (d : dict) : option pyval :=
  match d with
  | [] => None
  | (k', v) :: rest => if String.eqb k k' then Some v else dict_get k rest
  end.

(** [d[k] = v]: an existing key keeps its place, a new one goes last. *)
Fixpoint dict_set (k : string) (v : pyval) (d : dict) : dict :=
  match d with
  | [] => [(k, v)]
  | (k', v') :: rest =>
      if String.eqb k k' then (k, v) :: rest else (k', v') :: dict_set k v rest
  end.

(** ** The operations of Python the program applies to loaded values *)

(** [k in v] for a [str] k. *)
Definition py_contains (k : string) (v : pyval) : result bool :=
  match v with
  | PyDict d => Ok (bool_decide (is_Some (dict_get k d)))
  | PyList l =>
      Ok (existsb (fun x => match x with PyStr s => String.eqb s k | _ => false end) l)
  | PyStr s => Ok (is_substring k s)
  | _ => Raise TypeError
  end.

(** [v[k]] for a [str] k. *)
Definition py_getitem (v : pyval) (k : string) : result pyval :=
  match v with
  | PyDict d => match dict_get k d with Some x => Ok x | None => Raise KeyError end
  | _ => Raise TypeError
  end.

(** [v[k] = x]; the result is the object [v] afterwards. *)
Definition py_setitem (v : pyval) (k : string) (x : pyval) : result pyval :=
  match v with
  | PyDict d => Ok (PyDict (dict_set k x d))
  | _ => Raise TypeError
  end.

(** [v.get(k, default)]. *)
Definition py_get (v : pyval) (k : string) (default : pyval) : result pyval :=
  match v with
  | PyDict d => Ok (match dict_get k d with Some x => x | None => default end)
  | _ => Raise AttributeError
  end.

(** The items [for x in v] runs through. *)
Definition py_iter (v : pyval) : result (list pyval) :=
  match v with
  | PyList l => Ok l
  | PyStr s => Ok (PyStr <$> chars s)
  | PyDict d => Ok ((fun kv => PyStr kv.1) <$> d)
  | _ => Raise TypeError
  end.

(** [v[:n]]. On a dict the exception is [TypeError] up to Python 3.11 and
    [KeyError] from 3.12 on; the program catches both alike. *)
Definition py_slice_to (n : nat) (v : pyval) : result pyval :=
  match v with
  | PyList l => Ok (PyList (take n l))
  | PyStr s => Ok (PyStr (String.concat "" (take n (chars s))))
  | _ => Raise TypeError
  end.

(** [len(v)]. *)
Definition py_len (v : pyval) : result nat :=
  match v with
  | PyList l => Ok (length l)
  | PyStr s => Ok (length (chars s))
  | PyDict d => Ok (length d)
  | _ => Raise TypeError
  end.

(** ** The loader (module level, lines 136-240) *)

(** An uploaded file: its name and what [json.load] makes of its bytes,
    either the value or the exception it raises on text that is not JSON. *)
Record uploaded_file : Type := {
  name : string;
  parsed : result pyval
}.

(** An entry of [all_data_sources]. *)
Record file_info : Type := {
  data : pyval;
  type : string
}.

(** A [dict] keyed by file name, in insertion order. *)
Abbreviation sources := (list (string * file_info)).

(** [all_data_sources[file_name] = info]. *)
Fixpoint sources_set (file_name : string) (info : file_info) (srcs : sources) : sources :=
  match srcs with
  | [] => [(file_name, info)]
  | (k, old) :: rest =>
      if String.eqb file_name k then (file_name, info) :: rest
      else (k, old) :: sources_set file_name info rest
  end.

(** What the page shows: one constructor per [st.success] / [st.error] of
    the modelled code. *)
Inductive message : Type :=
| Loaded (file_name current_type : string) (zones : nat)
| InvalidGeoJSON (file_name : string)
| LoadError (file_name : string) (e : exn)
| CheckError (e : exn).

Record session : Type := {
  all_data_sources : sources;
  file_types : list (string * string);
  shown : list message
}.

Definition empty_session : session :=
  {| all_data_sources := []; file_types := []; shown := [] |}.

Definition show (m : message) (s : session) : session :=
  {| all_data_sources := all_data_sources s;
     file_types := file_types s;
     shown := shown s ++ [m] |}.

Fixpoint assoc_set (k v : string) (l : list (string * string)) : list (string * string) :=
  match l with
  | [] => [(k, v)]
  | (k', v') :: rest =>
      if String.eqb k k' then (k, v) :: rest else (k', v') :: assoc_set k v rest
  end.

(** Lines 229-234. *)
Definition store (file_name : string) (info : file_info) (s : session) : session :=
  {| all_data_sources := sources_set file_name info (all_data_sources s);
     file_types := assoc_set file_name "geojson" (file_types s);
     shown := shown s |}.

(** The choices of the select box (lines 138-148). *)
Definition automatic : string := "Détection automatique".
Definition forced_choices : list string :=
  [ "Chiroptères"; "Odonates"; "Pie-grièche grise"; "Pie-grièche méridionale";
    "Pie-grièche à tête rousse" ].
Definition not_detected : string := "Type non détecté".
Definition unknown_type : string := "Type inconnu".

Section Loader.

(** [str.lower], and [str] on a list or a dict (the text of a container
    quotes and escapes its strings): both are Python's, not the
    program's. *)
Variable lower : string -> string.
Variable str_of_container : pyval -> string.

(** [str(v)]. *)
Definition py_str (v : pyval) : string :=
  match v with
  | PyNone => "None"
  | PyBool true => "True"
  | PyBool false => "False"
  | PyInt n => NilZero.string_of_int (Z.to_int n)
  | PyFloat text => text
  | PyStr s => s
  | PyList _ | PyDict _ => str_of_container v
  end.

(** [uploaded_file.name.split('.')[-1].lower()], line 164. *)
Definition file_extension (file_name : string) : string :=
  lower (List.last (split_dot file_name) "").

(** Lines 168-182: [detected_type] after the file-name rules. [and] binds
    tighter than [or] in the last rule. *)
Definition filename_type (file_name : string) : string :=
  let l := lower file_name in
  if is_substring "chiroptere" l || is_substring "chauve" l then "Chiroptères"
  else if is_substring "odonat" l || is_substring "libellule" l then "Odonates"
  else if is_substring "griseche" l && is_substring "grise" l then "Pie-grièche grise"
  else if is_substring "griseche" l && is_substring "merid" l then "Pie-grièche méridionale"
  else if is_substring "griseche" l && is_substring "rousse" l
          || is_substring "tete rousse" l then "Pie-grièche à tête rousse"
  else not_detected.

(** Lines 203-218 on one species name: [Some t] assigns [t] and breaks out
    of the loop, [None] goes on to the next feature. *)
Definition species_type (espece : string) : option string :=
  if is_substring "chauve" espece || is_substring "chiroptère" espece
     || is_substring "chiroptere" espece then Some "Chiroptères"
  else if is_substring "odonates" espece || is_substring "libellule" espece
  then Some "Odonates"
  else if is_substring "grièche" espece || is_substring "grieche" espece then
    if is_substring "grise" espece && negb (is_substring "tête" espece)
       && negb (is_substring "tete" espece) then Some "Pie-grièche grise"
    else if is_substring "mérid" espece || is_substring "merid" espece
    then Some "Pie-grièche méridionale"
    else if is_substring "tête rousse" espece || is_substring "tete rousse" espece
    then Some "Pie-grièche à tête rousse"
    else None
  else None.

(** The loop of lines 196-218 over the features it is given; the value is
    [detected_type] when the loop ends. *)
Fixpoint scan_content (features : list pyval) : result string :=
  match features with
  | [] => Ok not_detected
  | feature :: rest =>
      has_properties ← py_contains "properties" feature;
      if has_properties : bool then
        props ← py_getitem feature "properties";
        has_espece ← py_contains "n_espece" props;
        if has_espece : bool then
          n_espece ← py_getitem props "n_espece";
          let espece := lower (py_str n_espece) in
          match species_type espece with
          | Some t => Ok t
          | None => scan_content rest
          end
        else scan_content rest
      else scan_content rest
  end.

(** Lines 196-218 with the slice of line 196. *)
Definition content_type (data : pyval) : result string :=
  features ← py_getitem data "features";
  first ← py_slice_to 10 features;
  items ← py_iter first;
  scan_content items.

(** Line 192: ['type' in data and 'features' in data]. *)
Definition is_geojson (data : pyval) : result bool :=
  has_type ← py_contains "type" data;
  if has_type : bool then py_contains "features" data else Ok false.

(** The document of a file that gets as far as line 193: the extension
    is one of the two, the text is JSON and line 192 is true. *)
Definition accepted (f : uploaded_file) : option pyval :=
  if bool_decide (file_extension (name f) ∈ ["geojson"; "json"]) then
    match parsed f with
    | Ok data => match is_geojson data with
                 | Ok true => Some data
                 | _ => None
                 end
    | Raise _ => None
    end
  else None.

(** The body of the [try] of lines 163-238 for one file: the session
    afterwards, and the exception if one escapes. What was stored before
    an exception stays stored. *)
Definition load_one (pna_type : string) (f : uploaded_file) (s : session)
  : session * result unit :=
  let file_name := name f in
  let detected_type :=
    if String.eqb pna_type automatic then filename_type file_name else not_detected in
  let current_type :=
    if String.eqb pna_type automatic then detected_type else pna_type in
  if bool_decide (file_extension file_name ∈ ["geojson"; "json"]) then
    match parsed f with
    | Raise e => (s, Raise e)
    | Ok data =>
        match is_geojson data with
        | Raise e => (s, Raise e)
        | Ok false => (show (InvalidGeoJSON file_name) s, Ok ())
        | Ok true =>
            let typed : result string :=
              if String.eqb pna_type automatic && String.eqb detected_type not_detected
              then
                detected_type ← content_type data;
                Ok (if negb (String.eqb detected_type not_detected)
                    then detected_type else current_type)
              else Ok current_type in
            match typed with
            | Raise e => (s, Raise e)
            | Ok current_type =>
                let current_type :=
                  if String.eqb current_type not_detected then unknown_type
                  else current_type in
                let s := store file_name {| data := data; type := current_type |} s in
                match py_getitem data "features" ≫= py_len with
                | Raise e => (s, Raise e)
                | Ok zones => (show (Loaded file_name current_type zones) s, Ok ())
                end
            end
        end
    end
  else (s, Ok ()).

(** One turn of the loop of line 162, with the [except] of line 239. *)
Definition process_uploaded_file (pna_type : string) (s : session) (f : uploaded_file)
  : session :=
  match load_one pna_type f s with
  | (s', Ok _) => s'
  | (s', Raise e) => show (LoadError (name f) e) s'
  end.

(** Lines 151-240. *)
Definition load_uploaded_files (pna_type : string) (uploaded_files : list uploaded_file)
  : session :=
  fold_left (process_uploaded_file pna_type) uploaded_files empty_session.

End Loader.

(** ** The matcher: [is_in_pna] (lines 84-128) *)

(** [json.load] builds a fresh object for every JSON object and array, so
    the loaded files form trees without sharing and an object is known by
    its place. The only objects [is_in_pna] writes to are the [properties]
    dicts of features. A reference to one is the place of its feature: the
    position of the file in [all_data_sources] and the position of the
    feature in the file's [features] list. The function works on the
    store, returns the store as it is afterwards, and its results are
    references into it: [results.append(properties)] appends the dict
    itself. *)
Definition ref : Type := nat * nat.

(** What a call leaves behind and gives back: the datasets afterwards, the
    [st.error] of line 127 if it ran, and the returned pair. *)
Record outcome : Type := {
  store_after : sources;
  reported : list message;
  returned : bool * option (list ref)
}.

(** The list object behind [data['features']], when it is one. *)
Definition feature_list (data : pyval) : option (list pyval) :=
  match data with
  | PyDict d => match dict_get "features" d with
                | Some (PyList fs) => Some fs
                | _ => None
                end
  | _ => None
  end.

Definition feature_at (srcs : sources) (r : ref) : option pyval :=
  entry ← srcs !! r.1;
  fs ← feature_list (data entry.2);
  fs !! r.2.

(** The dict a reference stands for, read in a given store. *)
Definition properties_at (srcs : sources) (r : ref) : option pyval :=
  feature ← feature_at srcs r;
  match py_getitem feature "properties" with
  | Ok p => Some p
  | Raise _ => None
  end.

(** The items the loop of line 102 runs through for one file, or the
    exception that ends the whole call. *)
Definition features_of (info : file_info) : result (list pyval) :=
  py_getitem (data info) "features" ≫= py_iter.

(** Every file has a [features] the loop can run through: no exception
    leaves the inner [try]. *)
Definition readable (srcs : sources) : Prop :=
  Forall (fun entry : string * file_info => is_Ok (features_of entry.2)) srcs.

(** The returned pair as the caller reads it: each result is the dict the
    reference stands for, in the store the call leaves. *)
Definition emitted (o : outcome) : bool * option (list (option pyval)) :=
  ((returned o).1, fmap (M := list) (properties_at (store_after o)) <$> (returned o).2).

(** The references of the returned list, none when it is [None]. *)
Definition result_refs (o : outcome) : list ref :=
  default [] (returned o).2.

(** File order, then feature order. *)
Definition ref_lt (r1 r2 : ref) : Prop :=
  r1.1 < r2.1 \/ (r1.1 = r2.1 /\ r1.2 < r2.2).

Section Matcher.

(** Shapely: coordinates, geometries, [Point(x, y)], [g.buffer(d)],
    [shape(geojson)], [g.contains(h)] and [g.intersects(h)]. [shape]
    raises on a geometry it cannot read; the predicates are given the
    same latitude. [Point] and [buffer] are called on the two floats of the
    query and do not raise. *)
Variable coord : Type.
Variable geom : Type.
Variable Point : coord -> coord -> geom.
Variable buffer : geom -> Z -> geom.
Variable shape : pyval -> result geom.
Variable contains : geom -> geom -> result bool.
Variable intersects : geom -> geom -> result bool.

Section Query.

Variable point_l93 : geom.
Variable file_name data_type : string.

(** Line 99. *)
Definition point_buffer : geom := buffer point_l93 1.

(** Line 108: [pna_shape.contains(point_l93) or
    pna_shape.intersects(point_buffer)]. *)
Definition match_test (pna_shape : geom) : result bool :=
  inside ← contains pna_shape point_l93;
  if inside : bool then Ok true else intersects pna_shape point_buffer.

(** Lines 110-116 on the object [properties]: the object afterwards.
    The first step that can write also is the first that can raise, so
    an exception leaves the object as it was. *)
Definition stamp (properties : pyval) : result pyval :=
  properties ←
    (if String.eqb data_type "Chiroptères" then
       enjeu ← py_get properties "t_enjeux" (PyStr "Indéterminé");
       py_setitem properties "enjeu_détaillé" enjeu
     else Ok properties);
  properties ← py_setitem properties "type_pna" (PyStr data_type);
  py_setitem properties "fichier_source" (PyStr file_name).

(** The body of the inner [try], lines 104-118: [Some] of the stamped
    [properties] object when the feature matched and was appended. *)
Definition try_feature (feature : pyval) : result (option pyval) :=
  geometry ← py_getitem feature "geometry";
  pna_shape ← shape geometry;
  properties ← py_getitem feature "properties";
  matched ← match_test pna_shape;
  if matched : bool then Some <$> stamp properties else Ok None.

(** The feature object once its [properties] has been written to. *)
Definition with_properties (feature properties : pyval) : pyval :=
  match feature with
  | PyDict d => PyDict (dict_set "properties" properties d)
  | _ => feature
  end.

(** One turn of the loop of line 102, [except ...: continue] included:
    the feature afterwards and whether it was appended. *)
Definition visit_feature (feature : pyval) : pyval * bool :=
  match try_feature feature with
  | Ok (Some properties) => (with_properties feature properties, true)
  | Ok None => (feature, false)
  | Raise _ => (feature, false)
  end.

(** The loop of lines 102-120 over the features of file number [i],
    from feature number [j] on: the features afterwards and [results]
    afterwards. *)
Fixpoint scan_features (i : nat) (results : list ref) (j : nat) (features : list pyval)
  : list pyval * list ref :=
  match features with
  | [] => ([], results)
  | feature :: rest =>
      let '(feature, appended) := visit_feature feature in
      let results := if appended : bool then results ++ [(i, j)] else results in
      let '(rest, results) := scan_features i results (S j) rest in
      (feature :: rest, results)
  end.

(** *** The inner loop read as list functions *)

Definition appended (feature : pyval) : bool := (visit_feature feature).2.

Definition visited (features : list pyval) : list pyval :=
  (fun feature => (visit_feature feature).1) <$> features.

Fixpoint appended_refs (i j : nat) (features : list pyval) : list ref :=
  match features with
  | [] => []
  | feature :: rest =>
      (if appended feature then [(i, j)] else []) ++ appended_refs i (S j) rest
  end.

(** The stamped [properties] of a feature that matches. *)
Definition match_of (feature : pyval) : option pyval :=
  match try_feature feature with
  | Ok (Some properties) => Some properties
  | _ => None
  end.

(** Lines 110-116 on the entries of a dict. *)
Definition stamped (d : dict) : dict :=
  let d :=
    if String.eqb data_type "Chiroptères"
    then dict_set "enjeu_détaillé"
           (default (PyStr "Indéterminé") (dict_get "t_enjeux" d)) d
    else d in
  dict_set "fichier_source" (PyStr file_name) (dict_set "type_pna" (PyStr data_type) d).

(** The geometry of the feature is read into a shape on which the test
    of line 108 is true. *)
Definition geometry_matches (feature : pyval) : Prop :=
  exists geometry pna_shape,
    py_getitem feature "geometry" = Ok geometry /\
    shape geometry = Ok pna_shape /\
    match_test pna_shape = Ok true.

Definition has_properties_dict (feature : pyval) : Prop :=
  exists d, py_getitem feature "properties" = Ok (PyDict d).

(** [shape(feature['geometry'])] raises. *)
Definition unreadable_geometry (feature : pyval) : Prop :=
  exists e, py_getitem feature "geometry" ≫= shape = Raise e.

End Query.

(** [data] with its [features] list as the loop left it. When
    [data['features']] is a [str] or a dict the loop ran over fresh
    strings and nothing was written. *)
Definition with_features (data : pyval) (features : list pyval) : pyval :=
  match data with
  | PyDict d => match dict_get "features" d with
                | Some (PyList _) => PyDict (dict_set "features" (PyList features) d)
                | _ => data
                end
  | _ => data
  end.

(** The loop of lines 94-120 from file number [i] on. An exception
    outside the inner [try] ends it; what was written before stays
    written. *)
Fixpoint scan_sources (point_l93 : geom) (results : list ref) (i : nat) (srcs : sources)
  : sources * result (list ref) :=
  match srcs with
  | [] => ([], Ok results)
  | (file_name, file_info) :: rest =>
      let data_source := data file_info in
      let data_type := type file_info in
      match py_getitem data_source "features" ≫= py_iter with
      | Raise e => ((file_name, file_info) :: rest, Raise e)
      | Ok features =>
          let '(features, results) :=
            scan_features point_l93 file_name data_type i results 0 features in
          let file_info :=
            {| data := with_features data_source features; type := data_type |} in
          let '(rest, r) := scan_sources point_l93 results (S i) rest in
          ((file_name, file_info) :: rest, r)
      end
  end.

(** *** The outer loop read as list functions *)

Fixpoint all_appended (point_l93 : geom) (i : nat) (srcs : sources) : result (list ref) :=
  match srcs with
  | [] => Ok []
  | (file_name, file_info) :: rest =>
      features ← features_of file_info;
      later ← all_appended point_l93 (S i) rest;
      Ok (appended_refs point_l93 file_name (type file_info) i 0 features ++ later)
  end.

Fixpoint store_left (point_l93 : geom) (srcs : sources) : sources :=
  match srcs with
  | [] => []
  | (file_name, file_info) :: rest =>
      match features_of file_info with
      | Raise _ => srcs
      | Ok features =>
          (file_name,
           {| data := with_features (data file_info)
                        (visited point_l93 file_name (type file_info) features);
              type := type file_info |}) :: store_left point_l93 rest
      end
  end.

Fixpoint all_matches (point_l93 : geom) (srcs : sources) : result (list pyval) :=
  match srcs with
  | [] => Ok []
  | (file_name, file_info) :: rest =>
      features ← features_of file_info;
      later ← all_matches point_l93 rest;
      Ok (omap (match_of point_l93 file_name (type file_info)) features ++ later)
  end.

Definition is_in_pna (lat lon x_l93 y_l93 : coord) (all_data_sources : sources) : outcome :=
  let point_wgs84 := Point lon lat in
  let point_l93 := Point x_l93 y_l93 in
  match scan_sources point_l93 [] 0 all_data_sources with
  | (srcs, Ok results) =>
      {| store_after := srcs;
         reported := [];
         returned := match results with
                     | [] => (false, None)
                     | _ :: _ => (true, Some results)
                     end |}
  | (srcs, Raise e) =>
      {| store_after := srcs;
         reported := [CheckError e];
         returned := (false, None) |}
  end.

End Matcher.

Arguments point_buffer {geom} buffer point_l93.
Arguments match_test {geom} buffer contains intersects point_l93 pna_shape.
Arguments try_feature {geom} buffer shape contains intersects
  point_l93 file_name data_type feature.
Arguments visit_feature {geom} buffer shape contains intersects
  point_l93 file_name data_type feature.
Arguments scan_features {geom} buffer shape contains intersects
  point_l93 file_name data_type i results j features.
Arguments scan_sources {geom} buffer shape contains intersects
  point_l93 results i srcs.
Arguments is_in_pna {coord geom} Point buffer shape contains intersects
  lat lon x_l93 y_l93 all_data_sources.
Arguments appended {geom} buffer shape contains intersects
  point_l93 file_name data_type feature.
Arguments visited {geom} buffer shape contains intersects
  point_l93 file_name data_type features.
Arguments appended_refs {geom} buffer shape contains intersects
  point_l93 file_name data_type i j features.
Arguments match_of {geom} buffer shape contains intersects
  point_l93 file_name data_type feature.
Arguments geometry_matches {geom} buffer shape contains intersects point_l93 feature.
Arguments unreadable_geometry {geom} shape feature.
Arguments all_appended {geom} buffer shape contains intersects point_l93 i srcs.
Arguments store_left {geom} buffer shape contains intersects point_l93 srcs.
Arguments all_matches {geom} buffer shape contains intersects point_l93 srcs.

(** ** The table of the loaded files (lines 243-257) *)

(** A row of [file_summary]: the values under "Fichier", "Type PNA" and
    "Nombre de zones". *)
Record summary_row : Type := {
  s_fichier : string;
  s_type_pna : string;
  s_nombre_de_zones : nat
}.

(** [len(file_info["data"]["features"])], line 249, which is also the
    count of line 236. *)
Definition zone_count (info : file_info) : result nat :=
  py_getitem (data info) "features" ≫= py_len.

(** The loop of lines 248-254. It stands outside every [try]: an exception
    ends the run of the script. *)
Fixpoint file_summary (srcs : sources) : result (list summary_row) :=
  match srcs with
  | [] => Ok []
  | (file_name, file_info) :: rest =>
      feature_count ← zone_count file_info;
      rows ← file_summary rest;
      Ok ({| s_fichier := file_name;
             s_type_pna := type file_info;
             s_nombre_de_zones := feature_count |} :: rows)
  end.

(** Lines 243-257: the table shown, none when no file is loaded. *)
Definition loaded_files_table (all_data_sources : sources)
  : result (option (list summary_row)) :=
  match all_data_sources with
  | [] => Ok None
  | _ :: _ => Some <$> file_summary all_data_sources
  end.

(** ** What the page does with the results *)

(** The dicts of the returned list, as a caller that runs through it reads
    them after the call. *)
Definition result_dicts (o : outcome) : list pyval :=
  omap (properties_at (store_after o)) (result_refs o).

(** [v == s] for a [str] s. *)
Definition py_eq_str (v : pyval) (s : string) : bool :=
  match v with
  | PyStr t => String.eqb t s
  | _ => false
  end.

(** [v.items()]. *)
Definition py_items (v : pyval) : result dict :=
  match v with
  | PyDict d => Ok d
  | _ => Raise AttributeError
  end.

(** A row of [result_data] (lines 352-358 and 482-488): the values under
    "Zone", "Type PNA", "Espèce", "Enjeu" and "Fichier source". *)
Record result_row : Type := {
  r_zone : nat;
  r_type_pna : pyval;
  r_espece : pyval;
  r_enjeu : pyval;
  r_fichier_source : pyval
}.

(** The loop of lines 343-358 (and 473-488) from zone number [i] on. It
    stands outside every [try]. *)
Fixpoint result_data_from (i : nat) (results : list pyval) : result (list result_row) :=
  match results with
  | [] => Ok []
  | props :: rest =>
      pna_type ← py_get props "type_pna" (PyStr "Inconnu");
      file_source ← py_get props "fichier_source" (PyStr "");
      espece ← py_get props "n_espece" (PyStr "Non spécifié");
      enjeu ←
        (if py_eq_str pna_type "Chiroptères"
         then py_get props "enjeu_détaillé" (PyStr "Indéterminé")
         else Ok (PyStr ""));
      rows ← result_data_from (S i) rest;
      Ok ({| r_zone := i; r_type_pna := pna_type; r_espece := espece;
             r_enjeu := enjeu; r_fichier_source := file_source |} :: rows)
  end.

(** [enumerate(results, 1)]. *)
Definition result_data (results : list pyval) : result (list result_row) :=
  result_data_from 1 results.

(** Lines 372 and 502. *)
Definition priority_keys : list string :=
  [ "n_espece"; "t_enjeux"; "enjeu_détaillé"; "type_pna"; "richessesp"; "n_commune";
    "c_insee" ].

(** The loop of lines 374-378 (and 504-508) over [props.items()]: the two
    dicts [important_props] and [other_props] it fills. *)
Definition split_props (items : dict) : dict * dict :=
  fold_left
    (fun (acc : dict * dict) (kv : string * pyval) =>
       if bool_decide (kv.1 ∈ priority_keys)
       then (dict_set kv.1 kv.2 acc.1, acc.2)
       else (acc.1, dict_set kv.1 kv.2 acc.2))
    items ([], []).

(** A tab of the details of a zone: the table of a dict that is not empty,
    or the notice that stands for an empty one (lines 383-397). *)
Inductive tab : Type :=
| TabTable (rows : dict)
| TabInfo (text : string).

(** The expander of a zone: its number and the species of its title, and
    its two tabs. *)
Record zone_details : Type := {
  d_zone : nat;
  d_espece : pyval;
  d_tab1 : tab;
  d_tab2 : tab
}.

(** Lines 366-397 (and 496-527) for one result. *)
Definition zone_panel (i : nat) (props : pyval) : result zone_details :=
  espece ← py_get props "n_espece" (PyStr "Non spécifié");
  items ← py_items props;
  let important_props := (split_props items).1 in
  let other_props := (split_props items).2 in
  Ok {| d_zone := i;
        d_espece := espece;
        d_tab1 := match important_props with
                  | [] => TabInfo "Aucune propriété principale disponible"
                  | _ :: _ => TabTable important_props
                  end;
        d_tab2 := match other_props with
                  | [] => TabInfo "Aucune propriété détaillée disponible"
                  | _ :: _ => TabTable other_props
                  end |}.

(** The loop of lines 365-397 from zone number [i] on: the expanders shown,
    and the exception that ended it if one did. *)
Fixpoint zone_panels (i : nat) (results : list pyval) : list zone_details * option exn :=
  match results with
  | [] => ([], None)
  | props :: rest =>
      match zone_panel i props with
      | Raise e => ([], Some e)
      | Ok d => let '(ds, r) := zone_panels (S i) rest in (d :: ds, r)
      end
  end.

(** ** Geocoding: [get_coordinates] (lines 18-81) *)

(** The function catches every exception of its [try] alike, so this part
    keeps whether an operation raised, not what: [None] is an exception. *)
Definition attempt {A} (r : result A) : option A :=
  match r with
  | Ok a => Some a
  | Raise _ => None
  end.

(** [bool(v)]. The floats that are zero print as "0.0" and "-0.0". *)
Definition py_truthy (v : pyval) : bool :=
  match v with
  | PyNone => false
  | PyBool b => b
  | PyInt n => negb (n =? 0)%Z
  | PyFloat text => negb (String.eqb text "0.0" || String.eqb text "-0.0")
  | PyStr s => negb (String.eqb s "")
  | PyList l => match l with [] => false | _ :: _ => true end
  | PyDict d => match d with [] => false | _ :: _ => true end
  end.

(** [v[0]]: the first item of a list, the first character of a [str]; an
    exception on an empty one, on a dict (its keys are strings) and on
    anything else. *)
Definition py_first (v : pyval) : option pyval :=
  match v with
  | PyList (x :: _) => Some x
  | PyStr s => match chars s with c :: _ => Some (PyStr c) | [] => None end
  | _ => None
  end.

(** [a, b = v]: [v] must run through exactly two items. *)
Definition py_unpack2 (v : pyval) : option (pyval * pyval) :=
  match attempt (py_iter v) with
  | Some [a; b] => Some (a, b)
  | _ => None
  end.

(** What [requests.get] gives back: the status code and what
    [response.json()] makes of the body, an exception or a value. *)
Record response : Type := {
  status_code : Z;
  json : option pyval
}.

(** What [get_coordinates] shows: the [st.success] of line 45, the
    [st.warning] of lines 55 and 57, the [st.error] of lines 60 and 63. *)
Inductive geo_item : Type :=
| Found (full_address : pyval) (confidence : string)
| NoResult
| BadStatus (code : Z)
| RequestFailed
| CannotGeocode.

(** The widgets of the manual entry (lines 66-73): the checkbox, the two
    number inputs (floats, by their text) and the button. *)
Record manual_inputs : Type := {
  manual_ticked : bool;
  manual_lat : string;
  manual_lon : string;
  manual_used : bool
}.

(** The tuple [get_coordinates] returns: lat, lon, x_l93, y_l93 and the
    full address. *)
Definition coordinates : Type := pyval * pyval * pyval * pyval * pyval.

Section Geocoding.

(** [requests.get] on the URL built from the address, an exception
    included; Python's [f"{v * 100:.1f}"], an exception included; and
    GeoPandas taking a point (lon, lat) to Lambert 93 (x, y). *)
Variable http_get : string -> option response.
Variable percent_text : pyval -> option string.
Variable to_l93 : pyval -> pyval -> result (pyval * pyval).

(** Lines 36-55 on the decoded answer: what is shown, and [None] for an
    exception, [Some None] for falling through to line 63, [Some (Some t)]
    for the tuple returned at line 53. *)
Definition read_answer (address : string) (data : pyval)
  : list geo_item * option (option coordinates) :=
  let no_result := ([NoResult], Some None) in
  let failed := ([], None) in
  if py_truthy data then
    match attempt (py_get data "features" PyNone) with
    | None => failed
    | Some features =>
        if py_truthy features then
          match attempt (py_len features) with
          | None => failed
          | Some n =>
              if (0 <? n)%nat then
                let found : option (pyval * pyval * pyval * string) :=
                  feature ← py_first features;
                  geometry ← attempt (py_getitem feature "geometry");
                  position ← attempt (py_getitem geometry "coordinates");
                  '(lon, lat) ← py_unpack2 position;
                  properties ← attempt (py_getitem feature "properties");
                  full_address ← attempt (py_get properties "label" (PyStr address));
                  score ← attempt (py_get properties "score" (PyInt 0));
                  confidence ← percent_text score;
                  Some (lon, lat, full_address, confidence) in
                match found with
                | None => failed
                | Some (lon, lat, full_address, confidence) =>
                    match to_l93 lon lat with
                    | Raise _ => ([Found full_address confidence], None)
                    | Ok (x_l93, y_l93) =>
                        ([Found full_address confidence],
                         Some (Some (lat, lon, x_l93, y_l93, full_address)))
                    end
                end
              else no_result
          end
        else no_result
    end
  else no_result.

(** The [try] of lines 21-60, before its [except]. *)
Definition ask_api (address : string) : list geo_item * option (option coordinates) :=
  match http_get address with
  | None => ([], None)
  | Some response =>
      if (status_code response =? 200)%Z then
        match json response with
        | None => ([], None)
        | Some data => read_answer address data
        end
      else ([BadStatus (status_code response)], Some None)
  end.

(** The whole function: what it shows, and what it returns or the
    exception that leaves it (the conversion of the manual coordinates
    stands outside the [try]). *)
Definition get_coordinates (address : string) (m : manual_inputs)
  : list geo_item * result (option coordinates) :=
  let '(items, r) := ask_api address in
  match r with
  | Some (Some t) => (items, Ok (Some t))
  | _ =>
      let items :=
        items ++ match r with None => [RequestFailed] | Some _ => [] end ++ [CannotGeocode] in
      if manual_ticked m then
        if manual_used m then
          match to_l93 (PyFloat (manual_lon m)) (PyFloat (manual_lat m)) with
          | Raise e => (items, Raise e)
          | Ok (x_l93, y_l93) =>
              (items,
               Ok (Some (PyFloat (manual_lat m), PyFloat (manual_lon m), x_l93, y_l93,
                         PyStr ("Coordonnées manuelles: " ++ manual_lat m ++ ", "
                                ++ manual_lon m)%string)))
          end
        else (items, Ok None)
      else (items, Ok None)
  end.

End Geocoding.

(** What stands before the last notice when the API gave no point: the
    notice of an empty answer or of a bad status, or the notice of an
    exception, after the address found if the conversion raised it. *)
Inductive no_point : list geo_item -> Prop :=
| no_point_result : no_point [NoResult]
| no_point_status code : code <> 200%Z -> no_point [BadStatus code]
| no_point_request : no_point [RequestFailed]
| no_point_conversion full_address confidence :
    no_point [Found full_address confidence; RequestFailed].

(** ** The page (lines 266-532) *)

(** [st.session_state] once lines 271-278 have run: the four keys are
    written by this script only, all at once, so they are there together
    or not at all. *)
Record session_state : Type := {
  reset_pressed : bool;
  last_address : string;
  last_lat : pyval;
  last_lon : pyval
}.

(** Lines 271-278 on the state kept from the run before, none on the first
    run. *)
Definition init_session_state (kept : option session_state) : session_state :=
  match kept with
  | Some st => st
  | None => {| reset_pressed := false; last_address := "";
               last_lat := PyFloat "43.6"; last_lon := PyFloat "2.7" |}
  end.

(** Lines 281-285, the callback of the two "nouvelle recherche" buttons. *)
Definition reset_fields (st : session_state) : session_state :=
  {| reset_pressed := true; last_address := "";
     last_lat := PyFloat "43.6"; last_lon := PyFloat "2.7" |}.

(** Lines 302-306: [initial_address] and the state afterwards. *)
Definition address_field (st : session_state) : string * session_state :=
  if reset_pressed st
  then ("", {| reset_pressed := false; last_address := last_address st;
               last_lat := last_lat st; last_lon := last_lon st |})
  else (last_address st, st).

(** Line 311. *)
Definition remember_address (address : string) (st : session_state) : session_state :=
  {| reset_pressed := reset_pressed st; last_address := address;
     last_lat := last_lat st; last_lon := last_lon st |}.

(** Lines 407-413: [initial_lat], [initial_lon] and the state afterwards. *)
Definition coordinate_fields (st : session_state) : pyval * pyval * session_state :=
  if reset_pressed st
  then (PyFloat "43.6", PyFloat "2.7",
        {| reset_pressed := false; last_address := last_address st;
           last_lat := last_lat st; last_lon := last_lon st |})
  else (last_lat st, last_lon st, st).

(** Lines 454-455. *)
Definition remember_coordinates (lat lon : pyval) (st : session_state) : session_state :=
  {| reset_pressed := reset_pressed st; last_address := last_address st;
     last_lat := lat; last_lon := lon |}.

(** The two ways of asking. *)
Inductive input_mode : Type :=
| Adresse
| Coordonnees.

(** What the right column shows below the input fields, one constructor
    per [st.write], [st.error], [st.success], [st.warning], table and
    expander of lines 316-532. Widgets are inputs and are not listed. *)
Inductive page_item : Type :=
| NoFileLoaded
| TypedAddress (address : string)
| Geocoding (g : geo_item)
| Wgs84Heading
| EquivalentWgs84 (lat lon : pyval)
| Wgs84 (lat lon : pyval)
| Lambert93 (x y : pyval)
| Checked (m : message)
| InZones (mode : input_mode) (count : nat)
| ZonesTable (rows : list result_row)
| ZoneDetails (d : zone_details)
| InNoZone (mode : input_mode)
| NotGeocoded.

(** What a handler leaves: what it showed, the exception that ended the
    run of the script if one did, the datasets and the session state. *)
Record handled : Type := {
  page : list page_item;
  raised : option exn;
  datasets : sources;
  state : session_state
}.

Section Page.

(** Shapely as in the matcher, with the coordinates of a point as Python
    values (floats, and whatever numbers the address API sends). *)
Variable geom : Type.
Variable Point : pyval -> pyval -> geom.
Variable buffer : geom -> Z -> geom.
Variable shape : pyval -> result geom.
Variable contains : geom -> geom -> result bool.
Variable intersects : geom -> geom -> result bool.

(** Python's [format(v, ".6f")] (and ".2f"): the exception it raises, none
    on a float. *)
Variable format_f : pyval -> option exn.

(** GeoPandas: a point (lon, lat) to Lambert 93 (x, y), and a point (x, y)
    to WGS84 (lon, lat), each with the exception it may raise; and the two
    parameters of [get_coordinates]. *)
Variable to_l93 : pyval -> pyval -> result (pyval * pyval).
Variable to_wgs84 : pyval -> pyval -> result (pyval * pyval).
Variable http_get : string -> option response.
Variable percent_text : pyval -> option string.

(** Lines 338-399 (and 468-529): what is shown for the pair [is_in_pna]
    returned, the results read in the store the call left. *)
Definition show_answer (mode : input_mode) (o : outcome) : list page_item * option exn :=
  match returned o with
  | (true, Some refs) =>
      let results := result_dicts o in
      match result_data results with
      | Raise e => ([InZones mode (length refs)], Some e)
      | Ok result_data =>
          let '(panels, r) := zone_panels 1 results in
          (InZones mode (length refs) :: ZonesTable result_data
             :: (ZoneDetails <$> panels), r)
      end
  | (true, None) => ([], Some TypeError)
  | (false, _) => ([InNoZone mode], None)
  end.

(** Lines 331-402 (and 461-532): the two lines of coordinates, the query
    and its answer. *)
Definition verify_point (mode : input_mode) (lat lon x_l93 y_l93 : pyval)
    (all_data_sources : sources) : list page_item * option exn * sources :=
  match format_f lat, format_f lon with
  | Some e, _ | None, Some e => ([], Some e, all_data_sources)
  | None, None =>
      match format_f x_l93, format_f y_l93 with
      | Some e, _ | None, Some e => ([Wgs84 lat lon], Some e, all_data_sources)
      | None, None =>
          let o := is_in_pna Point buffer shape contains intersects
                     lat lon x_l93 y_l93 all_data_sources in
          let '(items, r) := show_answer mode o in
          ([Wgs84 lat lon; Lambert93 x_l93 y_l93] ++ (Checked <$> reported o) ++ items,
           r, store_after o)
      end
  end.

(** The values of the widgets of the coordinates mode in one run. *)
Record coordinate_inputs : Type := {
  in_lat : pyval;
  in_lon : pyval;
  use_lambert93 : bool;
  in_x : pyval;
  in_y : pyval;
  check_coords : bool
}.

(** Lines 405-532. A check with files loaded empties the placeholder
    (line 458): what the run wrote before is no longer on the page. *)
Definition coordinate_mode (w : coordinate_inputs) (st : session_state)
    (all_data_sources : sources) : handled :=
  let '(initial_lat, initial_lon, st) := coordinate_fields st in
  let converted : result (list page_item * (pyval * pyval * pyval * pyval)) :=
    if use_lambert93 w then
      '(lon, lat) ← to_wgs84 (in_x w) (in_y w);
      match format_f lat, format_f lon with
      | Some e, _ | None, Some e => Raise e
      | None, None => Ok ([EquivalentWgs84 lat lon], (lat, lon, in_x w, in_y w))
      end
    else
      '(x_l93, y_l93) ← to_l93 (in_lon w) (in_lat w);
      Ok ([], (in_lat w, in_lon w, x_l93, y_l93)) in
  match converted with
  | Raise e =>
      {| page := [Wgs84Heading]; raised := Some e;
         datasets := all_data_sources; state := st |}
  | Ok (shown_, (lat, lon, x_l93, y_l93)) =>
      if check_coords w then
        match all_data_sources with
        | [] => {| page := Wgs84Heading :: shown_ ++ [NoFileLoaded]; raised := None;
                   datasets := all_data_sources; state := st |}
        | _ :: _ =>
            let st := remember_coordinates lat lon st in
            let '(items, r, srcs) :=
              verify_point Coordonnees lat lon x_l93 y_l93 all_data_sources in
            {| page := items; raised := r; datasets := srcs; state := st |}
        end
      else {| page := Wgs84Heading :: shown_; raised := None;
              datasets := all_data_sources; state := st |}
  end.

(** The values of the widgets of the address mode in one run. *)
Record address_inputs : Type := {
  typed_address : string;
  check_button : bool;
  manual : manual_inputs
}.

(** Lines 300-404. *)
Definition address_mode (w : address_inputs) (st : session_state)
    (all_data_sources : sources) : handled :=
  let '(initial_address, st) := address_field st in
  let address := typed_address w in
  let st := remember_address address st in
  if check_button w && negb (String.eqb address "") then
    match all_data_sources with
    | [] => {| page := [NoFileLoaded]; raised := None;
               datasets := all_data_sources; state := st |}
    | _ :: _ =>
        let '(shown_, r) := get_coordinates http_get percent_text to_l93 address (manual w) in
        let start := TypedAddress address :: (Geocoding <$> shown_) in
        match r with
        | Raise e => {| page := start; raised := Some e;
                        datasets := all_data_sources; state := st |}
        | Ok None => {| page := start ++ [NotGeocoded]; raised := None;
                        datasets := all_data_sources; state := st |}
        | Ok (Some (lat, lon, x_l93, y_l93, full_address)) =>
            let '(items, r, srcs) :=
              verify_point Adresse lat lon x_l93 y_l93 all_data_sources in
            {| page := start ++ items; raised := r; datasets := srcs; state := st |}
        end
    end
  else {| page := []; raised := None; datasets := all_data_sources; state := st |}.

End Page.

Arguments verify_point {geom} Point buffer shape contains intersects format_f
  mode lat lon x_l93 y_l93 all_data_sources.
Arguments coordinate_mode {geom} Point buffer shape contains intersects format_f
  to_l93 to_wgs84 w st all_data_sources.
Arguments address_mode {geom} Point buffer shape contains intersects format_f
  to_l93 http_get percent_text w st all_data_sources.

(** The states of the session the page can be in: the first run starts
    from none kept; then the callback of a reset button, or one more run of
    the script in either mode, whatever the widgets hold and whatever is
    loaded. A run that an exception ends before line 271 changes nothing. *)
Inductive reachable : session_state -> Prop :=
| reach_first : reachable (init_session_state None)
| reach_reset st : reachable st -> reachable (reset_fields st)
| reach_address st geom Point buffer shape contains intersects format_f to_l93
    http_get percent_text w ads :
    reachable st ->
    reachable (state (@address_mode geom Point buffer shape contains intersects
                        format_f to_l93 http_get percent_text w st ads))
| reach_coordinates st geom Point buffer shape contains intersects format_f to_l93
    to_wgs84 w ads :
    reachable st ->
    reachable (state (@coordinate_mode geom Point buffer shape contains intersects
                        format_f to_l93 to_wgs84 w st ads)).

(** ** Boxes on the integer grid

    A small instance of the spatial parameters, used to run the matcher on
    examples: geometries are axis-parallel boxes with integer corners, a
    point is a degenerate box, and [shape] reads a GeoJSON [Polygon] whose
    outer ring has integer coordinates as the box around that ring (the
    polygon itself when it is an axis-parallel rectangle, as in every
    example below). *)
Record box : Type := {
  xmin : Z; ymin : Z; xmax : Z; ymax : Z
}.

Definition grid_Point (x y : Z) : box :=
  {| xmin := x; ymin := y; xmax := x; ymax := y |}.

Definition grid_buffer (b : box) (d : Z) : box :=
  {| xmin := xmin b - d; ymin := ymin b - d; xmax := xmax b + d; ymax := ymax b + d |}.

Definition grid_position (v : pyval) : result (Z * Z) :=
  match v with
  | PyList [PyInt x; PyInt y] => Ok (x, y)
  | _ => Raise GeometryError
  end.

Fixpoint grid_ring (vs : list pyval) : result (list (Z * Z)) :=
  match vs with
  | [] => Ok []
  | v :: rest => p ← grid_position v; ps ← grid_ring rest; Ok (p :: ps)
  end.

Definition grid_around (ps : list (Z * Z)) : result box :=
  match ps with
  | [] => Raise GeometryError
  | (x, y) :: rest =>
      Ok (fold_left
            (fun b p => {| xmin := Z.min (xmin b) p.1; ymin := Z.min (ymin b) p.2;
                           xmax := Z.max (xmax b) p.1; ymax := Z.max (ymax b) p.2 |})
            rest (grid_Point x y))
  end.

Definition grid_shape (geometry : pyval) : result box :=
  match geometry with
  | PyDict d =>
      match dict_get "type" d, dict_get "coordinates" d with
      | Some (PyStr "Polygon"), Some (PyList (PyList ring :: _)) =>
          grid_ring ring ≫= grid_around
      | _, _ => Raise GeometryError
      end
  | _ => Raise GeometryError
  end.

(** [a.contains(b)]: [b] is not empty and lies in the interior of [a]. *)
Definition grid_contains (a b : box) : result bool :=
  Ok ((xmin a <? xmin b)%Z && (xmax b <? xmax a)%Z
      && (ymin a <? ymin b)%Z && (ymax b <? ymax a)%Z).

Definition grid_intersects (a b : box) : result bool :=
  Ok ((xmin a <=? xmax b)%Z && (xmin b <=? xmax a)%Z
      && (ymin a <=? ymax b)%Z && (ymin b <=? ymax a)%Z).

Definition grid_is_in_pna : Z -> Z -> Z -> Z -> sources -> outcome :=
  is_in_pna grid_Point grid_buffer grid_shape grid_contains grid_intersects.

(** A GeoJSON rectangle, a feature and a feature collection, as
    [json.load] returns them. *)
Definition rectangle (x0 y0 x1 y1 : Z) : pyval :=
  PyDict [ ("type", PyStr "Polygon");
           ("coordinates",
            PyList [ PyList [ PyList [PyInt x0; PyInt y0]; PyList [PyInt x1; PyInt y0];
                              PyList [PyInt x1; PyInt y1]; PyList [PyInt x0; PyInt y1];
                              PyList [PyInt x0; PyInt y0] ] ]) ].

Definition feature_of (geometry properties : pyval) : pyval :=
  PyDict [ ("type", PyStr "Feature"); ("geometry", geometry); ("properties", properties) ].

Definition feature_collection (features : list pyval) : pyval :=
  PyDict [ ("type", PyStr "FeatureCollection"); ("features", PyList features) ].

(** ** Inputs of the examples *)

(** No example asks for the text of a list or of a dict. *)
Definition no_container_text (v : pyval) : string := "".

Definition square : pyval := rectangle 0 0 100 100.

(** A file named for the southern grey shrike. *)
Definition merid_file : uploaded_file :=
  {| name := "pie_griseche_merid.geojson";
     parsed := Ok (feature_collection [feature_of square (PyDict [])]) |}.

(** A JSON document that is an array, not an object. *)
Definition array_file : uploaded_file :=
  {| name := "zones.json";
     parsed := Ok (PyList [PyStr "type"; PyStr "features"]) |}.

(** A file named for bats whose only feature names a dragonfly. *)
Definition chiroptere_file : uploaded_file :=
  {| name := "chiroptere_zones.geojson";
     parsed := Ok (feature_collection
                     [feature_of square (PyDict [("n_espece", PyStr "Libellule")])]) |}.

(** The second feature of the first file has no geometry to read. *)
Definition bat_features : list pyval :=
  [ feature_of square (PyDict [("t_enjeux", PyStr "Fort")]);
    feature_of PyNone (PyDict [("id", PyInt 1)]);
    feature_of (rectangle 40 40 200 200) (PyDict [("id", PyInt 2)]);
    feature_of (rectangle 400 400 500 500) (PyDict [("id", PyInt 3)]) ].

Definition dragonflies : string * file_info :=
  ("odo.json",
   {| data := feature_collection [feature_of square (PyDict [("id", PyInt 7)])];
      type := "Odonates" |}).

Definition bats_and_dragonflies : sources :=
  [ ("chauve.json", {| data := feature_collection bat_features; type := "Chiroptères" |});
    dragonflies ].

(** A GeoJSON feature may have [null] for its properties. *)
Definition no_properties : sources :=
  [ ("zones.json",
     {| data := feature_collection [feature_of square PyNone]; type := "Odonates" |}) ].

Definition far_away : sources :=
  [ ("far.geojson",
     {| data := feature_collection [feature_of (rectangle 1000 1000 1100 1100) (PyDict [])];
        type := "Odonates" |}) ].

(** A second upload under the name of [chiroptere_file], with no zone. *)
Definition chiroptere_again : uploaded_file :=
  {| name := "chiroptere_zones.geojson"; parsed := Ok (feature_collection []) |}.

(** A file that is not JSON, and a JSON document without [features]. *)
Definition not_json : uploaded_file :=
  {| name := "zones.geojson"; parsed := Raise JSONDecodeError |}.

Definition no_features_key : uploaded_file :=
  {| name := "communes.json"; parsed := Ok (PyDict [("type", PyStr "Topology")]) |}.

(** A document whose [features] is a number, under a name that matches
    no rule and under one that says bats. *)
Definition three_features : pyval :=
  PyDict [("type", PyStr "FeatureCollection"); ("features", PyInt 3)].

Definition uncountable_file : uploaded_file :=
  {| name := "count.json"; parsed := Ok three_features |}.

Definition uncountable_bats : uploaded_file :=
  {| name := "chauve_count.json"; parsed := Ok three_features |}.

(** The document of [array_file] as a dataset of the session. *)
Definition array_dataset : string * file_info :=
  ("zones.json", {| data := PyList [PyStr "type"; PyStr "features"]; type := "Odonates" |}).

(** Features for the rules on the content: two that decide nothing, a
    dragonfly, a bat. *)
Definition unnamed_features : list pyval :=
  [ feature_of square (PyDict [("id", PyInt 1)]);
    feature_of square (PyDict [("n_espece", PyStr "Lutra lutra")]) ].

Definition dragonfly_feature : pyval :=
  feature_of square (PyDict [("n_espece", PyStr "Libellule fauve")]).

Definition bat_feature : pyval :=
  feature_of square (PyDict [("n_espece", PyStr "Chauve-souris")]).

(** The attributes of a zone of bats. *)
Definition bat_zone : dict :=
  [ ("id", PyInt 12); ("n_espece", PyStr "Murin"); ("surface", PyFloat "3.5");
    ("n_commune", PyStr "Albi"); ("t_enjeux", PyStr "Fort") ].

(** The page on the grid: the coordinates of the examples are Python
    integers, anything else stands at 0; longitude and latitude are x and
    y; numbers print (on a [str] Python raises a [ValueError], which [exn]
    does not name: no example prints one). *)
Definition grid_number (v : pyval) : Z :=
  match v with
  | PyInt n => n
  | _ => 0%Z
  end.

Definition grid_Point_of (x y : pyval) : box := grid_Point (grid_number x) (grid_number y).

Definition grid_format (v : pyval) : option exn :=
  match v with
  | PyInt _ | PyFloat _ | PyBool _ => None
  | _ => Some TypeError
  end.

Definition grid_to_l93 (lon lat : pyval) : result (pyval * pyval) := Ok (lon, lat).

Definition grid_to_wgs84 (x y : pyval) : result (pyval * pyval) := Ok (x, y).

(** An address API that knows one address. The scores of the examples are
    integers. *)
Definition town_hall : string := "1 place de la mairie montpellier".

Definition town_hall_feature : pyval :=
  PyDict [ ("type", PyStr "Feature");
           ("geometry",
            PyDict [("type", PyStr "Point"); ("coordinates", PyList [PyInt 50; PyInt 60])]);
           ("properties",
            PyDict [ ("label", PyStr "1 Place de la Mairie 34000 Montpellier");
                     ("score", PyInt 1) ]) ].

Definition town_hall_answer : dict :=
  [ ("type", PyStr "FeatureCollection"); ("features", PyList [town_hall_feature]) ].

Definition one_address_api (address : string) : option response :=
  if String.eqb address town_hall
  then Some {| status_code := 200; json := Some (PyDict town_hall_answer) |}
  else Some {| status_code := 200;
               json := Some (PyDict [ ("type", PyStr "FeatureCollection");
                                      ("features", PyList []) ]) |}.

Definition integer_percent (score : pyval) : option string :=
  match score with
  | PyInt n => Some (NilZero.string_of_int (Z.to_int (n * 100)) ++ ".0")%string
  | _ => None
  end.

Definition nothing_typed : manual_inputs :=
  {| manual_ticked := false; manual_lat := "43.6"; manual_lon := "2.7"; manual_used := false |}.

(** * Properties *)

(** ** Strings and dicts *)

Lemma prefix_weaken (n1 n2 h : string) :
  String.prefix (n1 ++ n2)%string h = true -> String.prefix n1 h = true.
Proof.
  revert h. induction n1 as [|a n1 IH]; intros h H.
  - by destruct h.
  - destruct h as [|b h]; simpl in *; [done|].
    destruct (Ascii.ascii_dec a b); [by apply IH | done].
Qed.

Lemma is_substring_weaken (n1 n2 h : string) :
  is_substring (n1 ++ n2)%string h = true -> is_substring n1 h = true.
Proof.
  induction h as [|c h IH]; cbn [is_substring]; intros H.
  - apply orb_true_iff in H as [H|H]; [|done].
    apply prefix_weaken in H. by rewrite H.
  - apply orb_true_iff in H as [H|H].
    + apply prefix_weaken in H. by rewrite H.
    + rewrite (IH H). by rewrite orb_true_r.
Qed.

(** Every name that holds "griseche" holds "grise". *)
Lemma griseche_holds_grise (l : string) :
  is_substring "griseche" l = true -> is_substring "grise" l = true.
Proof. apply (is_substring_weaken "grise" "che"). Qed.

Lemma dict_get_set_eq (k : string) (v : pyval) (d : dict) :
  dict_get k (dict_set k v d) = Some v.
Proof.
  induction d as [|[k' v'] d IH]; simpl.
  - by rewrite String.eqb_refl.
  - destruct (String.eqb k k') eqn:E; simpl.
    + by rewrite String.eqb_refl.
    + by rewrite E.
Qed.

Lemma dict_get_set_ne (k k' : string) (v : pyval) (d : dict) :
  k <> k' -> dict_get k' (dict_set k v d) = dict_get k' d.
Proof.
  intros Hne. induction d as [|[k0 v0] d IH]; simpl.
  - destruct (String.eqb_spec k' k); [congruence | done].
  - destruct (String.eqb_spec k k0) as [->|Hk]; simpl.
    + destruct (String.eqb_spec k' k0); [congruence | done].
    + destruct (String.eqb_spec k' k0); [done | apply IH].
Qed.

(** ** The loader *)

Section LoaderFacts.

Variable lower : string -> string.
Variable str_of_container : pyval -> string.

#[local] Abbreviation process := (process_uploaded_file lower str_of_container).
#[local] Abbreviation stored_as f data t s :=
  (sources_set (name f) {| data := data; type := t |} (all_data_sources s)).

(** A forced type: the file is stored under it as soon as line 192 lets
    it through, and nothing else is looked at. *)
Lemma process_forced (pna_type : string) (s : session) (f : uploaded_file) :
  pna_type ∈ forced_choices ->
  all_data_sources (process pna_type s f) =
    match accepted lower f with
    | Some data => stored_as f data pna_type s
    | None => all_data_sources s
    end.
Proof.
  intros Hin.
  assert (String.eqb pna_type automatic = false /\
          String.eqb pna_type not_detected = false) as [Ha Hn].
  { unfold forced_choices in Hin.
    repeat (apply elem_of_cons in Hin as [->|Hin]; [by split|]).
    by apply elem_of_nil in Hin. }
  unfold process_uploaded_file, load_one, accepted.
  rewrite Ha. simpl.
  case_bool_decide; [|done].
  destruct (parsed f) as [data|e]; [|done].
  destruct (is_geojson data) as [[|]|e]; [|done|done].
  rewrite Hn.
  by destruct (py_getitem data "features" ≫= py_len).
Qed.

(** Automatic detection, in full. *)
Lemma process_automatic (s : session) (f : uploaded_file) :
  all_data_sources (process automatic s f) =
    match accepted lower f with
    | None => all_data_sources s
    | Some data =>
        let t := filename_type lower (name f) in
        if String.eqb t not_detected then
          match content_type lower str_of_container data with
          | Ok t' =>
              stored_as f data (if String.eqb t' not_detected then unknown_type else t') s
          | Raise _ => all_data_sources s
          end
        else stored_as f data t s
    end.
Proof.
  unfold process_uploaded_file, load_one, accepted.
  change (String.eqb automatic automatic) with true. cbv iota. simpl andb.
  case_bool_decide; [|done].
  destruct (parsed f) as [data|e]; [|done].
  destruct (is_geojson data) as [[|]|e]; [|done|done].
  cbv zeta.
  destruct (String.eqb (filename_type lower (name f)) not_detected) eqn:Ef.
  - destruct (content_type lower str_of_container data) as [t'|e]; simpl; [|done].
    destruct (String.eqb t' not_detected) eqn:Et; simpl.
    + rewrite Ef. by destruct (py_getitem data "features" ≫= py_len).
    + rewrite Et. by destruct (py_getitem data "features" ≫= py_len).
  - rewrite Ef. by destruct (py_getitem data "features" ≫= py_len).
Qed.

(** A file that does not get to line 193 is not stored, whatever the
    mode, and the files before it stay. *)
Lemma process_not_accepted (pna_type : string) (s : session) (f : uploaded_file) :
  accepted lower f = None ->
  all_data_sources (process pna_type s f) = all_data_sources s.
Proof.
  unfold process_uploaded_file, load_one, accepted.
  case_bool_decide; [|done].
  destruct (parsed f) as [data|e]; [|done].
  by destruct (is_geojson data) as [[|]|e].
Qed.

(** A JSON object without one of the two keys is reported as invalid. *)
Lemma process_object_without_keys (pna_type : string) (s : session) (f : uploaded_file)
    (d : dict) :
  file_extension lower (name f) ∈ ["geojson"; "json"] ->
  parsed f = Ok (PyDict d) ->
  dict_get "type" d = None \/ dict_get "features" d = None ->
  process pna_type s f = show (InvalidGeoJSON (name f)) s.
Proof.
  intros Hext Hp Hk.
  unfold process_uploaded_file, load_one.
  rewrite bool_decide_eq_true_2 by done. rewrite Hp.
  assert (is_geojson (PyDict d) = Ok false) as ->; [|done].
  unfold is_geojson, py_contains. simpl.
  destruct Hk as [-> | ->].
  - rewrite bool_decide_eq_false_2; [done | by intros [? ?]].
  - case_bool_decide; [|done]. rewrite bool_decide_eq_false_2; [done | by intros [? ?]].
Qed.

(** A file whose text is not JSON is reported with the exception. *)
Lemma process_unparsable (pna_type : string) (s : session) (f : uploaded_file) (e : exn) :
  file_extension lower (name f) ∈ ["geojson"; "json"] ->
  parsed f = Raise e ->
  process pna_type s f = show (LoadError (name f) e) s.
Proof.
  intros Hext Hp. unfold process_uploaded_file, load_one.
  rewrite bool_decide_eq_true_2 by done. by rewrite Hp.
Qed.

(** The content rules look at the first ten features only. *)
Lemma content_type_first_ten (data : pyval) (fs : list pyval) :
  py_getitem data "features" = Ok (PyList fs) ->
  content_type lower str_of_container data =
    scan_content lower str_of_container (take 10 fs).
Proof. intros H. unfold content_type. by rewrite H. Qed.

End LoaderFacts.

(** ** The matcher *)

Lemma stamp_dict (file_name data_type : string) (d : dict) :
  stamp file_name data_type (PyDict d) = Ok (PyDict (stamped file_name data_type d)).
Proof. unfold stamp, stamped. by destruct (String.eqb data_type "Chiroptères"). Qed.

(** On anything but a dict the first write raises: nothing is half
    written. *)
Lemma stamp_not_dict (file_name data_type : string) (p : pyval) :
  (forall d, p <> PyDict d) -> exists e, stamp file_name data_type p = Raise e.
Proof.
  intros Hp. unfold stamp.
  destruct (String.eqb data_type "Chiroptères"), p; simpl; eauto.
  all: by destruct (Hp entries).
Qed.

(** The stamp writes three keys and no other. *)
Lemma stamped_other (file_name data_type k : string) (d : dict) :
  k <> "enjeu_détaillé" -> k <> "type_pna" -> k <> "fichier_source" ->
  dict_get k (stamped file_name data_type d) = dict_get k d.
Proof.
  intros H1 H2 H3. unfold stamped.
  rewrite !dict_get_set_ne by done.
  destruct (String.eqb data_type "Chiroptères"); [|done].
  by rewrite dict_get_set_ne.
Qed.

Lemma stamped_type_pna (file_name data_type : string) (d : dict) :
  dict_get "type_pna" (stamped file_name data_type d) = Some (PyStr data_type).
Proof.
  unfold stamped. rewrite dict_get_set_ne by done. apply dict_get_set_eq.
Qed.

Lemma stamped_fichier_source (file_name data_type : string) (d : dict) :
  dict_get "fichier_source" (stamped file_name data_type d) = Some (PyStr file_name).
Proof. unfold stamped. apply dict_get_set_eq. Qed.

Lemma stamped_enjeu (file_name : string) (d : dict) :
  dict_get "enjeu_détaillé" (stamped file_name "Chiroptères" d) =
    Some (default (PyStr "Indéterminé") (dict_get "t_enjeux" d)).
Proof.
  unfold stamped. change (String.eqb "Chiroptères" "Chiroptères") with true. cbv iota.
  rewrite !dict_get_set_ne by done. apply dict_get_set_eq.
Qed.

Section MatcherFacts.

Variable coord : Type.
Variable geom : Type.
Variable Point : coord -> coord -> geom.
Variable buffer : geom -> Z -> geom.
Variable shape : pyval -> result geom.
Variable contains : geom -> geom -> result bool.
Variable intersects : geom -> geom -> result bool.
Variable point_l93 : geom.

#[local] Abbreviation try_ := (try_feature buffer shape contains intersects point_l93).
#[local] Abbreviation visit := (visit_feature buffer shape contains intersects point_l93).
#[local] Abbreviation appended_ := (appended buffer shape contains intersects point_l93).
#[local] Abbreviation visited_ := (visited buffer shape contains intersects point_l93).
#[local] Abbreviation refs_ := (appended_refs buffer shape contains intersects point_l93).
#[local] Abbreviation match_of_ := (match_of buffer shape contains intersects point_l93).
#[local] Abbreviation geometry_matches_ :=
  (geometry_matches buffer shape contains intersects point_l93).
#[local] Abbreviation all_appended_ :=
  (all_appended buffer shape contains intersects point_l93).
#[local] Abbreviation store_left_ := (store_left buffer shape contains intersects point_l93).
#[local] Abbreviation all_matches_ := (all_matches buffer shape contains intersects point_l93).

(** *** One feature *)

Lemma try_feature_Some (file_name data_type : string) (f p : pyval) :
  try_ file_name data_type f = Ok (Some p) <->
  geometry_matches_ f /\
  exists d, py_getitem f "properties" = Ok (PyDict d) /\
            p = PyDict (stamped file_name data_type d).
Proof.
  unfold try_feature, geometry_matches. split.
  - destruct (py_getitem f "geometry") as [g|] eqn:Eg; [simpl|done].
    destruct (shape g) as [s|] eqn:Es; [simpl|done].
    destruct (py_getitem f "properties") as [props|] eqn:Ep; [simpl|done].
    destruct (match_test _ _ _ _ s) as [[|]|] eqn:Em; [simpl|done|done].
    intros H. split; [by exists g, s|].
    destruct (stamp file_name data_type props) as [p'|] eqn:Est;
      cbv [fmap result_fmap] in H; [|done].
    injection H as <-.
    assert (exists d, props = PyDict d) as [d ->].
    { destruct props; try (by eexists).
      all: match type of Est with
           | stamp _ _ ?q = _ =>
               destruct (stamp_not_dict file_name data_type q) as [e He];
               [done | congruence]
           end. }
    exists d. split; [done|]. rewrite stamp_dict in Est. congruence.
  - intros [(g & s & -> & Hs & Hm) (d & -> & ->)]. simpl.
    rewrite Hs. simpl. rewrite Hm. simpl. by rewrite stamp_dict.
Qed.

Lemma match_of_Some (file_name data_type : string) (f p : pyval) :
  match_of_ file_name data_type f = Some p <-> try_ file_name data_type f = Ok (Some p).
Proof.
  unfold match_of. destruct (try_ file_name data_type f) as [[q|]|]; naive_solver.
Qed.

Lemma appended_match_of (file_name data_type : string) (f : pyval) :
  appended_ file_name data_type f = bool_decide (is_Some (match_of_ file_name data_type f)).
Proof.
  unfold appended, visit_feature, match_of.
  by destruct (try_ file_name data_type f) as [[q|]|].
Qed.

(** A feature is appended exactly when its geometry passes the test and
    it has a [properties] dict to write to. *)
Lemma appended_iff (file_name data_type : string) (f : pyval) :
  appended_ file_name data_type f = true <->
  geometry_matches_ f /\ has_properties_dict f.
Proof.
  rewrite appended_match_of, bool_decide_eq_true. unfold has_properties_dict. split.
  - intros [p Hp]. apply match_of_Some, try_feature_Some in Hp as [Hg (d & Hd & _)].
    split; [done | by exists d].
  - intros [Hg [d Hd]]. exists (PyDict (stamped file_name data_type d)).
    apply match_of_Some, try_feature_Some. naive_solver.
Qed.

Lemma visit_fst (file_name data_type : string) (f : pyval) :
  (visit file_name data_type f).1 =
    match match_of_ file_name data_type f with
    | Some p => with_properties f p
    | None => f
    end.
Proof.
  unfold visit_feature, match_of. by destruct (try_ file_name data_type f) as [[q|]|].
Qed.

(** After the visit the feature holds the stamped dict. *)
Lemma visit_properties (file_name data_type : string) (f p : pyval) :
  match_of_ file_name data_type f = Some p ->
  py_getitem (visit file_name data_type f).1 "properties" = Ok p.
Proof.
  intros Hm. rewrite visit_fst, Hm.
  apply match_of_Some, try_feature_Some in Hm as [_ (d & Hd & _)].
  destruct f; try done. simpl. by rewrite dict_get_set_eq.
Qed.

(** The visit writes under [properties] and nowhere else. *)
Lemma visit_other_keys (file_name data_type k : string) (f : pyval) :
  k <> "properties" ->
  py_getitem (visit file_name data_type f).1 k = py_getitem f k.
Proof.
  intros Hk. rewrite visit_fst.
  destruct (match_of_ file_name data_type f) as [p|]; [|done].
  destruct f; try done. simpl. by rewrite dict_get_set_ne.
Qed.

Lemma visit_not_appended (file_name data_type : string) (f : pyval) :
  appended_ file_name data_type f = false -> (visit file_name data_type f).1 = f.
Proof.
  rewrite appended_match_of, visit_fst. intros H.
  apply bool_decide_eq_false in H.
  destruct (match_of_ file_name data_type f); [|done]. destruct H. by eexists.
Qed.

(** *** The features of one file *)

Lemma scan_features_eq (file_name data_type : string) (i : nat) (results : list ref)
    (j : nat) (fs : list pyval) :
  scan_features buffer shape contains intersects point_l93 file_name data_type
    i results j fs =
  (visited_ file_name data_type fs, results ++ refs_ file_name data_type i j fs).
Proof.
  revert results j. induction fs as [|f fs IH]; intros results j; simpl.
  - by rewrite app_nil_r.
  - unfold appended. destruct (visit file_name data_type f) as [f' b]. simpl.
    rewrite IH. unfold visited. destruct b; simpl; [|done].
    by rewrite <- app_assoc.
Qed.

Lemma elem_of_appended_refs (file_name data_type : string) (i j : nat) (fs : list pyval)
    (r : ref) :
  r ∈ refs_ file_name data_type i j fs <->
  r.1 = i /\ exists k f, r.2 = j + k /\ fs !! k = Some f /\
                       appended_ file_name data_type f = true.
Proof.
  revert j. induction fs as [|f fs IH]; intros j; simpl.
  - split; [by intros ?%elem_of_nil | by intros (_ & k & f' & _ & ? & _)].
  - rewrite elem_of_app, IH. split.
    + intros [H | (Hi & k & f' & Hk & Hf & Ha)].
      * destruct (appended_ file_name data_type f) eqn:Ea;
          [|by apply elem_of_nil in H].
        apply list_elem_of_singleton in H as ->.
        split; [done|]. exists 0, f. simpl. split; [lia | done].
      * split; [done|]. exists (S k), f'. split; [lia | done].
    + intros (Hi & [|k] & f' & Hk & Hf & Ha).
      * left. simpl in Hf. injection Hf as <-. rewrite Ha.
        apply list_elem_of_singleton. destruct r; simpl in *. f_equal; lia.
      * right. split; [done|]. exists k, f'. split; [lia | done].
Qed.

Lemma appended_refs_sorted (file_name data_type : string) (i j : nat) (fs : list pyval) :
  StronglySorted ref_lt (refs_ file_name data_type i j fs).
Proof.
  revert j. induction fs as [|f fs IH]; intros j; simpl; [constructor|].
  destruct (appended_ file_name data_type f); simpl; [|apply IH].
  constructor; [apply IH|].
  apply Forall_forall. intros r Hr.
  apply elem_of_appended_refs in Hr as (Hi & k & f' & Hk & _).
  right. simpl. split; [done | lia].
Qed.

(** What the references of one file stand for afterwards, given how the
    store is read at that file. *)
Lemma appended_refs_contents (file_name data_type : string) (i j : nat) (fs : list pyval)
    (read : ref -> option pyval) :
  (forall k f p, fs !! k = Some f -> match_of_ file_name data_type f = Some p ->
                 read (i, j + k) = Some p) ->
  read <$> refs_ file_name data_type i j fs =
    Some <$> omap (match_of_ file_name data_type) fs.
Proof.
  revert j. induction fs as [|f fs IH]; intros j Hread; [done|].
  simpl. rewrite fmap_app, appended_match_of.
  rewrite IH.
  2:{ intros k f' p Hk Hm. replace (S j + k) with (j + S k) by lia.
      by apply (Hread (S k) f' p). }
  destruct (match_of_ file_name data_type f) as [p|] eqn:Em; simpl; [|done].
  f_equal. replace j with (j + 0) at 1 by lia. by apply (Hread 0 f p).
Qed.

(** Iterating a [str] or a dict gives strings, and no string is ever
    appended. *)
Lemma match_of_str (file_name data_type s : string) :
  match_of_ file_name data_type (PyStr s) = None.
Proof. done. Qed.

Lemma features_of_cases (info : file_info) (fs : list pyval) :
  features_of info = Ok fs ->
  feature_list (data info) = Some fs \/
  (feature_list (data info) = None /\ Forall (fun f => exists s, f = PyStr s) fs).
Proof.
  unfold features_of, feature_list, py_getitem.
  destruct (data info) as [| | | | | |d]; try done.
  destruct (dict_get "features" d) as [v|]; [|done]. simpl.
  destruct v as [| | | |s|l|d']; simpl; try done.
  - intros [= <-]. right. split; [done|].
    apply Forall_fmap, Forall_forall. intros x _. by exists x.
  - intros [= <-]. by left.
  - intros [= <-]. right. split; [done|].
    apply Forall_fmap, Forall_forall. intros x _. by eexists.
Qed.

Lemma feature_list_features_of (info : file_info) (fs : list pyval) :
  feature_list (data info) = Some fs -> features_of info = Ok fs.
Proof.
  unfold features_of, feature_list, py_getitem.
  destruct (data info) as [| | | | | |d]; try done.
  destruct (dict_get "features" d) as [v|]; [|done].
  destruct v; try done. by intros [= <-].
Qed.

Lemma feature_list_with_features (data0 : pyval) (fs fs' : list pyval) :
  feature_list data0 = Some fs ->
  feature_list (with_features data0 fs') = Some fs'.
Proof.
  unfold feature_list, with_features.
  destruct data0 as [| | | | | |d]; try done.
  destruct (dict_get "features" d) as [v|] eqn:Ed; [|done].
  destruct v; try done. intros _. by rewrite dict_get_set_eq.
Qed.

Lemma with_features_not_list (data0 : pyval) (fs' : list pyval) :
  feature_list data0 = None -> with_features data0 fs' = data0.
Proof.
  unfold feature_list, with_features.
  destruct data0 as [| | | | | |d]; try done.
  destruct (dict_get "features" d) as [v|] eqn:Ed; [|done].
  by destruct v.
Qed.

(** *** All the files *)

Lemma scan_sources_eq (results : list ref) (i : nat) (srcs : sources) :
  scan_sources buffer shape contains intersects point_l93 results i srcs =
  (store_left_ srcs, (fun later => results ++ later) <$> all_appended_ i srcs).
Proof.
  revert results i. induction srcs as [|[file_name info] srcs IH]; intros results i.
  - simpl. by rewrite app_nil_r.
  - cbn [scan_sources store_left all_appended].
    change (py_getitem (data info) "features" ≫= py_iter) with (features_of info).
    destruct (features_of info) as [fs|e]; [|done].
    rewrite scan_features_eq, IH. cbn [mbind result_bind].
    destruct (all_appended_ (S i) srcs) as [later|e]; [|done].
    cbn. by rewrite app_assoc.
Qed.

Lemma all_appended_readable (i : nat) (srcs : sources) :
  readable srcs <-> is_Ok (all_appended_ i srcs).
Proof.
  unfold readable. revert i. induction srcs as [|[file_name info] srcs IH]; intros i.
  - split; [by eexists | constructor].
  - rewrite Forall_cons, (IH (S i)). cbn [all_appended]. unfold is_Ok. simpl. split.
    + intros [[fs ->] [later ->]]. by eexists.
    + destruct (features_of info) as [fs|]; [|by intros [? ?]].
      destruct (all_appended_ (S i) srcs) as [later|]; [|by intros [? ?]].
      intros _. split; by eexists.
Qed.

Lemma elem_of_all_appended (i : nat) (srcs : sources) (rs : list ref) (r : ref) :
  all_appended_ i srcs = Ok rs ->
  r ∈ rs <->
  exists file_name info fs f,
    i <= r.1 /\ srcs !! (r.1 - i) = Some (file_name, info) /\
    features_of info = Ok fs /\ fs !! r.2 = Some f /\
    appended_ file_name (type info) f = true.
Proof.
  revert i rs. induction srcs as [|[file_name info] srcs IH]; intros i rs.
  - intros [= <-]. split; [by intros ?%elem_of_nil | by intros (?&?&?&?&?&?&?)].
  - cbn [all_appended].
    destruct (features_of info) as [fs|] eqn:Ef; [|done].
    destruct (all_appended_ (S i) srcs) as [later|] eqn:El; [|done].
    intros [= <-]. rewrite elem_of_app, elem_of_appended_refs, (IH _ _ El). split.
    + intros [(Hi & k & f & Hk & Hf & Ha) | (n & info' & fs' & f & Hi & Hn & Hfs & Hf & Ha)].
      * exists file_name, info, fs, f. rewrite Hi, Nat.sub_diag. simpl in Hk.
        rewrite Hk. done.
      * exists n, info', fs', f. split; [lia|].
        replace (r.1 - i) with (S (r.1 - S i)) by lia. done.
    + intros (n & info' & fs' & f & Hi & Hn & Hfs & Hf & Ha).
      destruct (decide (r.1 = i)) as [Heq|Hne].
      * left. rewrite Heq, Nat.sub_diag in Hn. simpl in Hn. injection Hn as <- <-.
        split; [done|]. exists r.2, f. rewrite Ef in Hfs. injection Hfs as <-. done.
      * right. exists n, info', fs', f. split; [lia|].
        replace (r.1 - i) with (S (r.1 - S i)) in Hn by lia. done.
Qed.

Lemma all_appended_sorted (i : nat) (srcs : sources) (rs : list ref) :
  all_appended_ i srcs = Ok rs -> StronglySorted ref_lt rs.
Proof.
  revert i rs. induction srcs as [|[file_name info] srcs IH]; intros i rs.
  - intros [= <-]. constructor.
  - cbn [all_appended].
    destruct (features_of info) as [fs|] eqn:Ef; [|done].
    destruct (all_appended_ (S i) srcs) as [later|] eqn:El; [|done].
    intros [= <-].
    apply StronglySorted_app_2;
      [| apply appended_refs_sorted | by eapply IH].
    intros r1 r2 Hr1 Hr2.
    apply elem_of_appended_refs in Hr1 as [Hr1 _].
    apply (elem_of_all_appended _ _ _ _ El) in Hr2 as (?&?&?&?&Hr2&_).
    left. lia.
Qed.

(** *** The store a call leaves *)

Lemma store_left_lookup (srcs : sources) (a : nat) (file_name : string) (info : file_info) :
  readable srcs ->
  srcs !! a = Some (file_name, info) ->
  exists fs,
    features_of info = Ok fs /\
    store_left_ srcs !! a =
      Some (file_name,
            {| data := with_features (data info) (visited_ file_name (type info) fs);
               type := type info |}).
Proof.
  unfold readable. intros Hr. revert a. induction Hr as [|[n0 info0] srcs [fs0 Hfs0] Hr IH]; intros a; [done|].
  cbn [store_left]. simpl in Hfs0. rewrite Hfs0. destruct a as [|a]; simpl.
  - intros [= -> ->]. by exists fs0.
  - apply IH.
Qed.

Lemma properties_at_visited (st : sources) (i : nat) (file_name : string)
    (info : file_info) (fs : list pyval) :
  st !! i =
    Some (file_name,
          {| data := with_features (data info) (visited_ file_name (type info) fs);
             type := type info |}) ->
  features_of info = Ok fs ->
  forall k f p,
    fs !! k = Some f -> match_of_ file_name (type info) f = Some p ->
    properties_at st (i, k) = Some p.
Proof.
  intros Hst Hfs k f p Hk Hm.
  destruct (features_of_cases _ _ Hfs) as [Hl | [_ Hstr]].
  - unfold properties_at, feature_at. simpl. rewrite Hst. simpl.
    rewrite (feature_list_with_features _ _ _ Hl). simpl.
    unfold visited. rewrite list_lookup_fmap, Hk. simpl.
    by rewrite (visit_properties _ _ _ _ Hm).
  - rewrite Forall_forall in Hstr.
    destruct (Hstr f) as [s ->]; [by eapply list_elem_of_lookup_2|].
    by rewrite match_of_str in Hm.
Qed.

Lemma feature_at_store_left (srcs : sources) (a b : nat) (file_name : string)
    (info : file_info) :
  readable srcs ->
  srcs !! a = Some (file_name, info) ->
  feature_at (store_left_ srcs) (a, b) =
    (fun f => (visit file_name (type info) f).1) <$> feature_at srcs (a, b).
Proof.
  intros Hr Ha. destruct (store_left_lookup _ _ _ _ Hr Ha) as (fs & Hfs & Hst).
  unfold feature_at. simpl. rewrite Hst, Ha. simpl.
  destruct (features_of_cases _ _ Hfs) as [Hl | [Hl _]].
  - rewrite (feature_list_with_features _ _ _ Hl), Hl. simpl.
    unfold visited. by rewrite list_lookup_fmap.
  - by rewrite (with_features_not_list _ _ Hl), Hl.
Qed.

(** What the returned references stand for in the store the call leaves:
    the stamped dicts of the features that match, in order. *)
Lemma all_appended_contents (pre : sources) (i : nat) (srcs : sources) :
  length pre = i ->
  match all_appended_ i srcs with
  | Ok rs =>
      exists ms, all_matches_ srcs = Ok ms /\
                 properties_at (pre ++ store_left_ srcs) <$> rs = Some <$> ms
  | Raise e => all_matches_ srcs = Raise e
  end.
Proof.
  revert pre i. induction srcs as [|[file_name info] srcs IH]; intros pre i Hlen.
  - by exists [].
  - cbn [all_appended all_matches store_left].
    destruct (features_of info) as [fs|e] eqn:Hfs; [|done]. simpl.
    set (entry := (file_name,
                   {| data := with_features (data info) (visited_ file_name (type info) fs);
                      type := type info |})).
    specialize (IH (pre ++ [entry]) (S i)).
    rewrite length_app, <- app_assoc in IH. simpl in IH.
    specialize (IH ltac:(lia)).
    destruct (all_appended_ (S i) srcs) as [later|e]; [|by rewrite IH].
    destruct IH as (ms & -> & Hms). simpl. eexists. split; [done|].
    rewrite !fmap_app, Hms. f_equal.
    apply appended_refs_contents. intros k f p Hk Hm. simpl.
    apply (properties_at_visited _ i file_name info fs) with f; [|done..].
    by rewrite lookup_app_r, Hlen, Nat.sub_diag by lia.
Qed.

End MatcherFacts.

(** ** [is_in_pna] *)

Section IsInPnaFacts.

Variable coord : Type.
Variable geom : Type.
Variable Point : coord -> coord -> geom.
Variable buffer : geom -> Z -> geom.
Variable shape : pyval -> result geom.
Variable contains : geom -> geom -> result bool.
Variable intersects : geom -> geom -> result bool.

#[local] Abbreviation query := (is_in_pna Point buffer shape contains intersects).
#[local] Abbreviation all_appended_ := (all_appended buffer shape contains intersects).
#[local] Abbreviation store_left_ := (store_left buffer shape contains intersects).
#[local] Abbreviation all_matches_ := (all_matches buffer shape contains intersects).
#[local] Abbreviation appended_ := (appended buffer shape contains intersects).
#[local] Abbreviation visit := (visit_feature buffer shape contains intersects).
#[local] Abbreviation match_of_ := (match_of buffer shape contains intersects).
#[local] Abbreviation geometry_matches_ :=
  (geometry_matches buffer shape contains intersects).

(** The call in terms of the list readings of its two loops. *)
Lemma is_in_pna_eq (lat lon x_l93 y_l93 : coord) (ads : sources) :
  query lat lon x_l93 y_l93 ads =
  match all_appended_ (Point x_l93 y_l93) 0 ads with
  | Ok results =>
      {| store_after := store_left_ (Point x_l93 y_l93) ads;
         reported := [];
         returned := match results with
                     | [] => (false, None)
                     | _ :: _ => (true, Some results)
                     end |}
  | Raise e =>
      {| store_after := store_left_ (Point x_l93 y_l93) ads;
         reported := [CheckError e];
         returned := (false, None) |}
  end.
Proof.
  unfold is_in_pna. rewrite scan_sources_eq.
  by destruct (all_appended_ (Point x_l93 y_l93) 0 ads) as [results|e].
Qed.

Lemma result_refs_eq (lat lon x_l93 y_l93 : coord) (ads : sources) :
  result_refs (query lat lon x_l93 y_l93 ads) =
  match all_appended_ (Point x_l93 y_l93) 0 ads with
  | Ok results => results
  | Raise _ => []
  end.
Proof.
  rewrite is_in_pna_eq. unfold result_refs.
  by destruct (all_appended_ (Point x_l93 y_l93) 0 ads) as [[|r rs]|e].
Qed.

Lemma store_after_eq (lat lon x_l93 y_l93 : coord) (ads : sources) :
  store_after (query lat lon x_l93 y_l93 ads) = store_left_ (Point x_l93 y_l93) ads.
Proof.
  rewrite is_in_pna_eq. by destruct (all_appended_ (Point x_l93 y_l93) 0 ads).
Qed.

(** A feature the store holds at a place is an item of the loop there. *)
Lemma feature_at_item (ads : sources) (r : ref) (f : pyval) :
  feature_at ads r = Some f ->
  exists file_name info fs,
    ads !! r.1 = Some (file_name, info) /\ features_of info = Ok fs /\
    fs !! r.2 = Some f.
Proof.
  unfold feature_at. destruct (ads !! r.1) as [[file_name info]|]; [simpl|done].
  destruct (feature_list (data info)) as [fs|] eqn:Hl; [simpl|done].
  intros Hf. exists file_name, info, fs.
  by rewrite (feature_list_features_of _ _ Hl).
Qed.

(** What holds of a returned reference: the feature it names, what its
    dict was and what it is afterwards. *)
Lemma returned_ref_facts (point : geom) (ads : sources) (rs : list ref) (r : ref) :
  all_appended_ point 0 ads = Ok rs ->
  r ∈ rs ->
  exists file_name info f d,
    ads !! r.1 = Some (file_name, info) /\
    feature_at ads r = Some f /\
    geometry_matches_ point f /\
    py_getitem f "properties" = Ok (PyDict d) /\
    feature_at (store_left_ point ads) r =
      Some (with_properties f (PyDict (stamped file_name (type info) d))) /\
    properties_at (store_left_ point ads) r =
      Some (PyDict (stamped file_name (type info) d)).
Proof.
  intros Hrs Hr.
  assert (readable ads) as Hread by (eapply all_appended_readable; by eexists).
  apply (elem_of_all_appended _ _ _ _ _ _ _ _ _ _ Hrs) in Hr
    as (file_name & info & fs & f & _ & Hi & Hfs & Hf & Ha).
  rewrite Nat.sub_0_r in Hi.
  pose proof Ha as Hm. rewrite appended_match_of, bool_decide_eq_true in Hm.
  destruct Hm as [p Hm]. pose proof Hm as Hp.
  apply match_of_Some, try_feature_Some in Hp as (Hg & d & Hd & ->).
  assert (feature_at ads r = Some f) as Hat.
  { destruct (features_of_cases _ _ Hfs) as [Hl | [_ Hstr]].
    - unfold feature_at. rewrite Hi. simpl. by rewrite Hl.
    - rewrite Forall_forall in Hstr.
      destruct (Hstr f) as [s ->]; [by eapply list_elem_of_lookup_2 | done]. }
  exists file_name, info, f, d. split_and!; try done.
  - destruct r as [i j]. simpl in Hi.
    rewrite (feature_at_store_left _ _ _ _ _ _ _ _ _ _ _ Hread Hi), Hat. simpl.
    by rewrite visit_fst, Hm.
  - destruct r as [i j]. simpl in Hi, Hf.
    destruct (store_left_lookup geom buffer shape contains intersects point
                _ _ _ _ Hread Hi) as (fs' & Hfs' & Hst).
    assert (fs' = fs) as -> by congruence.
    by eapply properties_at_visited.
Qed.

Lemma all_matches_app (point : geom) (l1 l2 : sources) :
  all_matches_ point (l1 ++ l2) =
    (a ← all_matches_ point l1; b ← all_matches_ point l2; Ok (a ++ b)).
Proof.
  induction l1 as [|[file_name info] l1 IH]; simpl.
  - by destruct (all_matches_ point l2).
  - destruct (features_of info) as [fs|]; [simpl|done].
    rewrite IH. destruct (all_matches_ point l1) as [a|]; [simpl|done].
    destruct (all_matches_ point l2) as [b|]; [simpl|done].
    by rewrite app_assoc.
Qed.

(** What the caller reads in the returned list, and what the page shows. *)
Lemma is_in_pna_emitted (lat lon x_l93 y_l93 : coord) (ads : sources) :
  emitted (query lat lon x_l93 y_l93 ads) =
    match all_matches_ (Point x_l93 y_l93) ads with
    | Ok (m :: ms) => (true, Some (Some <$> m :: ms))
    | _ => (false, None)
    end /\
  reported (query lat lon x_l93 y_l93 ads) =
    match all_matches_ (Point x_l93 y_l93) ads with
    | Ok _ => []
    | Raise e => [CheckError e]
    end.
Proof.
  rewrite is_in_pna_eq.
  pose proof (all_appended_contents _ buffer shape contains intersects
                (Point x_l93 y_l93) [] 0 ads eq_refl) as H.
  destruct (all_appended_ (Point x_l93 y_l93) 0 ads) as [rs|e].
  - destruct H as (ms & -> & Hms). simpl in Hms. unfold emitted.
    destruct rs as [|r rs], ms as [|m ms]; try done.
    split; [|done]. cbn [returned store_after fst snd fmap option_fmap option_map].
    do 2 f_equal. exact Hms.
  - by rewrite H.
Qed.

Lemma match_of_unreadable (point : geom) (file_name data_type : string) (f : pyval) :
  unreadable_geometry shape f -> match_of_ point file_name data_type f = None.
Proof.
  intros [e He]. unfold match_of, try_feature.
  destruct (py_getitem f "geometry") as [g|]; [simpl in *|done].
  by rewrite He.
Qed.

(** The test of line 108 spelled out: [contains] answers true, or it
    answers false and [intersects] answers true on the buffer of 1 around
    the point. An exception of either is none of the two. *)
Lemma match_test_rule (point pna_shape : geom) :
  match_test buffer contains intersects point pna_shape = Ok true <->
  contains pna_shape point = Ok true \/
  (contains pna_shape point = Ok false /\
   intersects pna_shape (buffer point 1) = Ok true).
Proof.
  unfold match_test, point_buffer.
  destruct (contains pna_shape point) as [[|]|e]; cbn [mbind result_bind].
  - split; [by left | done].
  - split; [by right | by intros [?|[_ ?]]].
  - split; [done | by intros [?|[? _]]].
Qed.

Lemma geometry_matches_rule (point : geom) (f : pyval) :
  geometry_matches_ point f <->
  exists geometry pna_shape,
    py_getitem f "geometry" = Ok geometry /\
    shape geometry = Ok pna_shape /\
    (contains pna_shape point = Ok true \/
     (contains pna_shape point = Ok false /\
      intersects pna_shape (buffer point 1) = Ok true)).
Proof.
  unfold geometry_matches. split.
  - intros (g & s & Hg & Hs & Hm). exists g, s. by rewrite <- match_test_rule.
  - intros (g & s & Hg & Hs & Hm). exists g, s. by rewrite match_test_rule.
Qed.

(** C1, as amended. For datasets whose every [features] can be run
    through, [is_in_pna] tests every feature of every file: a feature is in
    the returned results exactly when [shape] reads its geometry into a
    shape that contains the point, or that does not and intersects the
    buffer of 1 around the point, and the feature has a [properties] dict;
    the results come in file order, then feature order; the flag is true
    and the list returned exactly when there is at least one. *)
Theorem is_in_pna_collects_every_match (lat lon x_l93 y_l93 : coord) (ads : sources) :
  readable ads ->
  let out := query lat lon x_l93 y_l93 ads in
  let point_l93 := Point x_l93 y_l93 in
  returned out =
    (if decide (result_refs out = []) then (false, None)
     else (true, Some (result_refs out))) /\
  StronglySorted ref_lt (result_refs out) /\
  forall i j,
    (i, j) ∈ result_refs out <->
    exists file_name info fs f geometry pna_shape,
      ads !! i = Some (file_name, info) /\ features_of info = Ok fs /\
      fs !! j = Some f /\
      py_getitem f "geometry" = Ok geometry /\
      shape geometry = Ok pna_shape /\
      (contains pna_shape point_l93 = Ok true \/
       (contains pna_shape point_l93 = Ok false /\
        intersects pna_shape (buffer point_l93 1) = Ok true)) /\
      has_properties_dict f.
Proof.
  intros Hread. cbv zeta. rewrite result_refs_eq, is_in_pna_eq.
  destruct (proj1 (all_appended_readable _ buffer shape contains intersects
                     (Point x_l93 y_l93) 0 ads) Hread) as [rs Hrs].
  rewrite Hrs. split_and!.
  - by destruct rs.
  - by eapply all_appended_sorted.
  - intros i j. rewrite (elem_of_all_appended _ _ _ _ _ _ _ _ _ _ Hrs). simpl.
    rewrite Nat.sub_0_r. split.
    + intros (n & info & fs & f & _ & Hi & Hfs & Hf & Ha).
      apply appended_iff in Ha as [(g & s & Hg & Hs & Hm)%geometry_matches_rule Hp].
      by exists n, info, fs, f, g, s.
    + intros (n & info & fs & f & g & s & Hi & Hfs & Hf & Hg & Hs & Hm & Hp).
      exists n, info, fs, f. split_and!; [lia|done..|].
      apply appended_iff. split; [|done]. apply geometry_matches_rule. by exists g, s.
Qed.

(** C2, as amended. When no feature of any file matches (a geometry
    that passes the test and a [properties] dict), [is_in_pna] returns
    [False] with [None], not with an empty list. *)
Theorem no_match_returns_none (lat lon x_l93 y_l93 : coord) (ads : sources) :
  (forall file_name info fs f,
     (file_name, info) ∈ ads -> features_of info = Ok fs -> f ∈ fs ->
     ~ (geometry_matches_ (Point x_l93 y_l93) f /\ has_properties_dict f)) ->
  returned (query lat lon x_l93 y_l93 ads) = (false, None).
Proof.
  intros Hno. rewrite is_in_pna_eq.
  destruct (all_appended_ (Point x_l93 y_l93) 0 ads) as [[|r rs]|e] eqn:Hrs; [done| |done].
  exfalso.
  assert (r ∈ r :: rs) as Hr by apply list_elem_of_here.
  apply (elem_of_all_appended _ _ _ _ _ _ _ _ _ _ Hrs) in Hr
    as (n & info & fs & f & _ & Hi & Hfs & Hf & Ha).
  apply appended_iff in Ha.
  eapply Hno; [| exact Hfs | | exact Ha].
  - by eapply list_elem_of_lookup_2.
  - by eapply list_elem_of_lookup_2.
Qed.

(** Line 108 has two tests. Whether the first is ever needed is a fact
    about Shapely's floating-point geometry, which the matcher takes as
    given. If the library never raises on [contains] and every shape that
    contains the point intersects the buffer around it, line 108 is the
    second test alone. *)
Lemma match_test_is_intersects (point : geom) :
  (forall s, is_Ok (contains s point)) ->
  (forall s, contains s point = Ok true ->
             intersects s (point_buffer buffer point) = Ok true) ->
  forall s,
    match_test buffer contains intersects point s =
      intersects s (point_buffer buffer point).
Proof.
  intros Htotal Himp s. unfold match_test.
  destruct (Htotal s) as [[|] Hc]; rewrite Hc; simpl; [|done].
  by rewrite (Himp s Hc).
Qed.

(** C4, as amended. [is_in_pna] writes to the loaded datasets: the
    [properties] dict of every feature it returns is stamped in place and is
    itself the result (a reference into the store, not a copy). A feature
    that is not returned is left as it was, and of a returned feature
    nothing but [properties] changes. *)
Theorem is_in_pna_stamps_in_place (lat lon x_l93 y_l93 : coord) (ads : sources)
    (r : ref) (f : pyval) :
  readable ads ->
  feature_at ads r = Some f ->
  let out := query lat lon x_l93 y_l93 ads in
  exists f',
    feature_at (store_after out) r = Some f' /\
    (forall k, k <> "properties" -> py_getitem f' k = py_getitem f k) /\
    (r ∉ result_refs out -> f' = f) /\
    (r ∈ result_refs out ->
     exists file_name info d,
       ads !! r.1 = Some (file_name, info) /\
       py_getitem f "properties" = Ok (PyDict d) /\
       properties_at (store_after out) r =
         Some (PyDict (stamped file_name (type info) d))).
Proof.
  intros Hread Hat. cbv zeta. rewrite store_after_eq, result_refs_eq.
  destruct (feature_at_item _ _ _ Hat) as (file_name & info & fs & Hi & Hfs & Hf).
  destruct (proj1 (all_appended_readable _ buffer shape contains intersects
                     (Point x_l93 y_l93) 0 ads) Hread) as [rs Hrs].
  rewrite Hrs. destruct r as [i j]. simpl in Hi, Hf.
  exists (visit (Point x_l93 y_l93) file_name (type info) f).1. split_and!.
  - by rewrite (feature_at_store_left _ _ _ _ _ _ _ _ _ _ _ Hread Hi), Hat.
  - intros k Hk. by apply visit_other_keys.
  - intros Hnot. apply visit_not_appended.
    destruct (appended_ (Point x_l93 y_l93) file_name (type info) f) eqn:Ha; [|done].
    destruct Hnot. apply (elem_of_all_appended _ _ _ _ _ _ _ _ _ _ Hrs).
    exists file_name, info, fs, f. simpl. rewrite Nat.sub_0_r. split_and!; [lia|done..].
  - intros Hin.
    destruct (returned_ref_facts _ _ _ _ Hrs Hin)
      as (n & info' & f0 & d & Hi' & Hat' & _ & Hd & _ & Hp).
    simpl in Hi'. exists n, info', d. split_and!; [done| |done]. congruence.
Qed.

(** The matches of the files with and without a feature that [shape]
    cannot read. *)
Lemma all_matches_without_bad (point : geom) (pre post : sources) (file_name : string)
    (info1 info2 : file_info) (fs1 fs2 : list pyval) (bad : pyval) :
  unreadable_geometry shape bad ->
  features_of info1 = Ok (fs1 ++ bad :: fs2) ->
  features_of info2 = Ok (fs1 ++ fs2) ->
  type info1 = type info2 ->
  all_matches_ point (pre ++ (file_name, info1) :: post) =
  all_matches_ point (pre ++ (file_name, info2) :: post).
Proof.
  intros Hbad H1 H2 Ht.
  rewrite !all_matches_app. cbn [all_matches]. rewrite H1, H2, Ht.
  destruct (all_matches_ point pre) as [a|]; [|done].
  destruct (all_matches_ point post) as [b|]; [|done].
  cbn [mbind result_bind]. do 3 f_equal.
  rewrite !omap_app. f_equal. cbn [omap list_omap].
  by rewrite (match_of_unreadable _ _ _ _ Hbad).
Qed.

(** On datasets that can all be run through nothing is reported. *)
Lemma reported_readable (lat lon x_l93 y_l93 : coord) (ads : sources) :
  readable ads -> reported (query lat lon x_l93 y_l93 ads) = [].
Proof.
  intros H. rewrite is_in_pna_eq.
  apply (all_appended_readable _ buffer shape contains intersects (Point x_l93 y_l93) 0)
    in H as [rs ->].
  done.
Qed.

(** C5. A feature whose geometry [shape] cannot read is skipped, and
    nothing else changes. It is not among the results. Every other
    feature of its file and of the other files whose geometry is read into
    a shape that contains the point, or that does not and intersects the
    buffer of 1 around the point, and that has a [properties] dict, is
    among the results, and no error is shown, provided every file of the
    datasets has features to run through. And the call returns and shows
    what it returns and shows on the same datasets without the feature. *)
Theorem unreadable_feature_is_skipped (lat lon x_l93 y_l93 : coord) (pre post : sources)
    (file_name : string) (info1 info2 : file_info) (fs1 fs2 : list pyval) (bad : pyval) :
  unreadable_geometry shape bad ->
  features_of info1 = Ok (fs1 ++ bad :: fs2) ->
  features_of info2 = Ok (fs1 ++ fs2) ->
  type info1 = type info2 ->
  let ads := pre ++ (file_name, info1) :: post in
  let with_bad := query lat lon x_l93 y_l93 ads in
  let without := query lat lon x_l93 y_l93 (pre ++ (file_name, info2) :: post) in
  let point_l93 := Point x_l93 y_l93 in
  ((length pre, length fs1) ∉ result_refs with_bad) /\
  (readable ads ->
   reported with_bad = [] /\
   forall i j name info fs f geometry pna_shape,
     ads !! i = Some (name, info) -> features_of info = Ok fs -> fs !! j = Some f ->
     py_getitem f "geometry" = Ok geometry ->
     shape geometry = Ok pna_shape ->
     (contains pna_shape point_l93 = Ok true \/
      (contains pna_shape point_l93 = Ok false /\
       intersects pna_shape (buffer point_l93 1) = Ok true)) ->
     has_properties_dict f ->
     (i, j) ∈ result_refs with_bad /\
     exists d, properties_at (store_after with_bad) (i, j) = Some (PyDict d)) /\
  emitted with_bad = emitted without /\
  reported with_bad = reported without.
Proof.
  intros Hbad H1 H2 Ht. cbv zeta. split_and!.
  - rewrite result_refs_eq.
    destruct (all_appended_ (Point x_l93 y_l93) 0 (pre ++ (file_name, info1) :: post))
      as [rs|e] eqn:Hrs; [|apply not_elem_of_nil].
    intros Hin. apply (elem_of_all_appended _ _ _ _ _ _ _ _ _ _ Hrs) in Hin
      as (n & info & fs & f & _ & Hi & Hfs & Hf & Ha).
    cbn [fst snd] in Hi, Hf. rewrite Nat.sub_0_r in Hi.
    rewrite list_lookup_middle in Hi by done. injection Hi as <- <-.
    rewrite H1 in Hfs. injection Hfs as <-.
    rewrite list_lookup_middle in Hf by done. injection Hf as <-.
    rewrite appended_match_of, bool_decide_eq_true in Ha. destruct Ha as [p Hp].
    by rewrite (match_of_unreadable _ _ _ _ Hbad) in Hp.
  - intros Hread. split; [by apply reported_readable|].
    intros i j name info fs f g s Hi Hfs Hf Hg Hs Hm Hp.
    rewrite result_refs_eq, store_after_eq.
    destruct (proj1 (all_appended_readable _ buffer shape contains intersects
                       (Point x_l93 y_l93) 0 _) Hread) as [rs Hrs].
    rewrite Hrs.
    assert ((i, j) ∈ rs) as Hin.
    { apply (elem_of_all_appended _ _ _ _ _ _ _ _ _ _ Hrs).
      exists name, info, fs, f. cbn [fst snd]. rewrite Nat.sub_0_r.
      split_and!; [lia|done..|].
      apply appended_iff. split; [|done]. apply geometry_matches_rule. by exists g, s. }
    split; [done|].
    destruct (returned_ref_facts _ _ _ _ Hrs Hin) as (n & info' & f0 & d & _ & _ & _ & _ & _ & Hd).
    by eexists.
  - destruct (is_in_pna_emitted lat lon x_l93 y_l93 (pre ++ (file_name, info1) :: post))
      as [-> _].
    destruct (is_in_pna_emitted lat lon x_l93 y_l93 (pre ++ (file_name, info2) :: post))
      as [-> _].
    by rewrite (all_matches_without_bad _ _ _ _ _ _ _ _ _ Hbad H1 H2 Ht).
  - destruct (is_in_pna_emitted lat lon x_l93 y_l93 (pre ++ (file_name, info1) :: post))
      as [_ ->].
    destruct (is_in_pna_emitted lat lon x_l93 y_l93 (pre ++ (file_name, info2) :: post))
      as [_ ->].
    by rewrite (all_matches_without_bad _ _ _ _ _ _ _ _ _ Hbad H1 H2 Ht).
Qed.

(** C8. Every returned result holds the type of its file under
    [type_pna] and the name of its file under [fichier_source]; in a file of
    type Chiroptères it also holds, under [enjeu_détaillé], the value the
    feature had under [t_enjeux], or "Indéterminé" when it had none. *)
Theorem results_carry_type_source_and_stake (lat lon x_l93 y_l93 : coord) (ads : sources)
    (rs : list ref) (i j : nat) (file_name : string) (info : file_info) :
  let out := query lat lon x_l93 y_l93 ads in
  returned out = (true, Some rs) ->
  (i, j) ∈ rs ->
  ads !! i = Some (file_name, info) ->
  exists d0 d,
    properties_at ads (i, j) = Some (PyDict d0) /\
    properties_at (store_after out) (i, j) = Some (PyDict d) /\
    dict_get "type_pna" d = Some (PyStr (type info)) /\
    dict_get "fichier_source" d = Some (PyStr file_name) /\
    (type info = "Chiroptères" ->
     dict_get "enjeu_détaillé" d =
       Some (default (PyStr "Indéterminé") (dict_get "t_enjeux" d0))).
Proof.
  cbv zeta. rewrite store_after_eq, is_in_pna_eq. intros Hret Hin Hi.
  destruct (all_appended_ (Point x_l93 y_l93) 0 ads) as [[|r0 rs0]|e] eqn:Hrs;
    try done.
  simpl in Hret. injection Hret as <-.
  destruct (returned_ref_facts _ _ _ _ Hrs Hin)
    as (n & info' & f & d0 & Hi' & Hat & _ & Hd & _ & Hp).
  simpl in Hi'. rewrite Hi in Hi'. injection Hi' as <- <-.
  exists d0, (stamped file_name (type info) d0). split_and!.
  - unfold properties_at. rewrite Hat. simpl. by rewrite Hd.
  - done.
  - apply stamped_type_pna.
  - apply stamped_fichier_source.
  - intros ->. apply stamped_enjeu.
Qed.

End IsInPnaFacts.

(** ** Which type a file is stored under *)

Lemma sources_set_Forall (P : string * file_info -> Prop) (file_name : string)
    (info : file_info) (srcs : sources) :
  P (file_name, info) -> Forall P srcs -> Forall P (sources_set file_name info srcs).
Proof.
  intros Hnew Hall. induction Hall as [|[k old] srcs Hk Hall IH]; simpl.
  - by constructor.
  - destruct (String.eqb file_name k); by constructor.
Qed.

Section LoaderClaims.

Variable lower : string -> string.
Variable str_of_container : pyval -> string.

#[local] Abbreviation process := (process_uploaded_file lower str_of_container).
#[local] Abbreviation load := (load_uploaded_files lower str_of_container).
#[local] Abbreviation stored_as f data t s :=
  (sources_set (name f) {| data := data; type := t |} (all_data_sources s)).

Lemma forced_type_invariant (pna_type : string) (files : list uploaded_file) (s : session) :
  pna_type ∈ forced_choices ->
  Forall (fun entry : string * file_info => type entry.2 = pna_type) (all_data_sources s) ->
  Forall (fun entry : string * file_info => type entry.2 = pna_type)
    (all_data_sources (fold_left (process pna_type) files s)).
Proof.
  intros Hin. revert s. induction files as [|f files IH]; intros s Hs; [done|].
  simpl. apply IH. rewrite process_forced by done.
  destruct (accepted lower f) as [data|]; [|done].
  by apply sources_set_Forall.
Qed.

(** C6. With a type chosen in the select box, a file is stored under
    that type as soon as it is a JSON document that passes line 192, and
    otherwise not stored: neither the rules on the file name nor the rules
    on the content have a say. Every dataset of the session has the chosen
    type. *)
Theorem forced_type_is_assigned (pna_type : string) (files : list uploaded_file)
    (s : session) (f : uploaded_file) :
  pna_type ∈ forced_choices ->
  all_data_sources (process pna_type s f) =
    match accepted lower f with
    | Some data => stored_as f data pna_type s
    | None => all_data_sources s
    end /\
  Forall (fun entry : string * file_info => type entry.2 = pna_type)
    (all_data_sources (load pna_type files)).
Proof.
  intros Hin. split; [by apply process_forced|].
  apply forced_type_invariant; [done | constructor].
Qed.

(** C7. In automatic mode a file whose name matches a rule is stored
    under the type of that rule whatever its features hold; the rules on
    the content decide only when no rule on the name matched, and they read
    the first ten features at most. *)
Theorem filename_rules_before_content_rules (s : session) (f : uploaded_file)
    (data : pyval) :
  accepted lower f = Some data ->
  let t := filename_type lower (name f) in
  (t <> not_detected ->
   all_data_sources (process automatic s f) = stored_as f data t s) /\
  (t = not_detected ->
   all_data_sources (process automatic s f) =
     match content_type lower str_of_container data with
     | Ok t' => stored_as f data (if String.eqb t' not_detected then unknown_type else t') s
     | Raise _ => all_data_sources s
     end) /\
  (forall fs, py_getitem data "features" = Ok (PyList fs) ->
              content_type lower str_of_container data =
                scan_content lower str_of_container (take 10 fs)).
Proof.
  intros Hacc. cbv zeta. rewrite process_automatic, Hacc. cbv zeta. split_and!.
  - intros Ht. by apply String.eqb_neq in Ht as ->.
  - intros ->. by rewrite String.eqb_refl.
  - apply content_type_first_ten.
Qed.

(** C3, on the code as it is. In automatic mode every file whose
    lowered name holds "griseche", and none of the keywords of the two
    rules before, is stored as "Pie-grièche grise": "grise" is the start of
    "griseche", so the rule of line 177 always fires, and the rules of
    lines 179 and 181 for "merid" and "rousse" are never reached. *)
Theorem griseche_is_always_grise (s : session) (f : uploaded_file) (data : pyval) :
  accepted lower f = Some data ->
  is_substring "griseche" (lower (name f)) = true ->
  is_substring "chiroptere" (lower (name f)) || is_substring "chauve" (lower (name f))
    || is_substring "odonat" (lower (name f)) || is_substring "libellule" (lower (name f))
    = false ->
  all_data_sources (process automatic s f) = stored_as f data "Pie-grièche grise" s.
Proof.
  intros Hacc Hg Hno. rewrite process_automatic, Hacc. cbv zeta.
  assert (filename_type lower (name f) = "Pie-grièche grise") as ->; [|done].
  unfold filename_type. cbv zeta.
  apply orb_false_iff in Hno as [Hno Hl]. apply orb_false_iff in Hno as [Hno Ho].
  rewrite Hno, Ho, Hl, Hg. by rewrite (griseche_holds_grise _ Hg).
Qed.

Lemma list_holds_key (k : string) (items : list pyval) :
  PyStr k ∈ items -> py_contains k (PyList items) = Ok true.
Proof.
  intros Hin. unfold py_contains. f_equal. apply existsb_exists.
  exists (PyStr k). split; [by apply list_elem_of_In | apply String.eqb_refl].
Qed.

(** C9, on the code as it is. A document that is a JSON array holding
    the strings "type" and "features" has neither key, yet line 192 is true
    of it (membership in a list). With a forced type the file is stored at
    line 229; only then does [len(data['features'])] raise at line 236.
    The error is shown and the file stays in [all_data_sources]. *)
Theorem array_document_is_stored (pna_type : string) (s : session) (f : uploaded_file)
    (items : list pyval) :
  pna_type ∈ forced_choices ->
  file_extension lower (name f) ∈ ["geojson"; "json"] ->
  parsed f = Ok (PyList items) ->
  PyStr "type" ∈ items ->
  PyStr "features" ∈ items ->
  process pna_type s f =
    show (LoadError (name f) TypeError)
      (store (name f) {| data := PyList items; type := pna_type |} s).
Proof.
  intros Hin Hext Hp Ht Hf.
  assert (String.eqb pna_type automatic = false /\
          String.eqb pna_type not_detected = false) as [Ha Hn].
  { unfold forced_choices in Hin.
    repeat (apply elem_of_cons in Hin as [->|Hin]; [by split|]).
    by apply elem_of_nil in Hin. }
  unfold process_uploaded_file, load_one, is_geojson.
  rewrite bool_decide_eq_true_2 by done.
  rewrite Hp, Ha, (list_holds_key _ _ Ht). cbn [mbind result_bind].
  rewrite (list_holds_key _ _ Hf). cbn [andb]. by rewrite Hn.
Qed.

End LoaderClaims.

(** * Examples *)

(** C3: the file named for the southern grey shrike is stored as a grey
    shrike. *)
Lemma griseche_is_always_grise_witness :
  accepted ascii_lower merid_file = Some (feature_collection [feature_of square (PyDict [])]) /\
  is_substring "merid" (ascii_lower (name merid_file)) = true /\
  all_data_sources
    (process_uploaded_file ascii_lower no_container_text automatic empty_session merid_file) =
  [ ("pie_griseche_merid.geojson",
     {| data := feature_collection [feature_of square (PyDict [])];
        type := "Pie-grièche grise" |}) ].
Proof.
  split; [reflexivity|]. split; [reflexivity|].
  apply (griseche_is_always_grise ascii_lower no_container_text empty_session merid_file
           (feature_collection [feature_of square (PyDict [])]));
    reflexivity.
Defined.

(** The same slip hides the rule for the woodchat shrike. *)
Example griseche_rousse_is_grise :
  filename_type ascii_lower "griseche_tete_rousse.geojson" = "Pie-grièche grise".
Proof. reflexivity. Qed.

Lemma forced_type_is_assigned_witness :
  "Odonates" ∈ forced_choices /\
  all_data_sources
    (process_uploaded_file ascii_lower no_container_text "Odonates" empty_session
       chiroptere_file) =
  [ ("chiroptere_zones.geojson",
     {| data := feature_collection
                  [feature_of square (PyDict [("n_espece", PyStr "Libellule")])];
        type := "Odonates" |}) ] /\
  Forall (fun entry : string * file_info => type entry.2 = "Odonates")
    (all_data_sources
       (load_uploaded_files ascii_lower no_container_text "Odonates"
          [chiroptere_file; merid_file])).
Proof.
  assert ("Odonates" ∈ forced_choices) as H
    by apply list_elem_of_further, list_elem_of_here.
  split; [exact H|].
  exact (forced_type_is_assigned ascii_lower no_container_text "Odonates"
           [chiroptere_file; merid_file] empty_session chiroptere_file H).
Defined.

(** C7: the name says bats, the content says dragonflies, the name wins. *)
Lemma filename_rules_before_content_rules_witness :
  accepted ascii_lower chiroptere_file =
    Some (feature_collection [feature_of square (PyDict [("n_espece", PyStr "Libellule")])]) /\
  content_type ascii_lower no_container_text
    (feature_collection [feature_of square (PyDict [("n_espece", PyStr "Libellule")])]) =
    Ok "Odonates" /\
  all_data_sources
    (process_uploaded_file ascii_lower no_container_text automatic empty_session
       chiroptere_file) =
  [ ("chiroptere_zones.geojson",
     {| data := feature_collection
                  [feature_of square (PyDict [("n_espece", PyStr "Libellule")])];
        type := "Chiroptères" |}) ].
Proof.
  split; [reflexivity|]. split; [reflexivity|].
  destruct (filename_rules_before_content_rules ascii_lower no_container_text
              empty_session chiroptere_file _ eq_refl) as [Hname _].
  apply Hname. discriminate.
Defined.

(** With a name that matches a rule, features the content rules would
    choke on are not looked at; without one they end the loading of the
    file. *)
Example content_is_not_inspected :
  let broken := feature_collection [PyInt 5] in
  all_data_sources
    (load_uploaded_files ascii_lower no_container_text automatic
       [ {| name := "chauve.json"; parsed := Ok broken |};
         {| name := "zones.json"; parsed := Ok broken |} ]) =
  [ ("chauve.json", {| data := broken; type := "Chiroptères" |}) ].
Proof. reflexivity. Qed.

Lemma array_document_is_stored_witness :
  "Chiroptères" ∈ forced_choices /\
  load_uploaded_files ascii_lower no_container_text "Chiroptères" [array_file] =
  {| all_data_sources :=
       [ ("zones.json",
          {| data := PyList [PyStr "type"; PyStr "features"]; type := "Chiroptères" |}) ];
     file_types := [("zones.json", "geojson")];
     shown := [LoadError "zones.json" TypeError] |}.
Proof.
  assert ("Chiroptères" ∈ forced_choices) as H by apply list_elem_of_here.
  split; [exact H|].
  apply (array_document_is_stored ascii_lower no_container_text "Chiroptères"
           empty_session array_file [PyStr "type"; PyStr "features"] H).
  - apply list_elem_of_further, list_elem_of_here.
  - reflexivity.
  - apply list_elem_of_here.
  - apply list_elem_of_further, list_elem_of_here.
Defined.

(** Every later query on that session ends in the [except] of line 126. *)
Example array_document_breaks_queries :
  let s := load_uploaded_files ascii_lower no_container_text "Chiroptères"
             [ {| name := "bats.json";
                  parsed := Ok (feature_collection [feature_of square (PyDict [])]) |};
               array_file ] in
  (grid_is_in_pna 0 0 50 50 (all_data_sources s)).(reported) = [CheckError TypeError] /\
  (grid_is_in_pna 0 0 50 50 (all_data_sources s)).(returned) = (false, None).
Proof. split; reflexivity. Qed.

(** An object without one of the keys and a text that is not JSON are
    reported and left out, and the file after them is loaded. *)
Example invalid_files_are_left_out :
  load_uploaded_files ascii_lower no_container_text automatic
    [ {| name := "a.json"; parsed := Ok (PyDict [("type", PyStr "FeatureCollection")]) |};
      {| name := "b.json"; parsed := Raise JSONDecodeError |};
      chiroptere_file ] =
  {| all_data_sources :=
       [ ("chiroptere_zones.geojson",
          {| data := feature_collection
                       [feature_of square (PyDict [("n_espece", PyStr "Libellule")])];
             type := "Chiroptères" |}) ];
     file_types := [("chiroptere_zones.geojson", "geojson")];
     shown := [ InvalidGeoJSON "a.json"; LoadError "b.json" JSONDecodeError;
                Loaded "chiroptere_zones.geojson" "Chiroptères" 1 ] |}.
Proof. reflexivity. Qed.

(** The query of the examples: the point (50, 50), in the middle of
    [square]. The first file has two features around it, one without a
    geometry and one far away; the second file has one around it. *)
Example three_zones_at_once :
  let out := grid_is_in_pna 0 0 50 50 bats_and_dragonflies in
  returned out = (true, Some [(0, 0); (0, 2); (1, 0)]) /\
  emitted out =
    (true,
     Some [ Some (PyDict [ ("t_enjeux", PyStr "Fort"); ("enjeu_détaillé", PyStr "Fort");
                           ("type_pna", PyStr "Chiroptères");
                           ("fichier_source", PyStr "chauve.json") ]);
            Some (PyDict [ ("id", PyInt 2); ("enjeu_détaillé", PyStr "Indéterminé");
                           ("type_pna", PyStr "Chiroptères");
                           ("fichier_source", PyStr "chauve.json") ]);
            Some (PyDict [ ("id", PyInt 7); ("type_pna", PyStr "Odonates");
                           ("fichier_source", PyStr "odo.json") ]) ]).
Proof. split; reflexivity. Qed.

Lemma bats_and_dragonflies_readable : readable bats_and_dragonflies.
Proof. repeat constructor; by eexists. Defined.

(** The point (101, 50) lies one unit east of [square]: the two squares
    do not contain it and meet the buffer of 1 around it, the rectangle
    from (40, 40) to (200, 200) contains it. *)
Lemma is_in_pna_collects_every_match_witness :
  readable bats_and_dragonflies /\
  let out := grid_is_in_pna 0 0 101 50 bats_and_dragonflies in
  (returned out =
     (if decide (result_refs out = []) then (false, None)
      else (true, Some (result_refs out))) /\
   StronglySorted ref_lt (result_refs out) /\
   forall i j,
     (i, j) ∈ result_refs out <->
     exists file_name info fs f geometry pna_shape,
       bats_and_dragonflies !! i = Some (file_name, info) /\ features_of info = Ok fs /\
       fs !! j = Some f /\
       py_getitem f "geometry" = Ok geometry /\
       grid_shape geometry = Ok pna_shape /\
       (grid_contains pna_shape (grid_Point 101 50) = Ok true \/
        (grid_contains pna_shape (grid_Point 101 50) = Ok false /\
         grid_intersects pna_shape (grid_buffer (grid_Point 101 50) 1) = Ok true)) /\
       has_properties_dict f) /\
  (0, 0) ∈ result_refs out /\ (0, 2) ∈ result_refs out /\ (1, 0) ∈ result_refs out /\
  (0, 3) ∉ result_refs out.
Proof.
  split; [exact bats_and_dragonflies_readable|]. cbv zeta.
  pose proof (is_in_pna_collects_every_match Z box grid_Point grid_buffer grid_shape
                grid_contains grid_intersects 0%Z 0%Z 101%Z 50%Z bats_and_dragonflies
                bats_and_dragonflies_readable) as H.
  cbv zeta in H. split; [exact H|].
  destruct H as (_ & _ & H). split_and!.
  - apply H. do 4 eexists. exists square. eexists.
    split_and!; [reflexivity..| |by eexists]. right. by split.
  - apply H. do 4 eexists. exists (rectangle 40 40 200 200). eexists.
    split_and!; [reflexivity..| |by eexists]. by left.
  - apply H. do 4 eexists. exists square. eexists.
    split_and!; [reflexivity..| |by eexists]. right. by split.
  - intros (n & info & fs & f & g & s & Hi & Hfs & Hf & Hg & Hs & Hm & _)%H.
    injection Hi as <- <-. injection Hfs as <-. injection Hf as <-.
    injection Hg as <-. injection Hs as <-.
    by destruct Hm as [Hm|[_ Hm]].
Defined.

(** C1 as stated fails: the geometry of the feature contains the point,
    and the feature gives no result, because its [properties] is [None] and
    the write of line 115 raises inside the [try]. *)
Lemma null_properties_feature_is_dropped :
  feature_at no_properties (0, 0) = Some (feature_of square PyNone) /\
  geometry_matches grid_buffer grid_shape grid_contains grid_intersects
    (grid_Point 50 50) (feature_of square PyNone) /\
  returned (grid_is_in_pna 0 0 50 50 no_properties) = (false, None).
Proof.
  split; [reflexivity|]. split; [|reflexivity].
  exists square. eexists. split; [reflexivity|]. split; reflexivity.
Qed.

Lemma no_match_returns_none_witness :
  (forall file_name info fs f,
     (file_name, info) ∈ far_away -> features_of info = Ok fs -> f ∈ fs ->
     ~ (geometry_matches grid_buffer grid_shape grid_contains grid_intersects
          (grid_Point 0 0) f /\ has_properties_dict f)) /\
  returned (grid_is_in_pna 0 0 0 0 far_away) = (false, None).
Proof.
  assert (forall file_name info fs f,
     (file_name, info) ∈ far_away -> features_of info = Ok fs -> f ∈ fs ->
     ~ (geometry_matches grid_buffer grid_shape grid_contains grid_intersects
          (grid_Point 0 0) f /\ has_properties_dict f)) as H.
  { intros file_name info fs f Hin Hfs Hf [(g & s & Hg & Hs & Hm) _].
    apply list_elem_of_singleton in Hin. injection Hin as -> ->.
    vm_compute in Hfs. injection Hfs as <-.
    apply list_elem_of_singleton in Hf as ->.
    vm_compute in Hg. injection Hg as <-.
    vm_compute in Hs. injection Hs as <-.
    vm_compute in Hm. discriminate Hm. }
  split; [exact H|].
  exact (no_match_returns_none Z box grid_Point grid_buffer grid_shape grid_contains
           grid_intersects 0%Z 0%Z 0%Z 0%Z far_away H).
Defined.

(** C2 as stated fails: with no match the second component is [None],
    which is not the empty list. *)
Lemma no_match_is_none_not_empty :
  returned (grid_is_in_pna 0 0 0 0 far_away) = (false, None) /\
  returned (grid_is_in_pna 0 0 0 0 far_away) <> (false, Some []).
Proof. split; [reflexivity | discriminate]. Qed.

Lemma is_in_pna_stamps_in_place_witness :
  readable bats_and_dragonflies /\
  feature_at bats_and_dragonflies (0, 2) =
    Some (feature_of (rectangle 40 40 200 200) (PyDict [("id", PyInt 2)])) /\
  let f := feature_of (rectangle 40 40 200 200) (PyDict [("id", PyInt 2)]) in
  let out := grid_is_in_pna 0 0 50 50 bats_and_dragonflies in
  exists f',
    feature_at (store_after out) (0, 2) = Some f' /\
    (forall k, k <> "properties" -> py_getitem f' k = py_getitem f k) /\
    ((0, 2) ∉ result_refs out -> f' = f) /\
    ((0, 2) ∈ result_refs out ->
     exists file_name info d,
       bats_and_dragonflies !! 0 = Some (file_name, info) /\
       py_getitem f "properties" = Ok (PyDict d) /\
       properties_at (store_after out) (0, 2) =
         Some (PyDict (stamped file_name (type info) d))).
Proof.
  split; [exact bats_and_dragonflies_readable|]. split; [reflexivity|].
  exact (is_in_pna_stamps_in_place Z box grid_Point grid_buffer grid_shape grid_contains
           grid_intersects 0%Z 0%Z 50%Z 50%Z bats_and_dragonflies (0, 2) _
           bats_and_dragonflies_readable eq_refl).
Defined.

(** C4 as stated fails: the call changes the stored [properties] of a
    feature it returns, and the store with it. *)
Lemma matched_properties_are_overwritten :
  let out := grid_is_in_pna 0 0 50 50 bats_and_dragonflies in
  (0, 0) ∈ result_refs out /\
  properties_at bats_and_dragonflies (0, 0) = Some (PyDict [("t_enjeux", PyStr "Fort")]) /\
  properties_at (store_after out) (0, 0) =
    Some (PyDict [ ("t_enjeux", PyStr "Fort"); ("enjeu_détaillé", PyStr "Fort");
                   ("type_pna", PyStr "Chiroptères");
                   ("fichier_source", PyStr "chauve.json") ]) /\
  store_after out <> bats_and_dragonflies.
Proof.
  cbv zeta. split; [apply list_elem_of_here|].
  split; [reflexivity|]. split; [reflexivity | discriminate].
Qed.

(** The second feature of the bats has no geometry. It is skipped; the
    feature after it in the file, which contains the point, and the
    dragonflies of the other file, are returned. *)
Lemma unreadable_feature_is_skipped_witness :
  unreadable_geometry grid_shape (feature_of PyNone (PyDict [("id", PyInt 1)])) /\
  readable bats_and_dragonflies /\
  let without_it :=
    [ ("chauve.json",
       {| data := feature_collection
                    [ feature_of square (PyDict [("t_enjeux", PyStr "Fort")]);
                      feature_of (rectangle 40 40 200 200) (PyDict [("id", PyInt 2)]);
                      feature_of (rectangle 400 400 500 500) (PyDict [("id", PyInt 3)]) ];
          type := "Chiroptères" |});
      dragonflies ] in
  let out := grid_is_in_pna 0 0 50 50 bats_and_dragonflies in
  ((0, 1) ∉ result_refs out) /\
  reported out = [] /\
  (0, 0) ∈ result_refs out /\ (0, 2) ∈ result_refs out /\ (1, 0) ∈ result_refs out /\
  emitted out = emitted (grid_is_in_pna 0 0 50 50 without_it) /\
  reported out = reported (grid_is_in_pna 0 0 50 50 without_it).
Proof.
  assert (unreadable_geometry grid_shape (feature_of PyNone (PyDict [("id", PyInt 1)])))
    as H by (by eexists).
  split; [exact H|]. split; [exact bats_and_dragonflies_readable|]. cbv zeta.
  pose proof (unreadable_feature_is_skipped Z box grid_Point grid_buffer grid_shape
           grid_contains grid_intersects 0%Z 0%Z 50%Z 50%Z [] [dragonflies] "chauve.json"
           {| data := feature_collection bat_features; type := "Chiroptères" |}
           {| data := feature_collection
                        [ feature_of square (PyDict [("t_enjeux", PyStr "Fort")]);
                          feature_of (rectangle 40 40 200 200) (PyDict [("id", PyInt 2)]);
                          feature_of (rectangle 400 400 500 500) (PyDict [("id", PyInt 3)]) ];
              type := "Chiroptères" |}
           [feature_of square (PyDict [("t_enjeux", PyStr "Fort")])]
           [ feature_of (rectangle 40 40 200 200) (PyDict [("id", PyInt 2)]);
             feature_of (rectangle 400 400 500 500) (PyDict [("id", PyInt 3)]) ]
           (feature_of PyNone (PyDict [("id", PyInt 1)]))
           H eq_refl eq_refl eq_refl) as Hskip.
  cbv zeta in Hskip. destruct Hskip as (Hbad & Hrest & He & Hr).
  destruct (Hrest bats_and_dragonflies_readable) as [Hrep Hall].
  split; [exact Hbad|]. split; [exact Hrep|]. split_and!; [| | |exact He|exact Hr].
  - refine (proj1 (Hall 0 0 _ _ _ _ square _ eq_refl eq_refl eq_refl eq_refl eq_refl _ _));
      [by left | by eexists].
  - refine (proj1 (Hall 0 2 _ _ _ _ (rectangle 40 40 200 200) _
                     eq_refl eq_refl eq_refl eq_refl eq_refl _ _));
      [by left | by eexists].
  - refine (proj1 (Hall 1 0 _ _ _ _ square _ eq_refl eq_refl eq_refl eq_refl eq_refl _ _));
      [by left | by eexists].
Defined.

Lemma results_carry_type_source_and_stake_witness :
  let out := grid_is_in_pna 0 0 50 50 bats_and_dragonflies in
  returned out = (true, Some [(0, 0); (0, 2); (1, 0)]) /\
  (0, 2) ∈ [(0, 0); (0, 2); (1, 0)] /\
  exists d0 d,
    properties_at bats_and_dragonflies (0, 2) = Some (PyDict d0) /\
    properties_at (store_after out) (0, 2) = Some (PyDict d) /\
    dict_get "type_pna" d = Some (PyStr "Chiroptères") /\
    dict_get "fichier_source" d = Some (PyStr "chauve.json") /\
    ("Chiroptères" = "Chiroptères" ->
     dict_get "enjeu_détaillé" d =
       Some (default (PyStr "Indéterminé") (dict_get "t_enjeux" d0))).
Proof.
  cbv zeta.
  assert ((0, 2) ∈ [(0, 0); (0, 2); (1, 0)]) as H
    by apply list_elem_of_further, list_elem_of_here.
  split; [reflexivity|]. split; [exact H|].
  exact (results_carry_type_source_and_stake Z box grid_Point grid_buffer grid_shape
           grid_contains grid_intersects 0%Z 0%Z 50%Z 50%Z bats_and_dragonflies
           [(0, 0); (0, 2); (1, 0)] 0 2 "chauve.json"
           {| data := feature_collection bat_features; type := "Chiroptères" |}
           eq_refl H eq_refl).
Defined.

(** * More on the matcher *)

Lemma dict_set_same (k : string) (v : pyval) (d : dict) :
  dict_get k d = Some v -> dict_set k v d = d.
Proof.
  induction d as [|[k' v'] d IH]; simpl; [done|].
  destruct (String.eqb_spec k k') as [->|Hne].
  - by intros [= ->].
  - intros H. by rewrite IH.
Qed.

Lemma dict_set_keys (k : string) (v : pyval) (d : dict) :
  (dict_set k v d).*1 =
    match dict_get k d with Some _ => d.*1 | None => d.*1 ++ [k] end.
Proof.
  induction d as [|[k' v'] d IH]; [done|].
  cbn [dict_set dict_get].
  destruct (String.eqb_spec k k') as [->|Hne]; [done|].
  rewrite fmap_cons, IH. by destruct (dict_get k d).
Qed.

Lemma dict_set_keys_prefix (k : string) (v : pyval) (d : dict) :
  d.*1 `prefix_of` (dict_set k v d).*1.
Proof.
  rewrite dict_set_keys. destruct (dict_get k d); [done|]. by apply prefix_app_r.
Qed.

(** The keys a feature had keep their order in its stamped dict; the new
    ones come after. *)
Lemma stamped_keys_prefix (file_name data_type : string) (d : dict) :
  d.*1 `prefix_of` (stamped file_name data_type d).*1.
Proof.
  unfold stamped.
  etrans; [|apply dict_set_keys_prefix]. etrans; [|apply dict_set_keys_prefix].
  destruct (String.eqb data_type "Chiroptères"); [apply dict_set_keys_prefix | done].
Qed.

(** Stamping twice is stamping once. *)
Lemma stamped_idem (file_name data_type : string) (d : dict) :
  stamped file_name data_type (stamped file_name data_type d) =
  stamped file_name data_type d.
Proof.
  assert (dict_set "fichier_source" (PyStr file_name)
            (dict_set "type_pna" (PyStr data_type) (stamped file_name data_type d)) =
          stamped file_name data_type d) as Hlast.
  { rewrite (dict_set_same "type_pna") by apply stamped_type_pna.
    apply dict_set_same, stamped_fichier_source. }
  unfold stamped at 1.
  destruct (String.eqb_spec data_type "Chiroptères") as [->|Hne]; [|exact Hlast].
  rewrite (stamped_other _ _ "t_enjeux") by done.
  rewrite (dict_set_same "enjeu_détaillé") by apply stamped_enjeu.
  exact Hlast.
Qed.

Section MatcherAgain.

Variable geom : Type.
Variable buffer : geom -> Z -> geom.
Variable shape : pyval -> result geom.
Variable contains : geom -> geom -> result bool.
Variable intersects : geom -> geom -> result bool.
Variable point_l93 : geom.

#[local] Abbreviation visit := (visit_feature buffer shape contains intersects point_l93).
#[local] Abbreviation appended_ := (appended buffer shape contains intersects point_l93).
#[local] Abbreviation visited_ := (visited buffer shape contains intersects point_l93).
#[local] Abbreviation refs_ := (appended_refs buffer shape contains intersects point_l93).
#[local] Abbreviation match_of_ := (match_of buffer shape contains intersects point_l93).
#[local] Abbreviation all_appended_ :=
  (all_appended buffer shape contains intersects point_l93).
#[local] Abbreviation store_left_ := (store_left buffer shape contains intersects point_l93).

(** A feature that was visited is visited again to the same effect. *)
Lemma visit_visit (file_name data_type : string) (f : pyval) :
  visit file_name data_type (visit file_name data_type f).1 =
  ((visit file_name data_type f).1, appended_ file_name data_type f).
Proof.
  rewrite appended_match_of.
  destruct (match_of_ file_name data_type f) as [p|] eqn:Hm.
  - assert (match_of_ file_name data_type (visit file_name data_type f).1 = Some p) as Hm'.
    { pose proof (visit_properties _ _ _ _ _ _ _ _ _ _ Hm) as Hp.
      apply match_of_Some, try_feature_Some in Hm as ((g & s & Hg & Hs & Ht) & d & Hd & ->).
      apply match_of_Some, try_feature_Some. split.
      - exists g, s. by rewrite visit_other_keys.
      - eexists. split; [exact Hp|]. by rewrite stamped_idem. }
    unfold visit_feature at 1. unfold match_of in Hm'.
    destruct (try_feature _ _ _ _ _ _ _ (visit file_name data_type f).1)
      as [[q|]|]; try done.
    injection Hm' as ->. rewrite bool_decide_eq_true_2 by (by eexists). f_equal.
    rewrite visit_fst, Hm.
    apply match_of_Some, try_feature_Some in Hm as (_ & d & Hd & _).
    destruct f as [| | | | | |fd]; try done. simpl.
    f_equal. apply dict_set_same, dict_get_set_eq.
  - rewrite bool_decide_eq_false_2 by (by intros [? ?]).
    rewrite visit_fst, Hm. unfold visit_feature. unfold match_of in Hm.
    by destruct (try_feature _ _ _ _ _ _ _ f) as [[q|]|].
Qed.

Lemma visited_visited (file_name data_type : string) (fs : list pyval) :
  visited_ file_name data_type (visited_ file_name data_type fs) =
  visited_ file_name data_type fs.
Proof.
  unfold visited. rewrite <- list_fmap_compose. apply list_fmap_ext.
  intros _ f _. simpl. by rewrite visit_visit.
Qed.

Lemma appended_refs_visited (file_name data_type : string) (i j : nat) (fs : list pyval) :
  refs_ file_name data_type i j (visited_ file_name data_type fs) =
  refs_ file_name data_type i j fs.
Proof.
  revert j. induction fs as [|f fs IH]; intros j; [done|].
  cbn [visited fmap list_fmap appended_refs]. fold (visited_ file_name data_type fs).
  rewrite IH. unfold appended at 1. by rewrite visit_visit.
Qed.

Lemma visited_strings (file_name data_type : string) (fs : list pyval) :
  Forall (fun f => exists s, f = PyStr s) fs -> visited_ file_name data_type fs = fs.
Proof.
  intros H. unfold visited. induction H as [|f fs [s ->] _ IH]; [done|].
  cbn [fmap list_fmap]. by rewrite IH.
Qed.

(** The file as the loop leaves it has the visited features for its
    items. *)
Lemma features_of_visited (file_name : string) (info : file_info) (fs : list pyval) :
  features_of info = Ok fs ->
  features_of {| data := with_features (data info) (visited_ file_name (type info) fs);
                 type := type info |} =
    Ok (visited_ file_name (type info) fs).
Proof.
  intros Hfs. destruct (features_of_cases _ _ Hfs) as [Hl | [Hl Hstr]].
  - apply feature_list_features_of. simpl. by eapply feature_list_with_features.
  - rewrite (with_features_not_list _ _ Hl), (visited_strings _ _ _ Hstr).
    by destruct info.
Qed.

Lemma with_features_twice (data0 : pyval) (fs : list pyval) :
  with_features (with_features data0 fs) fs = with_features data0 fs.
Proof.
  unfold with_features.
  destruct data0 as [| | | | | |d]; try done.
  destruct (dict_get "features" d) as [v|] eqn:Ed; [|by rewrite Ed].
  destruct v; try (by rewrite Ed).
  rewrite dict_get_set_eq. f_equal. apply dict_set_same, dict_get_set_eq.
Qed.

Lemma store_left_twice (srcs : sources) :
  store_left_ (store_left_ srcs) = store_left_ srcs.
Proof.
  induction srcs as [|[file_name info] srcs IH]; [done|].
  cbn [store_left]. destruct (features_of info) as [fs|e] eqn:Hfs.
  - cbn [store_left]. rewrite (features_of_visited _ _ _ Hfs). simpl.
    by rewrite visited_visited, with_features_twice, IH.
  - cbn [store_left]. by rewrite Hfs.
Qed.

Lemma all_appended_store_left (i : nat) (srcs : sources) :
  all_appended_ i (store_left_ srcs) = all_appended_ i srcs.
Proof.
  revert i. induction srcs as [|[file_name info] srcs IH]; intros i; [done|].
  cbn [store_left]. destruct (features_of info) as [fs|e] eqn:Hfs.
  - cbn [all_appended]. rewrite (features_of_visited _ _ _ Hfs), Hfs. simpl.
    by rewrite appended_refs_visited, IH.
  - done.
Qed.

End MatcherAgain.

Lemma omap_fmap_Some {A B : Type} (f : A -> option B) (l : list A) (ms : list B) :
  f <$> l = Some <$> ms -> omap f l = ms.
Proof.
  revert ms. induction l as [|a l IH]; intros [|m ms] H; try done.
  rewrite !fmap_cons in H. injection H as Ha Hl.
  cbn [omap list_omap]. rewrite Ha. simpl. f_equal. by apply IH.
Qed.

Lemma readable_app (l1 l2 : sources) : readable (l1 ++ l2) <-> readable l1 /\ readable l2.
Proof. apply Forall_app. Qed.

Section IsInPnaAgain.

Variable coord : Type.
Variable geom : Type.
Variable Point : coord -> coord -> geom.
Variable buffer : geom -> Z -> geom.
Variable shape : pyval -> result geom.
Variable contains : geom -> geom -> result bool.
Variable intersects : geom -> geom -> result bool.

#[local] Abbreviation query := (is_in_pna Point buffer shape contains intersects).
#[local] Abbreviation all_appended_ := (all_appended buffer shape contains intersects).
#[local] Abbreviation store_left_ := (store_left buffer shape contains intersects).
#[local] Abbreviation all_matches_ := (all_matches buffer shape contains intersects).

Lemma store_left_app (point : geom) (l1 l2 : sources) :
  readable l1 ->
  store_left_ point (l1 ++ l2) = store_left_ point l1 ++ store_left_ point l2.
Proof.
  unfold readable. intros H. induction H as [|[file_name info] l1 [fs Hfs] _ IH]; [done|].
  simpl in Hfs. simpl. by rewrite Hfs, IH.
Qed.

Lemma all_appended_raise (point : geom) (i : nat) (pre post : sources)
    (file_name : string) (info : file_info) (e : exn) :
  readable pre ->
  features_of info = Raise e ->
  all_appended_ point i (pre ++ (file_name, info) :: post) = Raise e.
Proof.
  unfold readable. intros H He. revert i.
  induction H as [|[n0 info0] pre [fs Hfs] _ IH]; intros i; simpl.
  - by rewrite He.
  - simpl in Hfs. by rewrite Hfs, IH.
Qed.

Lemma all_matches_readable (point : geom) (srcs : sources) :
  readable srcs -> is_Ok (all_matches_ point srcs).
Proof.
  intros H.
  apply (all_appended_readable _ buffer shape contains intersects point 0) in H as [rs Hrs].
  pose proof (all_appended_contents _ buffer shape contains intersects point [] 0 srcs eq_refl)
    as Hc.
  rewrite Hrs in Hc. destruct Hc as (ms & Hms & _). by exists ms.
Qed.

Lemma result_dicts_eq (lat lon x_l93 y_l93 : coord) (ads : sources) :
  result_dicts (query lat lon x_l93 y_l93 ads) =
  match all_matches_ (Point x_l93 y_l93) ads with
  | Ok ms => ms
  | Raise _ => []
  end.
Proof.
  unfold result_dicts. rewrite store_after_eq, result_refs_eq.
  pose proof (all_appended_contents _ buffer shape contains intersects
                (Point x_l93 y_l93) [] 0 ads eq_refl) as H.
  destruct (all_appended_ (Point x_l93 y_l93) 0 ads) as [rs|e].
  - destruct H as (ms & -> & Hms). by apply omap_fmap_Some.
  - by rewrite H.
Qed.

(** X1. The same query a second time, on the datasets as the first left them,
    gives the same references, leaves the store as it is and shows the
    same: the stamps are written once and for all. *)
Theorem is_in_pna_twice (lat lon x_l93 y_l93 : coord) (ads : sources) :
  let first := is_in_pna Point buffer shape contains intersects lat lon x_l93 y_l93 ads in
  is_in_pna Point buffer shape contains intersects lat lon x_l93 y_l93 (store_after first) =
  first.
Proof.
  cbv zeta. rewrite store_after_eq, !is_in_pna_eq.
  by rewrite store_left_twice, all_appended_store_left.
Qed.

(** X2. A file whose [features] cannot be run through ends the call where it
    stands: the error is shown, [False] and [None] are returned whatever
    matched in the files before, which keep the stamps written to them;
    the file and those after it are not touched. *)
Theorem unreadable_file_ends_the_query (lat lon x_l93 y_l93 : coord) (pre post : sources)
    (file_name : string) (info : file_info) (e : exn) :
  readable pre ->
  features_of info = Raise e ->
  let out := query lat lon x_l93 y_l93 (pre ++ (file_name, info) :: post) in
  returned out = (false, None) /\
  reported out = [CheckError e] /\
  store_after out =
    store_after (query lat lon x_l93 y_l93 pre) ++ (file_name, info) :: post.
Proof.
  intros Hpre He. cbv zeta. rewrite !store_after_eq, is_in_pna_eq.
  rewrite (all_appended_raise _ _ _ _ _ _ _ Hpre He). split_and!; [done..|].
  rewrite (store_left_app _ _ _ Hpre). f_equal. simpl. by rewrite He.
Qed.

(** X3. Files do not bear on one another: on datasets that can all be run
    through, a query returns the dicts of a query on the first files
    followed by those of a query on the rest, and leaves each part of the
    store as the query on that part does. *)
Theorem is_in_pna_file_by_file (lat lon x_l93 y_l93 : coord) (ads1 ads2 : sources) :
  readable (ads1 ++ ads2) ->
  let whole := query lat lon x_l93 y_l93 (ads1 ++ ads2) in
  let first := query lat lon x_l93 y_l93 ads1 in
  let rest := query lat lon x_l93 y_l93 ads2 in
  result_dicts whole = result_dicts first ++ result_dicts rest /\
  store_after whole = store_after first ++ store_after rest /\
  length (result_refs whole) = length (result_refs first) + length (result_refs rest).
Proof.
  intros Hread. cbv zeta. pose proof Hread as [H1 H2]%readable_app.
  assert (result_dicts (query lat lon x_l93 y_l93 (ads1 ++ ads2)) =
          result_dicts (query lat lon x_l93 y_l93 ads1) ++
          result_dicts (query lat lon x_l93 y_l93 ads2)) as Hd.
  { rewrite !result_dicts_eq, all_matches_app.
    destruct (all_matches_readable (Point x_l93 y_l93) _ H1) as [m1 ->].
    by destruct (all_matches_readable (Point x_l93 y_l93) _ H2) as [m2 ->]. }
  split_and!; [exact Hd | |].
  - rewrite !store_after_eq. by apply store_left_app.
  - assert (forall ads, readable ads ->
              length (result_refs (query lat lon x_l93 y_l93 ads)) =
              length (result_dicts (query lat lon x_l93 y_l93 ads))) as Hlen.
    { intros ads Hads. rewrite result_dicts_eq, result_refs_eq.
      apply (all_appended_readable _ buffer shape contains intersects
               (Point x_l93 y_l93) 0) in Hads as [rs Hrs].
      pose proof (all_appended_contents _ buffer shape contains intersects
                    (Point x_l93 y_l93) [] 0 ads eq_refl) as Hc.
      rewrite Hrs in Hc |- *. destruct Hc as (ms & -> & Hms).
      apply (f_equal length) in Hms. by rewrite !length_fmap in Hms. }
    by rewrite !Hlen, Hd, length_app.
Qed.

(** X4. A result keeps every attribute of its feature but the three the
    stamp writes, and keeps the feature's keys in their order, before any
    key the stamp adds. *)
Theorem results_keep_the_attributes (lat lon x_l93 y_l93 : coord) (ads : sources)
    (r : ref) :
  let out := query lat lon x_l93 y_l93 ads in
  r ∈ result_refs out ->
  exists d0 d,
    properties_at ads r = Some (PyDict d0) /\
    properties_at (store_after out) r = Some (PyDict d) /\
    d0.*1 `prefix_of` d.*1 /\
    forall k, k <> "enjeu_détaillé" -> k <> "type_pna" -> k <> "fichier_source" ->
              dict_get k d = dict_get k d0.
Proof.
  cbv zeta. rewrite store_after_eq, result_refs_eq. intros Hin.
  destruct (all_appended_ (Point x_l93 y_l93) 0 ads) as [rs|e] eqn:Hrs;
    [|by apply elem_of_nil in Hin].
  destruct (returned_ref_facts _ _ _ _ _ _ _ _ _ Hrs Hin)
    as (n & info & f & d0 & Hi & Hat & _ & Hd & _ & Hp).
  exists d0, (stamped n (type info) d0). split_and!.
  - unfold properties_at. rewrite Hat. simpl. by rewrite Hd.
  - done.
  - apply stamped_keys_prefix.
  - intros k H1 H2 H3. by apply stamped_other.
Qed.

End IsInPnaAgain.

(** * More on the loader *)

Ltac one_of_the_list :=
  repeat first [ apply list_elem_of_here | apply list_elem_of_further ].

Section LoaderAgain.

Variable lower : string -> string.
Variable str_of_container : pyval -> string.

#[local] Abbreviation process := (process_uploaded_file lower str_of_container).
#[local] Abbreviation load := (load_uploaded_files lower str_of_container).
#[local] Abbreviation scan := (scan_content lower str_of_container).

(** *** The types a file can get *)

Lemma filename_type_choices (file_name : string) :
  filename_type lower file_name ∈ not_detected :: forced_choices.
Proof.
  unfold filename_type, forced_choices. cbv zeta.
  repeat (match goal with |- context [if ?b then _ else _] => destruct b end);
    one_of_the_list.
Qed.

Lemma species_type_choices (espece t : string) :
  species_type espece = Some t -> t ∈ forced_choices.
Proof.
  unfold species_type, forced_choices.
  repeat (match goal with |- context [if ?b then _ else _] => destruct b end);
    intros [= <-]; one_of_the_list.
Qed.

(** What the loop of lines 196-218 does with its first feature. *)
Lemma scan_content_cons (f : pyval) (rest : list pyval) :
  scan (f :: rest) =
    (t ← scan [f]; if String.eqb t not_detected then scan rest else Ok t).
Proof.
  cbn [scan_content].
  destruct (py_contains "properties" f) as [[|]|]; try done; cbn [mbind result_bind].
  destruct (py_getitem f "properties") as [props|]; try done; cbn [mbind result_bind].
  destruct (py_contains "n_espece" props) as [[|]|]; try done; cbn [mbind result_bind].
  destruct (py_getitem props "n_espece") as [v|]; try done; cbn [mbind result_bind].
  destruct (species_type (lower (py_str str_of_container v))) as [t|] eqn:Ht; [|done].
  cbn [mbind result_bind].
  apply species_type_choices in Ht. unfold forced_choices in Ht.
  repeat (apply elem_of_cons in Ht as [->|Ht]; [done|]). by apply elem_of_nil in Ht.
Qed.

Lemma scan_content_choices (fs : list pyval) (t : string) :
  scan fs = Ok t -> t ∈ not_detected :: forced_choices.
Proof.
  induction fs as [|f fs IH]; [intros [= <-]; apply list_elem_of_here|].
  cbn [scan_content].
  destruct (py_contains "properties" f) as [[|]|]; try done; cbn [mbind result_bind].
  destruct (py_getitem f "properties") as [props|]; try done; cbn [mbind result_bind].
  destruct (py_contains "n_espece" props) as [[|]|]; try done; cbn [mbind result_bind].
  destruct (py_getitem props "n_espece") as [v|]; try done; cbn [mbind result_bind].
  destruct (species_type (lower (py_str str_of_container v))) as [t'|] eqn:Ht; [|done].
  intros [= <-]. apply list_elem_of_further. by eapply species_type_choices.
Qed.

Lemma content_type_choices (data : pyval) (t : string) :
  content_type lower str_of_container data = Ok t -> t ∈ not_detected :: forced_choices.
Proof.
  unfold content_type.
  destruct (py_getitem data "features") as [v|]; [simpl|done].
  destruct (py_slice_to 10 v) as [w|]; [simpl|done].
  destruct (py_iter w) as [items|]; [simpl|done].
  apply scan_content_choices.
Qed.

(** *** What one turn of the loop of line 162 can do *)

(** Nothing (an extension that is neither), one message and no change to
    the files held, or a file stored and then one message: the count of
    its zones, or the exception the count raised. Which one does not
    depend on the session. *)
Lemma process_shape (pna_type : string) (f : uploaded_file) :
  (accepted lower f = None /\ forall s, process pna_type s f = s) \/
  (exists m, (m = InvalidGeoJSON (name f) \/ exists e, m = LoadError (name f) e) /\
             (m = InvalidGeoJSON (name f) -> accepted lower f = None) /\
             forall s, process pna_type s f = show m s) \/
  (exists data t m,
     accepted lower f = Some data /\
     match zone_count {| data := data; type := t |} with
     | Ok n => m = Loaded (name f) t n
     | Raise e => m = LoadError (name f) e
     end /\
     forall s, process pna_type s f =
                 show m (store (name f) {| data := data; type := t |} s)).
Proof.
  unfold process_uploaded_file, load_one, accepted, zone_count.
  case_bool_decide; [|by left].
  assert (forall e, exists m,
            (m = InvalidGeoJSON (name f) \/ exists e0, m = LoadError (name f) e0) /\
            (m = InvalidGeoJSON (name f) -> @None pyval = None) /\
            forall s, show (LoadError (name f) e) s = show m s) as Herr.
  { intros e. exists (LoadError (name f) e). split_and!; [right; by eexists | done..]. }
  destruct (parsed f) as [data|e]; [|right; left; apply Herr].
  destruct (is_geojson data) as [[|]|e].
  - match goal with
    | |- context [match ?typed with Ok _ => _ | Raise _ => _ end] =>
        destruct typed as [t|e] eqn:Ht
    end.
    + right; right.
      set (t' := if String.eqb t not_detected then unknown_type else t).
      exists data, t'. simpl.
      destruct (py_getitem data "features" ≫= py_len) as [n|e]; eexists; eauto.
    + right; left. exists (LoadError (name f) e).
      split_and!; [right; by eexists | done..].
  - right; left. exists (InvalidGeoJSON (name f)). split_and!; [by left | done..].
  - right; left. apply Herr.
Qed.

(** The files held after a turn depend on the files held before it, not
    on what has been shown. *)
Lemma process_sources_only (pna_type : string) (f : uploaded_file) (s1 s2 : session) :
  all_data_sources s1 = all_data_sources s2 ->
  all_data_sources (process pna_type s1 f) = all_data_sources (process pna_type s2 f).
Proof.
  intros H.
  destruct (process_shape pna_type f)
    as [[_ Hp] | [(m & _ & _ & Hp) | (data & t & m & _ & _ & Hp)]];
    rewrite !Hp; simpl; by rewrite ?H.
Qed.

Lemma fold_sources_only (pna_type : string) (files : list uploaded_file) (s1 s2 : session) :
  all_data_sources s1 = all_data_sources s2 ->
  all_data_sources (fold_left (process pna_type) files s1) =
  all_data_sources (fold_left (process pna_type) files s2).
Proof.
  revert s1 s2. induction files as [|f files IH]; intros s1 s2 H; [done|].
  simpl. by apply IH, process_sources_only.
Qed.

(** *** The keys of the two dicts *)

Lemma sources_set_keys (file_name : string) (info : file_info) (srcs : sources) :
  (sources_set file_name info srcs).*1 =
    if decide (file_name ∈ srcs.*1) then srcs.*1 else srcs.*1 ++ [file_name].
Proof.
  induction srcs as [|[k old] srcs IH]; [done|].
  cbn [sources_set]. destruct (String.eqb_spec file_name k) as [->|Hne].
  - rewrite decide_True; [done | apply list_elem_of_here].
  - rewrite !fmap_cons, IH. simpl.
    destruct (decide (file_name ∈ srcs.*1)) as [Hin|Hnin].
    + rewrite decide_True; [done | by apply list_elem_of_further].
    + rewrite decide_False; [done|]. by intros [?|?]%elem_of_cons.
Qed.

Lemma assoc_set_keys (k v : string) (l : list (string * string)) :
  (assoc_set k v l).*1 = if decide (k ∈ l.*1) then l.*1 else l.*1 ++ [k].
Proof.
  induction l as [|[k' v'] l IH]; [done|].
  cbn [assoc_set]. destruct (String.eqb_spec k k') as [->|Hne].
  - rewrite decide_True; [done | apply list_elem_of_here].
  - rewrite !fmap_cons, IH. simpl.
    destruct (decide (k ∈ l.*1)) as [Hin|Hnin].
    + rewrite decide_True; [done | by apply list_elem_of_further].
    + rewrite decide_False; [done|]. by intros [?|?]%elem_of_cons.
Qed.

Lemma assoc_set_values (k v : string) (l : list (string * string)) :
  Forall (fun e => e.2 = v) l -> Forall (fun e => e.2 = v) (assoc_set k v l).
Proof.
  intros H. induction H as [|[k' v'] l Hv Hl IH]; simpl.
  - by constructor.
  - simpl in Hv. destruct (String.eqb k k'); constructor; done.
Qed.

Lemma NoDup_keys_set (k : string) (keys : list string) :
  NoDup keys -> NoDup (if decide (k ∈ keys) then keys else keys ++ [k]).
Proof.
  intros H. destruct (decide (k ∈ keys)); [done|].
  apply NoDup_app. split_and!; [done | | apply NoDup_singleton].
  intros x Hx ->%list_elem_of_singleton. done.
Qed.

Lemma elem_of_sources_set_same (file_name : string) (info info' : file_info)
    (srcs : sources) :
  NoDup srcs.*1 ->
  (file_name, info') ∈ sources_set file_name info srcs -> info' = info.
Proof.
  induction srcs as [|[k old] srcs IH]; cbn [sources_set].
  - intros _ [= ->]%list_elem_of_singleton. done.
  - rewrite fmap_cons. intros [Hk Hnd]%NoDup_cons.
    destruct (String.eqb_spec file_name k) as [->|Hne].
    + intros [[= ->]|Hin]%elem_of_cons; [done|].
      destruct Hk. simpl. apply list_elem_of_fmap. by exists (k, info').
    + intros [[= ? ?]|Hin]%elem_of_cons; [done | by apply IH].
Qed.

Lemma elem_of_sources_set_other (file_name n : string) (info i : file_info)
    (srcs : sources) :
  n <> file_name ->
  (n, i) ∈ sources_set file_name info srcs <-> (n, i) ∈ srcs.
Proof.
  intros Hne. induction srcs as [|[k old] srcs IH]; cbn [sources_set].
  - split; [intros [= ? ?]%list_elem_of_singleton; done | by intros ?%elem_of_nil].
  - destruct (String.eqb_spec file_name k) as [->|Hk].
    + rewrite !elem_of_cons. split; (intros [[= ? ?]|?]; [done | by right]).
    + rewrite !elem_of_cons, IH. done.
Qed.

Lemma elem_of_sources_set_new (file_name : string) (info : file_info) (srcs : sources) :
  (file_name, info) ∈ sources_set file_name info srcs.
Proof.
  induction srcs as [|[k old] srcs IH]; cbn [sources_set]; [apply list_elem_of_here|].
  destruct (String.eqb file_name k); [apply list_elem_of_here|].
  by apply list_elem_of_further.
Qed.

(** *** What the session holds *)

Lemma stored_type_step (pna_type : string) (s : session) (f : uploaded_file) :
  pna_type ∈ automatic :: forced_choices ->
  Forall (fun entry : string * file_info => type entry.2 ∈ unknown_type :: forced_choices)
    (all_data_sources s) ->
  Forall (fun entry : string * file_info => type entry.2 ∈ unknown_type :: forced_choices)
    (all_data_sources (process pna_type s f)).
Proof.
  intros [->|Hforced]%elem_of_cons Hs.
  - rewrite process_automatic.
    destruct (accepted lower f) as [data|]; [|done]. cbv zeta.
    pose proof (filename_type_choices (name f)) as Hn.
    destruct (String.eqb_spec (filename_type lower (name f)) not_detected) as [_|Hne].
    + destruct (content_type lower str_of_container data) as [t'|] eqn:Hc; [|done].
      apply sources_set_Forall; [|done]. simpl.
      apply content_type_choices in Hc.
      destruct (String.eqb_spec t' not_detected) as [_|Hne']; [apply list_elem_of_here|].
      apply list_elem_of_further. by apply elem_of_cons in Hc as [?|?].
    + apply sources_set_Forall; [|done]. simpl.
      apply list_elem_of_further. by apply elem_of_cons in Hn as [?|?].
  - rewrite process_forced by done.
    destruct (accepted lower f) as [data|]; [|done].
    apply sources_set_Forall; [|done]. by apply list_elem_of_further.
Qed.

(** X5. Whatever the select box holds, every dataset of the session has one of
    the five types or "Type inconnu"; "Type non détecté" and "Détection
    automatique" never reach [all_data_sources]. *)
Theorem stored_types_are_known (pna_type : string) (files : list uploaded_file) :
  pna_type ∈ automatic :: forced_choices ->
  Forall (fun entry : string * file_info => type entry.2 ∈ unknown_type :: forced_choices)
    (all_data_sources (load pna_type files)).
Proof.
  intros Hp. unfold load_uploaded_files.
  assert (Forall (fun entry : string * file_info =>
                    type entry.2 ∈ unknown_type :: forced_choices)
            (all_data_sources empty_session)) as H0 by constructor.
  revert H0. generalize empty_session.
  induction files as [|f files IH]; intros s Hs; [done|].
  simpl. by apply IH, stored_type_step.
Qed.

(** X6. The session never holds two datasets under one name; [file_types] has
    the keys of [all_data_sources], in the same order, each with the value
    "geojson"; and every name held is the name of an uploaded file that
    passed line 192. *)
Theorem session_keys (pna_type : string) (files : list uploaded_file) :
  let s := load pna_type files in
  NoDup (all_data_sources s).*1 /\
  (file_types s).*1 = (all_data_sources s).*1 /\
  Forall (fun e : string * string => e.2 = "geojson") (file_types s) /\
  forall n, n ∈ (all_data_sources s).*1 ->
            exists f, f ∈ files /\ name f = n /\ is_Some (accepted lower f).
Proof.
  cbv zeta. unfold load_uploaded_files.
  assert (forall (done_ : list uploaded_file) s,
    (NoDup (all_data_sources s).*1 /\
     (file_types s).*1 = (all_data_sources s).*1 /\
     Forall (fun e : string * string => e.2 = "geojson") (file_types s) /\
     forall n, n ∈ (all_data_sources s).*1 ->
               exists f, f ∈ done_ /\ name f = n /\ is_Some (accepted lower f)) ->
    let s' := fold_left (process pna_type) files s in
    NoDup (all_data_sources s').*1 /\
    (file_types s').*1 = (all_data_sources s').*1 /\
    Forall (fun e : string * string => e.2 = "geojson") (file_types s') /\
    forall n, n ∈ (all_data_sources s').*1 ->
              exists f, f ∈ done_ ++ files /\ name f = n /\ is_Some (accepted lower f))
    as Hgen.
  { induction files as [|f files IH]; intros done_ s Hs; simpl.
    - by rewrite app_nil_r.
    - replace (done_ ++ f :: files) with ((done_ ++ [f]) ++ files)
        by (by rewrite <- app_assoc).
      apply IH. destruct Hs as (Hnd & Hk & Hv & Hn).
      assert (forall n, n ∈ (all_data_sources s).*1 ->
                exists f0, f0 ∈ done_ ++ [f] /\ name f0 = n /\
                           is_Some (accepted lower f0)) as Hn'.
      { intros n Hin. destruct (Hn n Hin) as (f0 & ? & ? & ?).
        exists f0. split_and!; [|done..]. apply elem_of_app. by left. }
      destruct (process_shape pna_type f)
        as [[_ Hp] | [(m & _ & _ & Hp) | (data & t & m & Hacc & _ & Hp)]];
        rewrite Hp; simpl; [done..|].
      rewrite sources_set_keys, assoc_set_keys, Hk. split_and!.
      + by apply NoDup_keys_set.
      + done.
      + by apply assoc_set_values.
      + intros n Hin.
        destruct (decide (name f ∈ (all_data_sources s).*1)); [by apply Hn'|].
        apply elem_of_app in Hin as [Hin | ->%list_elem_of_singleton]; [by apply Hn'|].
        exists f. split_and!; [|done|by rewrite Hacc].
        apply elem_of_app. right. apply list_elem_of_here. }
  apply (Hgen [] empty_session). split_and!; [constructor | done | constructor |].
  by intros n ?%elem_of_nil.
Qed.

(** X7. With a forced type, a file that passes line 192 is held afterwards
    under its name, in the place of the file held under that name before
    if there was one and after all the others if not; the files under
    other names stay as they were. *)
Theorem later_upload_replaces (pna_type : string) (s : session) (f : uploaded_file)
    (data : pyval) :
  pna_type ∈ forced_choices ->
  accepted lower f = Some data ->
  NoDup (all_data_sources s).*1 ->
  let before := all_data_sources s in
  let after := all_data_sources (process pna_type s f) in
  after.*1 = (if decide (name f ∈ before.*1) then before.*1
              else before.*1 ++ [name f]) /\
  (forall info, (name f, info) ∈ after <-> info = {| data := data; type := pna_type |}) /\
  (forall n info, n <> name f -> (n, info) ∈ after <-> (n, info) ∈ before).
Proof.
  intros Hp Hacc Hnd. cbv zeta. rewrite process_forced, Hacc by done. split_and!.
  - apply sources_set_keys.
  - intros info. split.
    + by apply elem_of_sources_set_same.
    + intros ->. apply elem_of_sources_set_new.
  - intros n info Hne. by apply elem_of_sources_set_other.
Qed.

(** X8. A file that does not pass line 192 (a wrong extension, a text that is
    not JSON, a document without the two keys, a document on which the
    test raises) leaves no trace in [all_data_sources]: the session holds
    what it would hold had the file not been uploaded. *)
Theorem rejected_file_changes_nothing (pna_type : string) (pre post : list uploaded_file)
    (bad : uploaded_file) :
  accepted lower bad = None ->
  all_data_sources (load pna_type (pre ++ bad :: post)) =
  all_data_sources (load pna_type (pre ++ post)).
Proof.
  intros Hbad. unfold load_uploaded_files. rewrite !fold_left_app. simpl.
  apply fold_sources_only. by apply process_not_accepted.
Qed.

(** *** The table of the loaded files *)

Lemma file_summary_Ok (srcs : sources) :
  Forall (fun entry : string * file_info => is_Ok (zone_count entry.2)) srcs ->
  exists rows,
    file_summary srcs = Ok rows /\
    (fun r => (s_fichier r, s_type_pna r)) <$> rows =
      (fun entry : string * file_info => (entry.1, type entry.2)) <$> srcs /\
    Forall2 (fun r (entry : string * file_info) =>
               zone_count entry.2 = Ok (s_nombre_de_zones r)) rows srcs.
Proof.
  intros H. induction H as [|[file_name info] srcs [n Hn] _ (rows & Hrows & Hnames & Hc)].
  - by exists [].
  - simpl in Hn. eexists. cbn [file_summary]. rewrite Hn, Hrows. simpl.
    split_and!; [done | by rewrite fmap_cons, Hnames | by constructor].
Qed.

Lemma file_summary_Raise (srcs : sources) (file_name : string) (info : file_info)
    (e : exn) :
  (file_name, info) ∈ srcs ->
  zone_count info = Raise e ->
  exists e', file_summary srcs = Raise e'.
Proof.
  intros Hin He. induction srcs as [|[n0 info0] srcs IH]; [by apply elem_of_nil in Hin|].
  cbn [file_summary].
  destruct (zone_count info0) as [n|e0] eqn:H0; [|by eexists].
  apply elem_of_cons in Hin as [[= <- <-]|Hin]; [congruence|].
  destruct (IH Hin) as [e' ->]. by eexists.
Qed.

(** Every file held can be counted, or an error was shown under its
    name. *)
Lemma counted_or_reported (pna_type : string) (files : list uploaded_file) (s : session) :
  Forall (fun entry : string * file_info =>
            is_Ok (zone_count entry.2) \/ exists e, LoadError entry.1 e ∈ shown s)
    (all_data_sources s) ->
  let s' := fold_left (process pna_type) files s in
  Forall (fun entry : string * file_info =>
            is_Ok (zone_count entry.2) \/ exists e, LoadError entry.1 e ∈ shown s')
    (all_data_sources s').
Proof.
  revert s. induction files as [|f files IH]; intros s Hs; [done|].
  simpl. apply IH.
  assert (forall m, Forall (fun entry : string * file_info =>
            is_Ok (zone_count entry.2) \/ exists e, LoadError entry.1 e ∈ shown s ++ [m])
            (all_data_sources s)) as Hmono.
  { intros m. eapply Forall_impl; [exact Hs|]. intros entry [?|[e He]]; [by left|].
    right. exists e. apply elem_of_app. by left. }
  destruct (process_shape pna_type f)
    as [[_ Hp] | [(m & _ & _ & Hp) | (data & t & m & Hacc & Hm & Hp)]];
    rewrite Hp; simpl; [done | apply Hmono |].
  apply sources_set_Forall; [|apply Hmono]. simpl.
  destruct (zone_count {| data := data; type := t |}) as [n|e] eqn:Hz.
  - left. by exists n.
  - right. exists e. subst m. apply elem_of_app. right. apply list_elem_of_here.
Qed.

(** X9. When the loading showed no [LoadError], the table of the loaded
    files is built without an exception: one row per dataset, in order,
    with its name, its type and the number of its zones. *)
Theorem summary_after_a_clean_load (pna_type : string) (files : list uploaded_file) :
  let s := load pna_type files in
  (forall file_name e, LoadError file_name e ∉ shown s) ->
  exists rows,
    file_summary (all_data_sources s) = Ok rows /\
    (fun r => (s_fichier r, s_type_pna r)) <$> rows =
      (fun entry : string * file_info => (entry.1, type entry.2)) <$> all_data_sources s /\
    Forall2 (fun r (entry : string * file_info) =>
               zone_count entry.2 = Ok (s_nombre_de_zones r)) rows (all_data_sources s).
Proof.
  cbv zeta. intros Hclean. apply file_summary_Ok.
  pose proof (counted_or_reported pna_type files empty_session ltac:(constructor)) as H.
  eapply Forall_impl; [exact H|]. intros entry [?|[e He]]; [done|].
  by destruct (Hclean entry.1 e).
Qed.

Lemma process_forced_full (pna_type : string) (s : session) (f : uploaded_file)
    (data : pyval) :
  pna_type ∈ forced_choices ->
  accepted lower f = Some data ->
  process pna_type s f =
    let stored := store (name f) {| data := data; type := pna_type |} s in
    match zone_count {| data := data; type := pna_type |} with
    | Ok n => show (Loaded (name f) pna_type n) stored
    | Raise e => show (LoadError (name f) e) stored
    end.
Proof.
  intros Hin.
  assert (String.eqb pna_type automatic = false /\
          String.eqb pna_type not_detected = false) as [Ha Hn].
  { unfold forced_choices in Hin.
    repeat (apply elem_of_cons in Hin as [->|Hin]; [by split|]).
    by apply elem_of_nil in Hin. }
  unfold process_uploaded_file, load_one, accepted, zone_count.
  rewrite Ha. simpl.
  case_bool_decide; [|done].
  destruct (parsed f) as [data'|]; [|done].
  destruct (is_geojson data') as [[|]|]; try done.
  intros [= ->]. rewrite Hn.
  by destruct (py_getitem data "features" ≫= py_len).
Qed.

(** When the count of line 236 raises, the slice of line 196 raises
    before it with the same exception. *)
Lemma content_type_uncounted (doc : pyval) (t : string) (e : exn) :
  zone_count {| data := doc; type := t |} = Raise e ->
  content_type lower str_of_container doc = Raise e.
Proof.
  intros He. change (py_getitem doc "features" ≫= py_len = Raise e) in He.
  unfold content_type.
  destruct (py_getitem doc "features") as [features|e0];
    cbn [mbind result_bind] in He |- *; [|congruence].
  destruct features; cbn [py_len py_slice_to mbind result_bind] in He |- *; congruence.
Qed.

(** X10. A document that passes line 192 and whose [features] has no
    [len]: the error of the loading is shown. With a forced type, and with
    the automatic detection when the name of the file matches a rule, the
    file is stored all the same (line 236 comes after line 229) and breaks
    the table of the loaded files: the loop of line 248 raises on it
    outside any [try], whatever else is loaded. With the automatic
    detection and a name that matches no rule the rules on the content
    raise first (line 196) and nothing is stored. *)
Theorem uncounted_file_breaks_the_summary (pna_type : string) (s : session)
    (f : uploaded_file) (data : pyval) (e : exn) :
  pna_type ∈ automatic :: forced_choices ->
  accepted lower f = Some data ->
  zone_count {| data := data; type := pna_type |} = Raise e ->
  let after := process pna_type s f in
  let by_name := filename_type lower (name f) in
  shown after = shown s ++ [LoadError (name f) e] /\
  if String.eqb pna_type automatic && String.eqb by_name not_detected
  then all_data_sources after = all_data_sources s
  else
    (name f, {| data := data;
                type := if String.eqb pna_type automatic then by_name else pna_type |})
      ∈ all_data_sources after /\
    exists e', loaded_files_table (all_data_sources after) = Raise e'.
Proof.
  intros Hp Hacc He. cbv zeta.
  assert (forall t (s' : session),
            let info := {| data := data; type := t |} in
            (name f, info) ∈ all_data_sources (show (LoadError (name f) e) (store (name f) info s')) /\
            exists e', loaded_files_table
                         (all_data_sources (show (LoadError (name f) e) (store (name f) info s')))
                       = Raise e') as Hstored.
  { intros t s' info. cbn [show store all_data_sources].
    pose proof (elem_of_sources_set_new (name f) info (all_data_sources s')) as Hin.
    split; [done|].
    destruct (file_summary_Raise _ _ info e Hin) as [e' He']; [exact He|].
    unfold loaded_files_table.
    destruct (sources_set _ _ _) eqn:Hd; [by apply elem_of_nil in Hin|].
    exists e'. by rewrite He'. }
  apply elem_of_cons in Hp as [->|Hp].
  - change (String.eqb automatic automatic) with true. cbn [andb].
    assert (process automatic s f =
            if String.eqb (filename_type lower (name f)) not_detected
            then show (LoadError (name f) e) s
            else show (LoadError (name f) e)
                   (store (name f)
                      {| data := data; type := filename_type lower (name f) |} s)) as ->.
    { pose proof (content_type_uncounted _ _ _ He) as Hc.
      change (py_getitem data "features" ≫= py_len = Raise e) in He.
      revert Hacc. unfold process_uploaded_file, load_one, accepted.
      change (String.eqb automatic automatic) with true. cbv iota. simpl andb.
      case_bool_decide; [|done].
      destruct (parsed f) as [data'|]; [|done].
      destruct (is_geojson data') as [[|]|]; try done.
      intros [= ->]. cbv zeta.
      destruct (String.eqb (filename_type lower (name f)) not_detected) eqn:Ef.
      - by rewrite Hc.
      - rewrite Ef. by rewrite He. }
    destruct (String.eqb (filename_type lower (name f)) not_detected); [done|].
    split; [done|]. apply Hstored.
  - assert (String.eqb pna_type automatic = false) as Ha.
    { unfold forced_choices in Hp.
      repeat (apply elem_of_cons in Hp as [->|Hp]; [done|]).
      by apply elem_of_nil in Hp. }
    rewrite Ha. cbn [andb].
    rewrite (process_forced_full _ _ _ _ Hp Hacc). cbv zeta. rewrite He.
    split; [done|]. apply Hstored.
Qed.

(** *** The rules on the content *)

(** X11. Features that decide nothing are passed over, the first feature that
    decides gives the type and those after it are not read; a feature on
    which the loop raises ends the loading of the file. *)
Theorem content_scan_first_decides (fs1 fs2 : list pyval) (f : pyval) :
  Forall (fun g => scan [g] = Ok not_detected) fs1 ->
  scan (fs1 ++ f :: fs2) =
    match scan [f] with
    | Ok t => if String.eqb t not_detected then scan fs2 else Ok t
    | Raise e => Raise e
    end.
Proof.
  intros H. induction H as [|g fs1 Hg _ IH]; simpl app.
  - rewrite scan_content_cons. by destruct (scan [f]).
  - by rewrite scan_content_cons, Hg.
Qed.

End LoaderAgain.

(** * More on the page *)

(** ** The two tabs of a zone *)

Lemma dict_get_None_keys (k : string) (d : dict) :
  dict_get k d = None <-> k ∉ d.*1.
Proof.
  induction d as [|[k' v] d IH]; simpl.
  - split; [intros _; apply not_elem_of_nil | done].
  - rewrite not_elem_of_cons. destruct (String.eqb_spec k k') as [->|Hne].
    + split; [done | by intros [? _]].
    + rewrite IH. tauto.
Qed.

Lemma dict_set_fresh (k : string) (v : pyval) (d : dict) :
  dict_get k d = None -> dict_set k v d = d ++ [(k, v)].
Proof.
  induction d as [|[k' v'] d IH]; simpl; [done|].
  destruct (String.eqb k k'); [done|]. intros H. by rewrite IH.
Qed.

Lemma dict_set_keeps (k k' : string) (v : pyval) (d : dict) :
  is_Some (dict_get k d) -> is_Some (dict_get k (dict_set k' v d)).
Proof.
  intros H. destruct (decide (k' = k)) as [->|Hne].
  - rewrite dict_get_set_eq. by eexists.
  - by rewrite dict_get_set_ne.
Qed.

#[local] Abbreviation split_step :=
  (fun (acc : dict * dict) (kv : string * pyval) =>
     if bool_decide (kv.1 ∈ priority_keys)
     then (dict_set kv.1 kv.2 acc.1, acc.2)
     else (acc.1, dict_set kv.1 kv.2 acc.2)).

(** The loop on distinct keys, from any two dicts that hold none of them:
    each item goes last in its dict. *)
Lemma split_fold_nodup (items : dict) (acc : dict * dict) :
  NoDup items.*1 ->
  (forall k, k ∈ items.*1 -> (k ∉ (acc.1).*1) /\ (k ∉ (acc.2).*1)) ->
  fold_left split_step items acc =
    (acc.1 ++ filter (fun kv => kv.1 ∈ priority_keys) items,
     acc.2 ++ filter (fun kv => kv.1 ∉ priority_keys) items).
Proof.
  revert acc. induction items as [|[k v] items IH]; intros [a b] Hnd Hfresh.
  - simpl. by rewrite !app_nil_r.
  - rewrite fmap_cons in Hnd. apply NoDup_cons in Hnd as [Hk Hnd].
    destruct (Hfresh k) as [Ha Hb]; [rewrite fmap_cons; by left|]. simpl in Ha, Hb.
    cbn [fold_left]. rewrite IH; [|done|].
    + cbn [fst snd]. case_bool_decide as Hp; cbn [fst snd].
      * rewrite dict_set_fresh by (by apply dict_get_None_keys).
        rewrite (filter_cons_True (fun kv : string * pyval => kv.1 ∈ priority_keys)) by done.
        rewrite (filter_cons_False (fun kv : string * pyval => kv.1 ∉ priority_keys))
          by (simpl; tauto).
        by rewrite <- app_assoc.
      * rewrite dict_set_fresh by (by apply dict_get_None_keys).
        rewrite (filter_cons_False (fun kv : string * pyval => kv.1 ∈ priority_keys)) by done.
        rewrite (filter_cons_True (fun kv : string * pyval => kv.1 ∉ priority_keys)) by done.
        by rewrite <- app_assoc.
    + intros k' Hk'. assert (k' <> k) as Hne by (intros ->; done).
      destruct (Hfresh k') as [Ha' Hb']; [rewrite fmap_cons; by right|]. simpl in Ha', Hb'.
      cbn [fst snd]. case_bool_decide; cbn [fst snd]; split; try done.
      all: rewrite dict_set_keys; destruct (dict_get k _); try done.
      all: rewrite not_elem_of_app, not_elem_of_cons; split_and!; try done.
      all: apply not_elem_of_nil.
Qed.

(** A key the first dict holds stays in it to the end of the loop, and so
    for the second. *)
Lemma split_fold_keeps (k : string) (items : dict) (acc : dict * dict) :
  (is_Some (dict_get k acc.1) -> is_Some (dict_get k (fold_left split_step items acc).1)) /\
  (is_Some (dict_get k acc.2) -> is_Some (dict_get k (fold_left split_step items acc).2)).
Proof.
  revert acc. induction items as [|[k' v] items IH]; intros [a b]; [done|].
  cbn [fold_left fst snd]. case_bool_decide; cbn [fst snd].
  - destruct (IH (dict_set k' v a, b)) as [H1 H2]. cbn [fst snd] in H1, H2.
    split; [|done]. intros Ha. by apply H1, dict_set_keeps.
  - destruct (IH (a, dict_set k' v b)) as [H1 H2]. cbn [fst snd] in H1, H2.
    split; [done|]. intros Hb. by apply H2, dict_set_keeps.
Qed.

(** A key of the items is in the first dict at the end if it is one of
    [priority_keys], in the second if not. *)
Lemma split_fold_places (k : string) (items : dict) (acc : dict * dict) :
  is_Some (dict_get k items) ->
  if bool_decide (k ∈ priority_keys)
  then is_Some (dict_get k (fold_left split_step items acc).1)
  else is_Some (dict_get k (fold_left split_step items acc).2).
Proof.
  revert acc. induction items as [|[k' v] items IH]; intros [a b] Hk.
  - simpl in Hk. by destruct Hk.
  - simpl in Hk. cbn [fold_left fst snd].
    destruct (String.eqb_spec k k') as [->|Hne]; [|by apply IH].
    case_bool_decide; cbn [fst snd].
    + apply split_fold_keeps. cbn [fst]. rewrite dict_get_set_eq. by eexists.
    + apply split_fold_keeps. cbn [snd]. rewrite dict_get_set_eq. by eexists.
Qed.

(** X12. On a dict, whose keys are distinct, the loop of lines 374-378
    parts the items in two without losing or reordering any: the first
    dict holds the items under a key of [priority_keys], the second the
    others, each in the order of the dict. *)
Theorem split_props_parts_the_items (items : dict) :
  NoDup items.*1 ->
  split_props items =
    (filter (fun kv => kv.1 ∈ priority_keys) items,
     filter (fun kv => kv.1 ∉ priority_keys) items).
Proof.
  intros Hnd. unfold split_props. rewrite split_fold_nodup; [done..|].
  intros k _. cbn [fst snd fmap list_fmap]. split; apply not_elem_of_nil.
Qed.

(** ** What is shown for the results of [is_in_pna] *)

Lemma Forall2_omap {A B : Type} (f : A -> option B) (P : B -> A -> Prop) (l : list A) :
  (forall a, a ∈ l -> exists b, f a = Some b /\ P b a) -> Forall2 P (omap f l) l.
Proof.
  induction l as [|a l IH]; intros H; [constructor|].
  destruct (H a) as (b & Hb & HP); [by left|].
  cbn [omap list_omap]. rewrite Hb. constructor; [done|].
  apply IH. intros a' Ha'. apply H. by right.
Qed.

(** The dict of a result is the stamped dict of the feature at its place. *)
#[local] Abbreviation stamped_result :=
  (fun (ads : sources) (m : pyval) (r : ref) =>
     exists file_name info d0,
       ads !! r.1 = Some (file_name, info) /\
       properties_at ads r = Some (PyDict d0) /\
       m = PyDict (stamped file_name (type info) d0)).

(** The row of a result: the type and the name of its file, the species
    of its feature or the default, and for a file of bats the stake of the
    feature or the default. *)
#[local] Abbreviation row_of :=
  (fun (ads : sources) (row : result_row) (r : ref) =>
     exists file_name info d0,
       ads !! r.1 = Some (file_name, info) /\
       properties_at ads r = Some (PyDict d0) /\
       r_type_pna row = PyStr (type info) /\
       r_fichier_source row = PyStr file_name /\
       r_espece row = default (PyStr "Non spécifié") (dict_get "n_espece" d0) /\
       r_enjeu row =
         if String.eqb (type info) "Chiroptères"
         then default (PyStr "Indéterminé") (dict_get "t_enjeux" d0)
         else PyStr "").

(** The expander of a result: the species of its title, and two tabs that
    both hold a table. *)
#[local] Abbreviation panel_of :=
  (fun (ads : sources) (p : zone_details) (r : ref) =>
     exists d0 t1 t2,
       properties_at ads r = Some (PyDict d0) /\
       d_espece p = default (PyStr "Non spécifié") (dict_get "n_espece" d0) /\
       d_tab1 p = TabTable t1 /\ is_Some (dict_get "type_pna" t1) /\
       d_tab2 p = TabTable t2 /\ is_Some (dict_get "fichier_source" t2)).

Lemma result_data_from_stamped (ads : sources) (i : nat) (ms : list pyval) (rs : list ref) :
  Forall2 (stamped_result ads) ms rs ->
  exists rows,
    result_data_from i ms = Ok rows /\
    r_zone <$> rows = seq i (length rs) /\
    Forall2 (row_of ads) rows rs.
Proof.
  intros H. revert i.
  induction H as [|m r ms rs (file_name & info & d0 & Hi & Hp & ->) _ IH]; intros i.
  - exists []. by split_and!.
  - destruct (IH (S i)) as (rows & Hrows & Hz & Hall).
    cbn [result_data_from py_get].
    rewrite stamped_type_pna, stamped_fichier_source.
    rewrite (stamped_other _ _ "n_espece") by done.
    cbn [mbind result_bind py_eq_str].
    destruct (String.eqb_spec (type info) "Chiroptères") as [Ht|Ht].
    + rewrite Ht, stamped_enjeu. cbn [mbind result_bind]. rewrite Hrows.
      eexists. split_and!; [done| |].
      * cbn [fmap list_fmap r_zone length seq]. f_equal. exact Hz.
      * constructor; [|done]. exists file_name, info, d0.
        cbn [r_type_pna r_fichier_source r_espece r_enjeu].
        rewrite Ht, String.eqb_refl. by split_and!.
    + cbn [mbind result_bind]. rewrite Hrows.
      eexists. split_and!; [done| |].
      * cbn [fmap list_fmap r_zone length seq]. f_equal. exact Hz.
      * constructor; [|done]. exists file_name, info, d0.
        cbn [r_type_pna r_fichier_source r_espece r_enjeu].
        apply String.eqb_neq in Ht. rewrite Ht. by split_and!.
Qed.

Lemma zone_panel_stamped (i : nat) (file_name data_type : string) (d0 : dict) :
  exists p t1 t2,
    zone_panel i (PyDict (stamped file_name data_type d0)) = Ok p /\
    d_zone p = i /\
    d_espece p = default (PyStr "Non spécifié") (dict_get "n_espece" d0) /\
    d_tab1 p = TabTable t1 /\ is_Some (dict_get "type_pna" t1) /\
    d_tab2 p = TabTable t2 /\ is_Some (dict_get "fichier_source" t2).
Proof.
  unfold zone_panel. cbn [py_get py_items mbind result_bind].
  rewrite (stamped_other _ _ "n_espece") by done.
  pose proof (split_fold_places "type_pna" (stamped file_name data_type d0) ([], [])) as H1.
  pose proof (split_fold_places "fichier_source" (stamped file_name data_type d0) ([], []))
    as H2.
  rewrite stamped_type_pna in H1. rewrite stamped_fichier_source in H2.
  specialize (H1 ltac:(by eexists)). specialize (H2 ltac:(by eexists)).
  rewrite bool_decide_eq_true_2 in H1 by (unfold priority_keys; by repeat constructor).
  rewrite bool_decide_eq_false_2 in H2.
  2:{ unfold priority_keys. rewrite !not_elem_of_cons. split_and!; try done.
      apply not_elem_of_nil. }
  fold (split_props (stamped file_name data_type d0)) in H1, H2.
  destruct (split_props (stamped file_name data_type d0)) as [[|kv1 t1] [|kv2 t2]];
    cbn [fst snd] in *; try (by destruct H1); try (by destruct H2).
  eexists _, (kv1 :: t1), (kv2 :: t2). by split_and!.
Qed.

Lemma zone_panels_stamped (ads : sources) (i : nat) (ms : list pyval) (rs : list ref) :
  Forall2 (stamped_result ads) ms rs ->
  exists panels,
    zone_panels i ms = (panels, None) /\
    d_zone <$> panels = seq i (length rs) /\
    Forall2 (panel_of ads) panels rs.
Proof.
  intros H. revert i.
  induction H as [|m r ms rs (file_name & info & d0 & Hi & Hp & ->) _ IH]; intros i.
  - exists []. by split_and!.
  - destruct (IH (S i)) as (panels & Hpanels & Hz & Hall).
    destruct (zone_panel_stamped i file_name (type info) d0)
      as (p & t1 & t2 & Hpan & Hzone & He & H1 & H1' & H2 & H2').
    cbn [zone_panels]. rewrite Hpan, Hpanels.
    exists (p :: panels). split_and!; [done| |].
    + cbn [fmap list_fmap length seq]. by rewrite Hzone, <- Hz.
    + constructor; [|done]. by exists d0, t1, t2.
Qed.

Section ShowFacts.

Variable coord : Type.
Variable geom : Type.
Variable Point : coord -> coord -> geom.
Variable buffer : geom -> Z -> geom.
Variable shape : pyval -> result geom.
Variable contains : geom -> geom -> result bool.
Variable intersects : geom -> geom -> result bool.

#[local] Abbreviation query := (is_in_pna Point buffer shape contains intersects).
#[local] Abbreviation all_appended_ := (all_appended buffer shape contains intersects).
#[local] Abbreviation store_left_ := (store_left buffer shape contains intersects).

Lemma returned_Some (lat lon x_l93 y_l93 : coord) (ads : sources) (rs : list ref) :
  returned (query lat lon x_l93 y_l93 ads) = (true, Some rs) ->
  all_appended_ (Point x_l93 y_l93) 0 ads = Ok rs.
Proof.
  rewrite is_in_pna_eq.
  destruct (all_appended_ (Point x_l93 y_l93) 0 ads) as [[|r rs']|e]; simpl; congruence.
Qed.

(** The flag and the list go together: true with a list that is not
    empty, or false with [None]. *)
Lemma returned_cases (lat lon x_l93 y_l93 : coord) (ads : sources) :
  returned (query lat lon x_l93 y_l93 ads) = (false, None) \/
  exists r rs, returned (query lat lon x_l93 y_l93 ads) = (true, Some (r :: rs)).
Proof.
  rewrite is_in_pna_eq.
  destruct (all_appended_ (Point x_l93 y_l93) 0 ads) as [[|r rs']|e]; simpl; eauto.
Qed.

Lemma result_dicts_stamped (lat lon x_l93 y_l93 : coord) (ads : sources) (rs : list ref) :
  returned (query lat lon x_l93 y_l93 ads) = (true, Some rs) ->
  Forall2 (stamped_result ads) (result_dicts (query lat lon x_l93 y_l93 ads)) rs.
Proof.
  intros Hret. unfold result_dicts, result_refs. rewrite Hret. cbn [snd default].
  rewrite store_after_eq. apply returned_Some in Hret.
  apply Forall2_omap. intros r Hr.
  destruct (returned_ref_facts _ _ _ _ _ _ _ _ _ Hret Hr)
    as (n & info & f & d0 & Hi & Hat & _ & Hd & _ & Hp).
  eexists. split; [exact Hp|]. exists n, info, d0. split_and!; [done| |done].
  unfold properties_at. rewrite Hat. simpl. by rewrite Hd.
Qed.

(** X13. When [is_in_pna] returns results, the table of the zones is
    built without an exception and has one row per result, numbered from
    1, in the order of the results. A row gives the type and the name of
    the file of its feature (the defaults "Inconnu" and "" of lines 344 and
    345 are never used), the species of the feature or "Non spécifié", and
    as stake, for a file of bats, the [t_enjeux] of the feature or
    "Indéterminé", and the empty text for any other file. *)
Theorem zones_table_rows (lat lon x_l93 y_l93 : coord) (ads : sources) (rs : list ref) :
  let out := query lat lon x_l93 y_l93 ads in
  returned out = (true, Some rs) ->
  exists rows,
    result_data (result_dicts out) = Ok rows /\
    r_zone <$> rows = seq 1 (length rs) /\
    Forall2 (row_of ads) rows rs.
Proof.
  cbv zeta. intros Hret. apply result_data_from_stamped.
  by apply result_dicts_stamped.
Qed.

(** X14. When [is_in_pna] returns results, the details are shown for
    every one of them, numbered from 1, and no exception ends the loop.
    Both tabs of a zone hold a table: the first has at least the type,
    the second at least the name of the file, so neither notice "Aucune
    propriété ... disponible" is ever shown. *)
Theorem zone_details_have_both_tables (lat lon x_l93 y_l93 : coord) (ads : sources)
    (rs : list ref) :
  let out := query lat lon x_l93 y_l93 ads in
  returned out = (true, Some rs) ->
  exists panels,
    zone_panels 1 (result_dicts out) = (panels, None) /\
    d_zone <$> panels = seq 1 (length rs) /\
    Forall2 (panel_of ads) panels rs.
Proof.
  cbv zeta. intros Hret. apply zone_panels_stamped.
  by apply result_dicts_stamped.
Qed.

(** What [show_answer] gives on what [is_in_pna] returned. *)
Lemma show_answer_query (mode : input_mode) (lat lon x_l93 y_l93 : coord) (ads : sources) :
  let out := query lat lon x_l93 y_l93 ads in
  (returned out = (false, None) /\ show_answer mode out = ([InNoZone mode], None)) \/
  (exists r rs rows panels,
     returned out = (true, Some (r :: rs)) /\
     length rows = S (length rs) /\ length panels = S (length rs) /\
     show_answer mode out =
       (InZones mode (S (length rs)) :: ZonesTable rows :: (ZoneDetails <$> panels), None)).
Proof.
  cbv zeta. destruct (returned_cases lat lon x_l93 y_l93 ads) as [Hret|(r & rs & Hret)].
  - left. split; [done|]. unfold show_answer. by rewrite Hret.
  - right. pose proof (result_dicts_stamped _ _ _ _ _ _ Hret) as Hst.
    destruct (result_data_from_stamped _ 1 _ _ Hst) as (rows & Hrows & Hz & _).
    destruct (zone_panels_stamped _ 1 _ _ Hst) as (panels & Hpanels & Hz' & _).
    exists r, rs, rows, panels. split_and!; [done| | |].
    + apply (f_equal length) in Hz. by rewrite length_fmap, length_seq in Hz.
    + apply (f_equal length) in Hz'. by rewrite length_fmap, length_seq in Hz'.
    + unfold show_answer, result_data. by rewrite Hret, Hrows, Hpanels.
Qed.

(** X15. Whatever the datasets, showing what [is_in_pna] returned ends
    without an exception: either the one notice that the point is in no
    zone, or the count of the results, one table with a row per result and
    one expander per result. *)
Theorem answer_is_shown_whole (mode : input_mode) (lat lon x_l93 y_l93 : coord)
    (ads : sources) :
  let out := query lat lon x_l93 y_l93 ads in
  (show_answer mode out).2 = None /\
  match result_refs out with
  | [] => (show_answer mode out).1 = [InNoZone mode]
  | _ :: _ =>
      exists rows panels,
        (show_answer mode out).1 =
          InZones mode (length (result_refs out)) :: ZonesTable rows
            :: (ZoneDetails <$> panels) /\
        length rows = length (result_refs out) /\
        length panels = length (result_refs out)
  end.
Proof.
  cbv zeta.
  destruct (show_answer_query mode lat lon x_l93 y_l93 ads)
    as [[Hret ->]|(r & rs & rows & panels & Hret & Hr & Hp & ->)];
    unfold result_refs; rewrite Hret; cbn [fst snd default length]; [done|].
  split; [done|]. by exists rows, panels.
Qed.

End ShowFacts.

(** ** Geocoding *)

Section GeocodingFacts.

Variable http_get : string -> option response.
Variable percent_text : pyval -> option string.
Variable to_l93 : pyval -> pyval -> result (pyval * pyval).

#[local] Abbreviation read_answer_ := (read_answer percent_text to_l93).
#[local] Abbreviation ask_api_ := (ask_api http_get percent_text to_l93).
#[local] Abbreviation get_coordinates_ := (get_coordinates http_get percent_text to_l93).

(** The four ways lines 36-55 can end. *)
Lemma read_answer_cases (address : string) (data : pyval) :
  read_answer_ address data = ([NoResult], Some None) \/
  read_answer_ address data = ([], None) \/
  (exists full_address confidence,
     read_answer_ address data = ([Found full_address confidence], None)) \/
  (exists lat lon x_l93 y_l93 full_address confidence,
     read_answer_ address data =
       ([Found full_address confidence],
        Some (Some (lat, lon, x_l93, y_l93, full_address))) /\
     to_l93 lon lat = Ok (x_l93, y_l93)).
Proof.
  unfold read_answer.
  destruct (py_truthy data); [|by left].
  destruct (attempt (py_get data "features" PyNone)) as [features|]; [|by right; left].
  destruct (py_truthy features); [|by left].
  destruct (attempt (py_len features)) as [n|]; [|by right; left].
  destruct (0 <? n)%nat; [|by left].
  match goal with
  | |- context [match ?found with Some _ => _ | None => _ end] =>
      destruct found as [[[[lon lat] full_address] confidence]|]
  end; [|by right; left].
  destruct (to_l93 lon lat) as [[x_l93 y_l93]|e] eqn:Hc.
  - do 3 right. by exists lat, lon, x_l93, y_l93, full_address, confidence.
  - right; right; left. by exists full_address, confidence.
Qed.

(** The two ways the [try] of lines 21-60 can end. *)
Lemma ask_api_cases (address : string) :
  (exists lat lon x_l93 y_l93 full_address confidence,
     ask_api_ address =
       ([Found full_address confidence],
        Some (Some (lat, lon, x_l93, y_l93, full_address))) /\
     to_l93 lon lat = Ok (x_l93, y_l93)) \/
  (exists items r,
     ask_api_ address = (items, r) /\
     (forall t, r <> Some (Some t)) /\
     no_point (items ++ match r with None => [RequestFailed] | Some _ => [] end)).
Proof.
  unfold ask_api.
  destruct (http_get address) as [response|].
  2:{ right. exists [], None. split_and!; [done..|constructor]. }
  destruct (Z.eqb_spec (status_code response) 200) as [Hs|Hs].
  2:{ right. exists [BadStatus (status_code response)], (Some None).
      split_and!; [done..|by constructor]. }
  destruct (json response) as [data|].
  2:{ right. exists [], None. split_and!; [done..|constructor]. }
  destruct (read_answer_cases address data)
    as [H|[H|[(full & conf & H)|(lat & lon & x & y & full & conf & H & Hc)]]];
    rewrite H.
  - right. exists [NoResult], (Some None). split_and!; [done..|constructor].
  - right. exists [], None. split_and!; [done..|constructor].
  - right. exists [Found full conf], None. split_and!; [done..|constructor].
  - left. by exists lat, lon, x, y, full, conf.
Qed.

(** X16. Whatever the API sends and whatever is typed, [get_coordinates]
    ends in one of two ways. Either it shows the address found and returns
    the point of the API: latitude first, though the API gives the
    longitude first, with its conversion to Lambert 93. Or it shows one
    notice of what went wrong, then that the address cannot be geocoded,
    and what it returns depends on the manual entry only: [None] unless the
    box is ticked and the button pressed, the typed point with its
    conversion if so; the only exception that leaves the function is one of
    that conversion. *)
Theorem get_coordinates_outcomes (address : string) (m : manual_inputs) :
  (exists lat lon x_l93 y_l93 full_address confidence,
     get_coordinates_ address m =
       ([Found full_address confidence],
        Ok (Some (lat, lon, x_l93, y_l93, full_address))) /\
     to_l93 lon lat = Ok (x_l93, y_l93)) \/
  (exists before,
     no_point before /\
     (get_coordinates_ address m).1 = before ++ [CannotGeocode] /\
     (get_coordinates_ address m).2 =
       if manual_ticked m && manual_used m
       then match to_l93 (PyFloat (manual_lon m)) (PyFloat (manual_lat m)) with
            | Ok (x_l93, y_l93) =>
                Ok (Some (PyFloat (manual_lat m), PyFloat (manual_lon m), x_l93, y_l93,
                          PyStr ("Coordonnées manuelles: " ++ manual_lat m ++ ", "
                                 ++ manual_lon m)%string))
            | Raise e => Raise e
            end
       else Ok None).
Proof.
  assert (forall items r before,
            ask_api_ address = (items, r) ->
            (forall t, r <> Some (Some t)) ->
            items ++ match r with None => [RequestFailed] | Some _ => [] end = before ->
            (get_coordinates_ address m).1 = before ++ [CannotGeocode] /\
            (get_coordinates_ address m).2 =
              if manual_ticked m && manual_used m
              then match to_l93 (PyFloat (manual_lon m)) (PyFloat (manual_lat m)) with
                   | Ok (x_l93, y_l93) =>
                       Ok (Some (PyFloat (manual_lat m), PyFloat (manual_lon m), x_l93, y_l93,
                                 PyStr ("Coordonnées manuelles: " ++ manual_lat m ++ ", "
                                        ++ manual_lon m)%string))
                   | Raise e => Raise e
                   end
              else Ok None) as Hrest.
  { intros items r before Hask Hr <-. unfold get_coordinates. rewrite Hask.
    destruct r as [[t|]|]; [by destruct (Hr t)| |].
    all: destruct (manual_ticked m), (manual_used m); cbn [andb fst snd].
    all: try (rewrite <- app_assoc; done).
    all: destruct (to_l93 (PyFloat (manual_lon m)) (PyFloat (manual_lat m))) as [[x y]|e].
    all: cbn [fst snd]; by rewrite <- app_assoc. }
  destruct (ask_api_cases address)
    as [(lat & lon & x & y & full & conf & H & Hc)|(items & r & H & Hr & Hnp)].
  - left. exists lat, lon, x, y, full, conf. split; [|done].
    unfold get_coordinates. by rewrite H.
  - right. eexists. split; [exact Hnp|]. by eapply Hrest.
Qed.

(** X17. An answer of status 200 whose JSON object has a list under
    [features] is read at its first feature only: from the pair under
    [geometry], [coordinates], longitude first, and from [label] and
    [score] of its [properties], the typed address and 0 standing for a
    missing one. When the score can be printed and the point converted,
    the address found is the one thing shown and the point is returned,
    latitude first; the manual entry plays no part. *)
Theorem api_answer_is_read (address : string) (m : manual_inputs) (r : response)
    (answer properties : dict) (feature geometry lon lat x_l93 y_l93 : pyval)
    (others : list pyval) (confidence : string) :
  http_get address = Some r ->
  status_code r = 200%Z ->
  json r = Some (PyDict answer) ->
  dict_get "features" answer = Some (PyList (feature :: others)) ->
  py_getitem feature "geometry" = Ok geometry ->
  py_getitem geometry "coordinates" = Ok (PyList [lon; lat]) ->
  py_getitem feature "properties" = Ok (PyDict properties) ->
  percent_text (default (PyInt 0) (dict_get "score" properties)) = Some confidence ->
  to_l93 lon lat = Ok (x_l93, y_l93) ->
  let full_address := default (PyStr address) (dict_get "label" properties) in
  get_coordinates_ address m =
    ([Found full_address confidence], Ok (Some (lat, lon, x_l93, y_l93, full_address))).
Proof.
  intros Hget Hs Hj Hf Hg Hc Hp Hpc Hl. cbv zeta.
  unfold get_coordinates, ask_api. rewrite Hget, Hs, Hj. cbn [Z.eqb Pos.eqb].
  unfold read_answer.
  assert (py_truthy (PyDict answer) = true) as -> by (by destruct answer).
  cbn [py_get attempt]. rewrite Hf. cbn [default py_truthy py_len attempt length Nat.ltb
    Nat.leb py_first mbind option_bind].
  rewrite Hg. cbn [attempt mbind option_bind]. rewrite Hc.
  cbn [attempt mbind option_bind py_unpack2 py_iter]. rewrite Hp.
  cbn [attempt mbind option_bind py_get]. unfold default, from_option, id in Hpc |- *. cbv beta in Hpc |- *. rewrite Hpc.
  cbn [mbind option_bind]. by rewrite Hl.
Qed.

End GeocodingFacts.

(** ** The session state *)

Lemma address_field_flag (st : session_state) : reset_pressed (address_field st).2 = false.
Proof. unfold address_field. by destruct (reset_pressed st) eqn:E. Qed.

Lemma coordinate_fields_flag (st : session_state) :
  reset_pressed (coordinate_fields st).2 = false.
Proof. unfold coordinate_fields. by destruct (reset_pressed st) eqn:E. Qed.

Lemma address_field_keeps (st : session_state) :
  last_lat (address_field st).2 = last_lat st /\
  last_lon (address_field st).2 = last_lon st.
Proof. unfold address_field. by destruct (reset_pressed st). Qed.

Lemma coordinate_fields_keeps (st : session_state) :
  last_address (coordinate_fields st).2 = last_address st /\
  last_lat (coordinate_fields st).2 = last_lat st /\
  last_lon (coordinate_fields st).2 = last_lon st.
Proof. unfold coordinate_fields. by destruct (reset_pressed st). Qed.

Section HandlerStates.

Variable geom : Type.
Variable Point : pyval -> pyval -> geom.
Variable buffer : geom -> Z -> geom.
Variable shape : pyval -> result geom.
Variable contains : geom -> geom -> result bool.
Variable intersects : geom -> geom -> result bool.
Variable format_f : pyval -> option exn.
Variable to_l93 : pyval -> pyval -> result (pyval * pyval).
Variable to_wgs84 : pyval -> pyval -> result (pyval * pyval).
Variable http_get : string -> option response.
Variable percent_text : pyval -> option string.

#[local] Abbreviation address_mode_ :=
  (address_mode Point buffer shape contains intersects format_f to_l93 http_get percent_text).
#[local] Abbreviation coordinate_mode_ :=
  (coordinate_mode Point buffer shape contains intersects format_f to_l93 to_wgs84).
#[local] Abbreviation verify_point_ :=
  (verify_point Point buffer shape contains intersects format_f).

(** In the address mode the typed address is remembered in every run,
    checked or not. *)
Lemma address_mode_state (w : address_inputs) (st : session_state) (ads : sources) :
  state (address_mode_ w st ads) = remember_address (typed_address w) (address_field st).2.
Proof.
  unfold address_mode. destruct (address_field st) as [initial st']. cbn [snd].
  destruct (check_button w && negb (String.eqb (typed_address w) "")); [|done].
  destruct ads as [|entry ads]; [done|].
  destruct (get_coordinates _ _ _ _ _) as [shown_ [[[[[[lat lon] x] y] full]|]|e]]; try done.
  by destruct (verify_point_ _ _ _ _ _ _) as [[items r] srcs].
Qed.

(** In the coordinates mode the point is remembered only by a check that
    finds files loaded. *)
Lemma coordinate_mode_state (w : coordinate_inputs) (st : session_state) (ads : sources) :
  state (coordinate_mode_ w st ads) = (coordinate_fields st).2 \/
  exists lat lon,
    state (coordinate_mode_ w st ads) = remember_coordinates lat lon (coordinate_fields st).2.
Proof.
  unfold coordinate_mode. destruct (coordinate_fields st) as [[initial_lat initial_lon] st'].
  cbn [snd].
  match goal with
  | |- context [match ?c with Ok _ => _ | Raise _ => _ end] =>
      destruct c as [[shown_ [[[lat lon] x] y]]|e]
  end; [|by left].
  destruct (check_coords w); [|by left].
  destruct ads as [|entry ads]; [by left|].
  destruct (verify_point_ _ _ _ _ _ _) as [[items r] srcs].
  right. by exists lat, lon.
Qed.

End HandlerStates.

(** Whenever the flag is up, what is remembered is the defaults. *)
Lemma reachable_flag (st : session_state) :
  reachable st ->
  reset_pressed st = true ->
  last_address st = "" /\ last_lat st = PyFloat "43.6" /\ last_lon st = PyFloat "2.7".
Proof.
  intros H.
  induction H as [|st _ _|st ? ? ? ? ? ? ? ? ? ? w ads _ _
                 |st geom Point buffer shape contains intersects format_f to_l93 to_wgs84
                    w ads _ _]; intros Hflag.
  - done.
  - done.
  - rewrite address_mode_state in Hflag. cbn [remember_address reset_pressed] in Hflag.
    by rewrite address_field_flag in Hflag.
  - exfalso. revert Hflag.
    destruct (coordinate_mode_state geom Point buffer shape contains intersects format_f
                to_l93 to_wgs84 w st ads) as [->|(lat & lon & ->)].
    + by rewrite coordinate_fields_flag.
    + cbn [remember_coordinates reset_pressed]. by rewrite coordinate_fields_flag.
Qed.

(** X18. In every state the page can reach, by runs of the script in
    either mode and resets in any order, the input fields start from the
    remembered values: the address from [last_address], the coordinates
    from [last_lat] and [last_lon]. The test of [reset_pressed] of lines
    302 and 407 changes nothing of what is shown: when the flag is up the
    remembered values are the defaults themselves. *)
Theorem fields_start_from_what_is_remembered (st : session_state) :
  reachable st ->
  (address_field st).1 = last_address st /\
  (coordinate_fields st).1 = (last_lat st, last_lon st).
Proof.
  intros H. pose proof (reachable_flag st H) as Hflag.
  unfold address_field, coordinate_fields.
  destruct (reset_pressed st); [|done].
  destruct (Hflag eq_refl) as (-> & -> & ->). done.
Qed.

(** ** A check, from the fields to what is shown *)

(** Features that can be counted can be run through: datasets whose
    table is built are datasets [is_in_pna] reads to the end. *)
Lemma file_summary_readable (srcs : sources) (rows : list summary_row) :
  file_summary srcs = Ok rows -> readable srcs.
Proof.
  revert rows. induction srcs as [|[file_name info] srcs IH]; intros rows H; [constructor|].
  cbn [file_summary] in H.
  destruct (zone_count info) as [n|e] eqn:Hn; [|done].
  cbn [mbind result_bind] in H.
  destruct (file_summary srcs) as [rows'|e] eqn:Hrows; [|done].
  constructor; [|by eapply IH].
  cbn [snd]. unfold zone_count in Hn. unfold features_of, is_Ok.
  destruct (py_getitem (data info) "features") as [features|e]; [|done].
  cbn [mbind result_bind] in Hn |- *.
  destruct features; cbn [py_len py_iter] in Hn |- *; try done; by eexists.
Qed.

Section PageFacts.

Variable geom : Type.
Variable Point : pyval -> pyval -> geom.
Variable buffer : geom -> Z -> geom.
Variable shape : pyval -> result geom.
Variable contains : geom -> geom -> result bool.
Variable intersects : geom -> geom -> result bool.
Variable format_f : pyval -> option exn.
Variable to_l93 : pyval -> pyval -> result (pyval * pyval).
Variable to_wgs84 : pyval -> pyval -> result (pyval * pyval).
Variable http_get : string -> option response.
Variable percent_text : pyval -> option string.

#[local] Abbreviation query := (is_in_pna Point buffer shape contains intersects).
#[local] Abbreviation address_mode_ :=
  (address_mode Point buffer shape contains intersects format_f to_l93 http_get percent_text).
#[local] Abbreviation coordinate_mode_ :=
  (coordinate_mode Point buffer shape contains intersects format_f to_l93 to_wgs84).
#[local] Abbreviation verify_point_ :=
  (verify_point Point buffer shape contains intersects format_f).

(** Four numbers that can be printed: the two lines of coordinates, then
    the query, what it reported and its answer, and no exception. *)
Lemma verify_point_printed (mode : input_mode) (lat lon x_l93 y_l93 : pyval)
    (ads : sources) :
  format_f lat = None -> format_f lon = None ->
  format_f x_l93 = None -> format_f y_l93 = None ->
  let out := query lat lon x_l93 y_l93 ads in
  verify_point_ mode lat lon x_l93 y_l93 ads =
    ([Wgs84 lat lon; Lambert93 x_l93 y_l93] ++ (Checked <$> reported out)
       ++ (show_answer mode out).1,
     None, store_after out).
Proof.
  intros H1 H2 H3 H4. cbv zeta. unfold verify_point. rewrite H1, H2, H3, H4.
  destruct (show_answer_query _ _ Point buffer shape contains intersects mode
              lat lon x_l93 y_l93 ads)
    as [[_ ->]|(r & rs & rows & panels & _ & _ & _ & ->)]; done.
Qed.

(** X19. The table of the loaded files is built before the column of
    the verification (lines 243-257 come before line 266), by a loop that
    stands outside any [try]. In a run that gets past it, [is_in_pna]
    never takes its outer [except]: a check shows no error of the
    verification, only the two lines of coordinates and the answer, and no
    exception ends it. *)
Theorem check_after_the_summary_reports_nothing (mode : input_mode)
    (lat lon x_l93 y_l93 : pyval) (ads : sources) (table : option (list summary_row)) :
  loaded_files_table ads = Ok table ->
  format_f lat = None -> format_f lon = None ->
  format_f x_l93 = None -> format_f y_l93 = None ->
  let out := query lat lon x_l93 y_l93 ads in
  reported out = [] /\
  verify_point_ mode lat lon x_l93 y_l93 ads =
    ([Wgs84 lat lon; Lambert93 x_l93 y_l93] ++ (show_answer mode out).1,
     None, store_after out).
Proof.
  intros Ht H1 H2 H3 H4. cbv zeta.
  assert (readable ads) as Hread.
  { unfold loaded_files_table in Ht. destruct ads as [|entry ads]; [constructor|].
    destruct (file_summary (entry :: ads)) as [rows|e] eqn:Hrows; [|done].
    by eapply file_summary_readable. }
  pose proof (reported_readable _ _ Point buffer shape contains intersects
                lat lon x_l93 y_l93 ads Hread) as Hrep.
  split; [exact Hrep|].
  rewrite verify_point_printed by done. cbv zeta. by rewrite Hrep.
Qed.

(** X20. A check in the coordinates mode with files loaded, on numbers
    that convert and print. With the box "Saisir en Lambert 93" ticked the
    query is made at the typed x and y as they are, and the latitude and
    longitude shown and remembered are their conversion, the two fields of
    the latitude and the longitude playing no part; without it the query is
    made at the conversion of the typed latitude and longitude. The page
    then holds the two lines of coordinates, what [is_in_pna] reported and
    its answer; no exception ends the run, the datasets are those the call
    left, and the flag of the reset is down. *)
Theorem coordinates_check (w : coordinate_inputs) (st : session_state) (ads : sources)
    (lat lon x_l93 y_l93 : pyval) :
  check_coords w = true ->
  ads <> [] ->
  (if use_lambert93 w
   then to_wgs84 (in_x w) (in_y w) = Ok (lon, lat) /\ x_l93 = in_x w /\ y_l93 = in_y w
   else to_l93 (in_lon w) (in_lat w) = Ok (x_l93, y_l93) /\ lat = in_lat w /\ lon = in_lon w) ->
  format_f lat = None -> format_f lon = None ->
  format_f x_l93 = None -> format_f y_l93 = None ->
  let out := query lat lon x_l93 y_l93 ads in
  let h := coordinate_mode_ w st ads in
  raised h = None /\
  datasets h = store_after out /\
  page h = [Wgs84 lat lon; Lambert93 x_l93 y_l93] ++ (Checked <$> reported out)
             ++ (show_answer Coordonnees out).1 /\
  state h = {| reset_pressed := false; last_address := last_address st;
               last_lat := lat; last_lon := lon |}.
Proof.
  intros Hc Hads Hconv H1 H2 H3 H4. cbv zeta.
  pose proof (coordinate_fields_flag st) as Hflag.
  pose proof (coordinate_fields_keeps st) as (Ha & _ & _).
  unfold coordinate_mode.
  destruct (coordinate_fields st) as [[initial_lat initial_lon] st']. cbn [snd] in Hflag, Ha.
  destruct ads as [|entry ads]; [done|].
  destruct (use_lambert93 w).
  - destruct Hconv as (-> & -> & ->). cbn [mbind result_bind]. rewrite H1, H2, Hc.
    rewrite verify_point_printed by done. cbn [raised datasets page state].
    split_and!; try done. unfold remember_coordinates. by rewrite Hflag, Ha.
  - destruct Hconv as (-> & -> & ->). cbn [mbind result_bind]. rewrite Hc.
    rewrite verify_point_printed by done. cbn [raised datasets page state].
    split_and!; try done. unfold remember_coordinates. by rewrite Hflag, Ha.
Qed.

(** X21. A check in the address mode with files loaded, when
    [get_coordinates] returns a point whose numbers print: the page holds
    the typed address, what [get_coordinates] showed, the two lines of
    coordinates, what [is_in_pna] reported and its answer; the query is
    made at the returned point; no exception ends the run, the datasets
    are those the call left, the typed address is remembered and the
    remembered coordinates are not touched. *)
Theorem address_check (w : address_inputs) (st : session_state) (ads : sources)
    (shown_ : list geo_item) (lat lon x_l93 y_l93 full_address : pyval) :
  check_button w = true ->
  typed_address w <> "" ->
  ads <> [] ->
  get_coordinates http_get percent_text to_l93 (typed_address w) (manual w) =
    (shown_, Ok (Some (lat, lon, x_l93, y_l93, full_address))) ->
  format_f lat = None -> format_f lon = None ->
  format_f x_l93 = None -> format_f y_l93 = None ->
  let out := query lat lon x_l93 y_l93 ads in
  let h := address_mode_ w st ads in
  raised h = None /\
  datasets h = store_after out /\
  page h = TypedAddress (typed_address w) :: (Geocoding <$> shown_)
             ++ [Wgs84 lat lon; Lambert93 x_l93 y_l93] ++ (Checked <$> reported out)
             ++ (show_answer Adresse out).1 /\
  state h = {| reset_pressed := false; last_address := typed_address w;
               last_lat := last_lat st; last_lon := last_lon st |}.
Proof.
  intros Hc Ha Hads Hg H1 H2 H3 H4. cbv zeta.
  pose proof (address_field_flag st) as Hflag.
  pose proof (address_field_keeps st) as (Hlat & Hlon).
  unfold address_mode.
  destruct (address_field st) as [initial st']. cbn [snd] in Hflag, Hlat, Hlon.
  destruct ads as [|entry ads]; [done|].
  apply String.eqb_neq in Ha. rewrite Hc, Ha, Hg. cbn [andb negb].
  rewrite verify_point_printed by done. cbn [raised datasets page state].
  split_and!; try done. unfold remember_address. by rewrite Hflag, Hlat, Hlon.
Qed.

End PageFacts.

(** * More examples *)

(** On the file that is an array the loop of line 102 cannot start: the
    query ends there, after the stamp on the dragonflies before it. *)
Lemma unreadable_file_ends_the_query_witness :
  readable [dragonflies] /\
  features_of array_dataset.2 = Raise TypeError /\
  let out := grid_is_in_pna 50 50 50 50 ([dragonflies] ++ array_dataset :: far_away) in
  returned out = (false, None) /\
  reported out = [CheckError TypeError] /\
  store_after out =
    store_after (grid_is_in_pna 50 50 50 50 [dragonflies]) ++ array_dataset :: far_away.
Proof.
  assert (readable [dragonflies]) as H by (repeat constructor; by eexists).
  split; [exact H|]. split; [reflexivity|].
  exact (unreadable_file_ends_the_query Z box grid_Point grid_buffer grid_shape grid_contains
           grid_intersects 50%Z 50%Z 50%Z 50%Z [dragonflies] far_away "zones.json"
           array_dataset.2 TypeError H eq_refl).
Defined.

Lemma is_in_pna_file_by_file_witness :
  readable (take 1 bats_and_dragonflies ++ [dragonflies]) /\
  let whole := grid_is_in_pna 50 50 50 50 (take 1 bats_and_dragonflies ++ [dragonflies]) in
  let first := grid_is_in_pna 50 50 50 50 (take 1 bats_and_dragonflies) in
  let rest := grid_is_in_pna 50 50 50 50 [dragonflies] in
  result_dicts whole = result_dicts first ++ result_dicts rest /\
  store_after whole = store_after first ++ store_after rest /\
  length (result_refs whole) = length (result_refs first) + length (result_refs rest).
Proof.
  assert (readable (take 1 bats_and_dragonflies ++ [dragonflies])) as H
    by (repeat constructor; by eexists).
  split; [exact H|].
  exact (is_in_pna_file_by_file Z box grid_Point grid_buffer grid_shape grid_contains
           grid_intersects 50%Z 50%Z 50%Z 50%Z (take 1 bats_and_dragonflies) [dragonflies] H).
Defined.

(** The third feature of the bats: its [id] is kept, at its place. *)
Lemma results_keep_the_attributes_witness :
  let out := grid_is_in_pna 50 50 50 50 bats_and_dragonflies in
  (0, 2) ∈ result_refs out /\
  exists d0 d,
    properties_at bats_and_dragonflies (0, 2) = Some (PyDict d0) /\
    properties_at (store_after out) (0, 2) = Some (PyDict d) /\
    d0.*1 `prefix_of` d.*1 /\
    forall k, k <> "enjeu_détaillé" -> k <> "type_pna" -> k <> "fichier_source" ->
              dict_get k d = dict_get k d0.
Proof.
  cbv zeta.
  assert ((0, 2) ∈ result_refs (grid_is_in_pna 50 50 50 50 bats_and_dragonflies)) as H
    by apply list_elem_of_further, list_elem_of_here.
  split; [exact H|].
  exact (results_keep_the_attributes Z box grid_Point grid_buffer grid_shape grid_contains
           grid_intersects 50%Z 50%Z 50%Z 50%Z bats_and_dragonflies (0, 2) H).
Defined.

Lemma stored_types_are_known_witness :
  automatic ∈ automatic :: forced_choices /\
  Forall (fun entry : string * file_info => type entry.2 ∈ unknown_type :: forced_choices)
    (all_data_sources
       (load_uploaded_files ascii_lower no_container_text automatic
          [merid_file; chiroptere_file; array_file])).
Proof.
  assert (automatic ∈ automatic :: forced_choices) as H by apply list_elem_of_here.
  split; [exact H|].
  exact (stored_types_are_known ascii_lower no_container_text automatic
           [merid_file; chiroptere_file; array_file] H).
Defined.

(** The second upload takes the place of the first, before the
    dragonflies loaded in between. *)
Lemma later_upload_replaces_witness :
  let s := load_uploaded_files ascii_lower no_container_text "Odonates"
             [chiroptere_file; merid_file] in
  "Odonates" ∈ forced_choices /\
  accepted ascii_lower chiroptere_again = Some (feature_collection []) /\
  NoDup (all_data_sources s).*1 /\
  let before := all_data_sources s in
  let after :=
    all_data_sources
      (process_uploaded_file ascii_lower no_container_text "Odonates" s chiroptere_again) in
  after.*1 = (if decide (name chiroptere_again ∈ before.*1) then before.*1
              else before.*1 ++ [name chiroptere_again]) /\
  (forall info, (name chiroptere_again, info) ∈ after <->
                info = {| data := feature_collection []; type := "Odonates" |}) /\
  (forall n info, n <> name chiroptere_again -> (n, info) ∈ after <-> (n, info) ∈ before).
Proof.
  cbv zeta.
  assert ("Odonates" ∈ forced_choices) as H1
    by apply list_elem_of_further, list_elem_of_here.
  assert (NoDup (all_data_sources
                   (load_uploaded_files ascii_lower no_container_text "Odonates"
                      [chiroptere_file; merid_file])).*1) as H2.
  { vm_compute. apply NoDup_cons. split.
    - intros H%list_elem_of_singleton. discriminate.
    - apply NoDup_singleton. }
  split; [exact H1|]. split; [reflexivity|]. split; [exact H2|].
  exact (later_upload_replaces ascii_lower no_container_text "Odonates" _ chiroptere_again
           (feature_collection []) H1 eq_refl H2).
Defined.

Lemma rejected_file_changes_nothing_witness :
  accepted ascii_lower no_features_key = None /\
  all_data_sources
    (load_uploaded_files ascii_lower no_container_text automatic
       ([merid_file] ++ no_features_key :: [chiroptere_file])) =
  all_data_sources
    (load_uploaded_files ascii_lower no_container_text automatic
       ([merid_file] ++ [chiroptere_file])).
Proof.
  split; [reflexivity|].
  exact (rejected_file_changes_nothing ascii_lower no_container_text automatic
           [merid_file] [chiroptere_file] no_features_key eq_refl).
Defined.

(** A file without [features] is turned down with a notice, not with an
    error: the table is built. *)
Lemma summary_after_a_clean_load_witness :
  let s := load_uploaded_files ascii_lower no_container_text automatic
             [merid_file; no_features_key; chiroptere_file] in
  (forall file_name e, LoadError file_name e ∉ shown s) /\
  exists rows,
    file_summary (all_data_sources s) = Ok rows /\
    (fun r => (s_fichier r, s_type_pna r)) <$> rows =
      (fun entry : string * file_info => (entry.1, type entry.2)) <$> all_data_sources s /\
    Forall2 (fun r (entry : string * file_info) =>
               zone_count entry.2 = Ok (s_nombre_de_zones r))
      rows (all_data_sources s).
Proof.
  cbv zeta.
  assert (forall file_name e,
            LoadError file_name e ∉
              shown (load_uploaded_files ascii_lower no_container_text automatic
                       [merid_file; no_features_key; chiroptere_file])) as H.
  { intros file_name e. vm_compute shown.
    rewrite !not_elem_of_cons. split_and!; try discriminate. apply not_elem_of_nil. }
  split; [exact H|].
  exact (summary_after_a_clean_load ascii_lower no_container_text automatic
           [merid_file; no_features_key; chiroptere_file] H).
Defined.

(** A document whose [features] is the number 3. Under a name that says
    bats it is held and breaks the table; under a name that says nothing
    it is not held. *)
Lemma uncounted_file_breaks_the_summary_witness :
  let s := load_uploaded_files ascii_lower no_container_text automatic [merid_file] in
  let held := process_uploaded_file ascii_lower no_container_text automatic s
                uncountable_bats in
  let left_out := process_uploaded_file ascii_lower no_container_text automatic s
                    uncountable_file in
  automatic ∈ automatic :: forced_choices /\
  accepted ascii_lower uncountable_bats = Some three_features /\
  accepted ascii_lower uncountable_file = Some three_features /\
  zone_count {| data := three_features; type := automatic |} = Raise TypeError /\
  shown held = shown s ++ [LoadError "chauve_count.json" TypeError] /\
  ("chauve_count.json", {| data := three_features; type := "Chiroptères" |})
    ∈ all_data_sources held /\
  (exists e', loaded_files_table (all_data_sources held) = Raise e') /\
  shown left_out = shown s ++ [LoadError "count.json" TypeError] /\
  all_data_sources left_out = all_data_sources s.
Proof.
  cbv zeta.
  assert (automatic ∈ automatic :: forced_choices) as H by apply list_elem_of_here.
  split; [exact H|]. do 3 (split; [reflexivity|]).
  destruct (uncounted_file_breaks_the_summary ascii_lower no_container_text automatic
              (load_uploaded_files ascii_lower no_container_text automatic [merid_file])
              uncountable_bats three_features TypeError H eq_refl eq_refl)
    as (H1 & H2 & H3).
  destruct (uncounted_file_breaks_the_summary ascii_lower no_container_text automatic
              (load_uploaded_files ascii_lower no_container_text automatic [merid_file])
              uncountable_file three_features TypeError H eq_refl eq_refl)
    as (H4 & H5).
  split_and!; [exact H1 | exact H2 | exact H3 | exact H4 | exact H5].
Defined.

(** The dragonfly decides; the bat after it is not read. *)
Lemma content_scan_first_decides_witness :
  Forall (fun g => scan_content ascii_lower no_container_text [g] = Ok not_detected)
    unnamed_features /\
  scan_content ascii_lower no_container_text
    (unnamed_features ++ dragonfly_feature :: [bat_feature]) = Ok "Odonates".
Proof.
  assert (Forall (fun g => scan_content ascii_lower no_container_text [g] = Ok not_detected)
            unnamed_features) as H by (repeat constructor).
  split; [exact H|].
  rewrite (content_scan_first_decides ascii_lower no_container_text unnamed_features
             [bat_feature] dragonfly_feature H).
  reflexivity.
Defined.

(** The species, the commune and the stake go to the first tab, the rest
    to the second. *)
Lemma split_props_parts_the_items_witness :
  NoDup bat_zone.*1 /\
  split_props bat_zone =
    ([ ("n_espece", PyStr "Murin"); ("n_commune", PyStr "Albi"); ("t_enjeux", PyStr "Fort") ],
     [ ("id", PyInt 12); ("surface", PyFloat "3.5") ]).
Proof.
  assert (NoDup bat_zone.*1) as H
    by (apply (bool_decide_unpack (NoDup bat_zone.*1)); vm_compute; exact I).
  split; [exact H|].
  rewrite (split_props_parts_the_items bat_zone H). reflexivity.
Defined.

Lemma zones_table_rows_witness :
  let out := grid_is_in_pna 50 50 50 50 bats_and_dragonflies in
  returned out = (true, Some [(0, 0); (0, 2); (1, 0)]) /\
  exists rows,
    result_data (result_dicts out) = Ok rows /\
    r_zone <$> rows = [1; 2; 3] /\
    length rows = 3.
Proof.
  cbv zeta. split; [reflexivity|].
  destruct (zones_table_rows Z box grid_Point grid_buffer grid_shape grid_contains
              grid_intersects 50%Z 50%Z 50%Z 50%Z bats_and_dragonflies
              [(0, 0); (0, 2); (1, 0)] eq_refl) as (rows & Hrows & Hz & Hall).
  exists rows. split_and!; [done..|].
  by rewrite (Forall2_length _ _ _ Hall).
Defined.

(** The table of that query: the stake of the first bat zone is its
    [t_enjeux], that of the second the default, that of the dragonflies
    is empty. *)
Example zones_table_of_three :
  result_data (result_dicts (grid_is_in_pna 50 50 50 50 bats_and_dragonflies)) =
    Ok [ {| r_zone := 1; r_type_pna := PyStr "Chiroptères";
            r_espece := PyStr "Non spécifié"; r_enjeu := PyStr "Fort";
            r_fichier_source := PyStr "chauve.json" |};
         {| r_zone := 2; r_type_pna := PyStr "Chiroptères";
            r_espece := PyStr "Non spécifié"; r_enjeu := PyStr "Indéterminé";
            r_fichier_source := PyStr "chauve.json" |};
         {| r_zone := 3; r_type_pna := PyStr "Odonates";
            r_espece := PyStr "Non spécifié"; r_enjeu := PyStr "";
            r_fichier_source := PyStr "odo.json" |} ].
Proof. reflexivity. Qed.

Lemma zone_details_have_both_tables_witness :
  let out := grid_is_in_pna 50 50 50 50 bats_and_dragonflies in
  returned out = (true, Some [(0, 0); (0, 2); (1, 0)]) /\
  exists panels,
    zone_panels 1 (result_dicts out) = (panels, None) /\
    d_zone <$> panels = [1; 2; 3] /\
    Forall (fun p => exists t1 t2, d_tab1 p = TabTable t1 /\ d_tab2 p = TabTable t2) panels.
Proof.
  cbv zeta. split; [reflexivity|].
  destruct (zone_details_have_both_tables Z box grid_Point grid_buffer grid_shape
              grid_contains grid_intersects 50%Z 50%Z 50%Z 50%Z bats_and_dragonflies
              [(0, 0); (0, 2); (1, 0)] eq_refl) as (panels & Hpanels & Hz & Hall).
  exists panels. split_and!; [done..|].
  clear Hpanels Hz. induction Hall as [|p r ps rs (d0 & t1 & t2 & _ & _ & H1 & _ & H2 & _) _ IH];
    constructor; [by exists t1, t2 | exact IH].
Defined.

(** The API gives the longitude 50 before the latitude 60; the point is
    returned latitude first. *)
Lemma api_answer_is_read_witness :
  get_coordinates one_address_api integer_percent grid_to_l93 town_hall nothing_typed =
    ([Found (PyStr "1 Place de la Mairie 34000 Montpellier") "100.0"],
     Ok (Some (PyInt 60, PyInt 50, PyInt 50, PyInt 60,
               PyStr "1 Place de la Mairie 34000 Montpellier"))).
Proof.
  exact (api_answer_is_read one_address_api integer_percent grid_to_l93 town_hall
           nothing_typed {| status_code := 200; json := Some (PyDict town_hall_answer) |}
           town_hall_answer
           [ ("label", PyStr "1 Place de la Mairie 34000 Montpellier"); ("score", PyInt 1) ]
           town_hall_feature
           (PyDict [("type", PyStr "Point"); ("coordinates", PyList [PyInt 50; PyInt 60])])
           (PyInt 50) (PyInt 60) (PyInt 50) (PyInt 60) [] "100.0"
           eq_refl eq_refl eq_refl eq_refl eq_refl eq_refl eq_refl eq_refl eq_refl).
Defined.

(** After a reset the flag is up, and the fields start as they would with
    the flag down. *)
Lemma fields_start_from_what_is_remembered_witness :
  let st := reset_fields (init_session_state None) in
  reachable st /\
  reset_pressed st = true /\
  (address_field st).1 = last_address st /\
  (coordinate_fields st).1 = (last_lat st, last_lon st).
Proof.
  cbv zeta.
  assert (reachable (reset_fields (init_session_state None)))
    as H by (apply reach_reset, reach_first).
  split; [exact H|]. split; [reflexivity|].
  exact (fields_start_from_what_is_remembered _ H).
Defined.

(** The bats and the dragonflies can be counted: a check on them
    reports nothing. *)
Lemma check_after_the_summary_reports_nothing_witness :
  let out := is_in_pna grid_Point_of grid_buffer grid_shape grid_contains grid_intersects
               (PyInt 50) (PyInt 50) (PyInt 50) (PyInt 50) bats_and_dragonflies in
  loaded_files_table bats_and_dragonflies =
    Ok (Some [ {| s_fichier := "chauve.json"; s_type_pna := "Chiroptères";
                  s_nombre_de_zones := 4 |};
               {| s_fichier := "odo.json"; s_type_pna := "Odonates";
                  s_nombre_de_zones := 1 |} ]) /\
  reported out = [] /\
  verify_point grid_Point_of grid_buffer grid_shape grid_contains grid_intersects
    grid_format Adresse (PyInt 50) (PyInt 50) (PyInt 50) (PyInt 50) bats_and_dragonflies =
    ([Wgs84 (PyInt 50) (PyInt 50); Lambert93 (PyInt 50) (PyInt 50)]
       ++ (show_answer Adresse out).1,
     None, store_after out).
Proof.
  cbv zeta. split; [reflexivity|].
  exact (check_after_the_summary_reports_nothing box grid_Point_of grid_buffer grid_shape
           grid_contains grid_intersects grid_format Adresse (PyInt 50) (PyInt 50)
           (PyInt 50) (PyInt 50) bats_and_dragonflies _ eq_refl
           eq_refl eq_refl eq_refl eq_refl).
Defined.

(** With the box ticked the query is made at the typed x and y; the
    latitude and the longitude typed before are not read. *)
Lemma coordinates_check_witness :
  let w := {| in_lat := PyFloat "43.6"; in_lon := PyFloat "2.7"; use_lambert93 := true;
              in_x := PyInt 50; in_y := PyInt 60; check_coords := true |} in
  let h := coordinate_mode grid_Point_of grid_buffer grid_shape grid_contains grid_intersects
             grid_format grid_to_l93 grid_to_wgs84 w (reset_fields (init_session_state None))
             far_away in
  grid_to_wgs84 (PyInt 50) (PyInt 60) = Ok (PyInt 50, PyInt 60) /\
  raised h = None /\
  datasets h = far_away /\
  page h = [Wgs84 (PyInt 60) (PyInt 50); Lambert93 (PyInt 50) (PyInt 60);
            InNoZone Coordonnees] /\
  state h = {| reset_pressed := false; last_address := "";
               last_lat := PyInt 60; last_lon := PyInt 50 |}.
Proof.
  cbv zeta. split; [reflexivity|].
  destruct (coordinates_check box grid_Point_of grid_buffer grid_shape grid_contains
              grid_intersects grid_format grid_to_l93 grid_to_wgs84
              {| in_lat := PyFloat "43.6"; in_lon := PyFloat "2.7"; use_lambert93 := true;
                 in_x := PyInt 50; in_y := PyInt 60; check_coords := true |}
              (reset_fields (init_session_state None)) far_away
              (PyInt 60) (PyInt 50) (PyInt 50) (PyInt 60)
              eq_refl ltac:(discriminate) ltac:(by split_and!)
              eq_refl eq_refl eq_refl eq_refl) as (H1 & H2 & H3 & H4).
  rewrite H1, H2, H3, H4. by split_and!.
Defined.

(** The address the API knows, checked against the bats and the
    dragonflies: three zones. *)
Lemma address_check_witness :
  let w := {| typed_address := town_hall; check_button := true; manual := nothing_typed |} in
  let h := address_mode grid_Point_of grid_buffer grid_shape grid_contains grid_intersects
             grid_format grid_to_l93 one_address_api integer_percent w
             (init_session_state None) bats_and_dragonflies in
  get_coordinates one_address_api integer_percent grid_to_l93 town_hall nothing_typed =
    ([Found (PyStr "1 Place de la Mairie 34000 Montpellier") "100.0"],
     Ok (Some (PyInt 60, PyInt 50, PyInt 50, PyInt 60,
               PyStr "1 Place de la Mairie 34000 Montpellier"))) /\
  raised h = None /\
  length (page h) = 9 /\
  take 5 (page h) =
    [ TypedAddress town_hall;
      Geocoding (Found (PyStr "1 Place de la Mairie 34000 Montpellier") "100.0");
      Wgs84 (PyInt 60) (PyInt 50); Lambert93 (PyInt 50) (PyInt 60); InZones Adresse 3 ] /\
  state h = {| reset_pressed := false; last_address := town_hall;
               last_lat := PyFloat "43.6"; last_lon := PyFloat "2.7" |}.
Proof.
  cbv zeta. split; [reflexivity|].
  destruct (address_check box grid_Point_of grid_buffer grid_shape grid_contains
              grid_intersects grid_format grid_to_l93 one_address_api integer_percent
              {| typed_address := town_hall; check_button := true; manual := nothing_typed |}
              (init_session_state None) bats_and_dragonflies
              [Found (PyStr "1 Place de la Mairie 34000 Montpellier") "100.0"]
              (PyInt 60) (PyInt 50) (PyInt 50) (PyInt 60)
              (PyStr "1 Place de la Mairie 34000 Montpellier")
              eq_refl ltac:(discriminate) ltac:(discriminate) eq_refl
              eq_refl eq_refl eq_refl eq_refl) as (H1 & H2 & H3 & H4).
  rewrite H1, H3, H4. by split_and!.
Defined.
